(** * Food_Bridge: the dual-write service of [src/lib/firebase-service.ts]

    A shallow embedding of the module that writes donations, requirements and
    matches to the relational store (Supabase) and mirrors them to the
    real-time store (Firebase), together with its subscription entry points,
    its analytics cache and its mock pub/sub helpers.

    Conventions of the embedding:
    - an [async] function is a computation in the monad [M]: it takes the
      state of the module and of the host ([World]) and yields an outcome
      (a value or a thrown error), the next state and the effects it
      performed, oldest first;
    - the collaborators that are not part of the module (the Supabase
      services, the Firebase client, the environment) are the fields of
      [Env]; every call to one of them is recorded as an [event];
    - JavaScript strings are [string]s whose characters are code units
      below 256;
    - JavaScript numbers that the module only carries around are elements of
      an abstract [number] with the operations the module applies to them
      ([NumberOps]). *)

From Stdlib Require Import ZArith List String Ascii Bool Lia.
Import ListNotations.

Local Open Scope string_scope.
Local Open Scope Z_scope.

(** ** Host language: strings, truthiness, dates, [parseInt] *)

(** [x || d] on an optional string: [undefined] and [''] are falsy. *)
Definition string_or (x : option string) (d : string) : string :=
  match x with
  | Some EmptyString => d
  | Some s => s
  | None => d
  end.

(** Truthiness of an optional string. *)
Definition truthy_string (x : option string) : bool :=
  match x with
  | Some EmptyString => false
  | Some _ => true
  | None => false
  end.

Definition digit_char (d : Z) : ascii := ascii_of_nat (48 + Z.to_nat (d mod 10)).

(** The last [width] decimal digits of [z], zero padded. *)
Fixpoint pad_decimal (width : nat) (z : Z) : string :=
  match width with
  | O => ""
  | S k => pad_decimal k (z / 10) ++ String (digit_char z) ""
  end.

Fixpoint decimal_digits (fuel : nat) (z : Z) : string :=
  match fuel with
  | O => ""
  | S k => (if z / 10 =? 0 then "" else decimal_digits k (z / 10))
           ++ String (digit_char z) ""
  end.

(** [String(z)] for an integer [z]. *)
Definition Z_toString (z : Z) : string :=
  let a := Z.abs z in
  (if z <? 0 then "-" else "") ++ decimal_digits (S (Z.to_nat (Z.log2 a))) a.

Module Date.

Definition msPerDay : Z := 24 * 60 * 60 * 1000.

(** Year, month and day of the proleptic Gregorian calendar for a number
    of days since 1970-01-01. *)
Definition civil_from_days (days : Z) : Z * Z * Z :=
  let z := days + 719468 in
  let era := z / 146097 in
  let doe := z - era * 146097 in
  let yoe := (doe - doe / 1460 + doe / 36524 - doe / 146096) / 365 in
  let doy := doe - (365 * yoe + yoe / 4 - yoe / 100) in
  let mp := (5 * doy + 2) / 153 in
  let d := doy - (153 * mp + 2) / 5 + 1 in
  let m := if mp <? 10 then mp + 3 else mp - 9 in
  let y := yoe + era * 400 + (if m <=? 2 then 1 else 0) in
  (y, m, d).

Definition year_string (y : Z) : string :=
  if (0 <=? y) && (y <=? 9999) then pad_decimal 4 y
  else (if y <? 0 then "-" else "+") ++ pad_decimal 6 (Z.abs y).

(** [new Date(t).toISOString()] for a time value [t] in milliseconds since
    the epoch. The host clock only yields time values inside the range of
    [Date], where the method does not throw. *)
Definition toISOString (t : Z) : string :=
  let '(y, m, d) := civil_from_days (t / msPerDay) in
  let ms := t mod msPerDay in
  year_string y ++ "-" ++ pad_decimal 2 m ++ "-" ++ pad_decimal 2 d ++ "T"
    ++ pad_decimal 2 (ms / 3600000) ++ ":"
    ++ pad_decimal 2 (ms / 60000 mod 60) ++ ":"
    ++ pad_decimal 2 (ms / 1000 mod 60) ++ "."
    ++ pad_decimal 3 (ms mod 1000) ++ "Z".

End Date.

Module ParseInt.

(** White space and line terminators among the code units below 256. *)
Definition is_space (c : ascii) : bool :=
  let n := nat_of_ascii c in
  ((9 <=? n) && (n <=? 13) || (n =? 32) || (n =? 160))%nat.

Fixpoint trim_start (s : string) : string :=
  match s with
  | String c s' => if is_space c then trim_start s' else s
  | EmptyString => s
  end.

(** Value of [c] as a digit of the given radix (10 or 16). *)
Definition digit_value (radix : Z) (c : ascii) : option Z :=
  let n := Z.of_nat (nat_of_ascii c) in
  if (48 <=? n) && (n <=? 57) then Some (n - 48)
  else if (radix =? 16) && (97 <=? n) && (n <=? 102) then Some (n - 87)
  else if (radix =? 16) && (65 <=? n) && (n <=? 70) then Some (n - 55)
  else None.

(** Longest prefix of digits: [None] when it is empty, otherwise its
    value, continuing from the accumulator. *)
Fixpoint digits (radix : Z) (s : string) (acc : option Z) : option Z :=
  match s with
  | String c s' =>
      match digit_value radix c with
      | Some d => digits radix s' (Some (radix * match acc with Some a => a | None => 0 end + d))
      | None => acc
      end
  | EmptyString => acc
  end.

Definition strip_sign (s : string) : Z * string :=
  match s with
  | String "-" s' => (-1, s')
  | String "+" s' => (1, s')
  | _ => (1, s)
  end.

Definition strip_hex_prefix (s : string) : Z * string :=
  match s with
  | String "0" (String "x" s') => (16, s')
  | String "0" (String "X" s') => (16, s')
  | _ => (10, s)
  end.

(** [parseInt(s)] without a radix: [None] is [NaN], [Some z] the integer
    the digits denote (before it is rounded to a Number). *)
Definition parseInt (s : string) : option Z :=
  let '(sign, s1) := strip_sign (trim_start s) in
  let '(radix, s2) := strip_hex_prefix s1 in
  match digits radix s2 None with
  | Some v => Some (sign * v)
  | None => None
  end.

End ParseInt.

(** ** JavaScript numbers

    The module never computes with the numbers it handles, apart from
    parsing them from strings, printing them and testing them for
    truthiness; these operations are the interface. *)
Class NumberOps : Type := {
  number : Type;
  (** [parseFloat(s)]; also the value of a numeric literal spelled [s] *)
  parseFloat : string -> number;
  (** the Number of an integer *)
  number_of_Z : Z -> number;
  (** [n.toString()] and [`${n}`] *)
  number_toString : number -> string;
  (** [false] for [0], [-0] and [NaN] *)
  number_truthy : number -> bool
}.

(** Thrown values. *)
Definition error : Type := string.

Inductive result (A : Type) : Type :=
| Ok (a : A)
| Throw (e : error).
Arguments Ok {A} a.
Arguments Throw {A} e.

Section DataModel.

Context {N : NumberOps}.

Record Location := {
  address : string;
  lat : number;
  lng : number
}.

(** [FoodDonation]. The status is one of 'pending', 'matched',
    'completed', 'expired'; TypeScript's annotations are erased at run
    time, so the field holds a string. A property that may be missing at
    run time is an [option]. *)
Record FoodDonation := {
  fd_id : option string;
  fd_donorId : string;
  fd_donorName : string;
  fd_foodType : string;
  fd_quantity : string;
  fd_unit : string;
  fd_description : string;
  fd_location : Location;
  fd_pickupTime : option string;
  fd_expiryDate : option string;
  fd_imageUrl : option string;
  fd_status : string;
  fd_matchedWith : option string;
  fd_matchedAt : option string;
  fd_createdAt : string;
  fd_updatedAt : string
}.

(** [Omit<FoodDonation, 'id' | 'createdAt' | 'updatedAt'>] *)
Record DonationInput := {
  di_donorId : string;
  di_donorName : string;
  di_foodType : string;
  di_quantity : string;
  di_unit : string;
  di_description : string;
  di_location : Location;
  di_pickupTime : option string;
  di_expiryDate : option string;
  di_imageUrl : option string;
  di_status : string;
  di_matchedWith : option string;
  di_matchedAt : option string
}.

(** [FoodRequirement]; status among 'active', 'matched', 'fulfilled',
    urgency among 'high', 'medium', 'low'. *)
Record FoodRequirement := {
  fr_id : option string;
  fr_receiverId : string;
  fr_receiverName : string;
  fr_organizationName : string;
  fr_title : string;
  fr_foodType : string;
  fr_quantity : string;
  fr_unit : string;
  fr_urgency : string;
  fr_description : string;
  fr_location : Location;
  fr_neededBy : option string;
  fr_servingSize : string;
  fr_status : string;
  fr_matchedWith : option string;
  fr_matchedAt : option string;
  fr_createdAt : string;
  fr_updatedAt : string
}.

(** [Omit<FoodRequirement, 'id' | 'createdAt' | 'updatedAt'>] *)
Record RequirementInput := {
  ri_receiverId : string;
  ri_receiverName : string;
  ri_organizationName : string;
  ri_title : string;
  ri_foodType : string;
  ri_quantity : string;
  ri_unit : string;
  ri_urgency : string;
  ri_description : string;
  ri_location : Location;
  ri_neededBy : option string;
  ri_servingSize : string;
  ri_status : string;
  ri_matchedWith : option string;
  ri_matchedAt : option string
}.

(** [Match]; status among 'pending', 'confirmed', 'completed',
    'cancelled'. *)
Record Match := {
  m_id : option string;
  m_donationId : string;
  m_requirementId : string;
  m_donorId : string;
  m_receiverId : string;
  m_status : string;
  m_distance : number;
  m_matchScore : number;
  m_createdAt : string;
  m_updatedAt : string
}.

(** [Omit<Match, 'id' | 'createdAt' | 'updatedAt'>] *)
Record MatchInput := {
  mi_donationId : string;
  mi_requirementId : string;
  mi_donorId : string;
  mi_receiverId : string;
  mi_status : string;
  mi_distance : number;
  mi_matchScore : number
}.

(** *** Rows of the relational store *)

(** Argument of [foodItemService.create]. *)
Record FoodItemInsert := {
  fii_donor_id : string;
  fii_food_type : string;
  fii_quantity : number;
  fii_unit : string;
  fii_description : string;
  fii_pickup_address : string;
  fii_pickup_latitude : number;
  fii_pickup_longitude : number;
  fii_pickup_time : string;
  fii_expiry_date : string;
  fii_image_url : string;
  fii_status : string
}.

(** A row of [food_items], as far as the module reads it. *)
Record FoodItemRow := {
  fi_id : string;
  fi_donor_id : string;
  fi_food_type : string;
  fi_quantity : number;
  fi_unit : string;
  fi_description : string;
  fi_pickup_address : string;
  fi_pickup_latitude : number;
  fi_pickup_longitude : number;
  fi_pickup_time : string;
  fi_expiry_date : string;
  fi_image_url : option string;
  fi_status : string;
  fi_created_at : string;
  fi_updated_at : string
}.

(** Argument of [requestService.create]. *)
Record RequestInsert := {
  rqi_ngo_id : string;
  rqi_title : string;
  rqi_food_type : string;
  rqi_quantity : number;
  rqi_unit : string;
  rqi_urgency : string;
  rqi_description : string;
  rqi_delivery_address : string;
  rqi_delivery_latitude : number;
  rqi_delivery_longitude : number;
  rqi_needed_by : string;
  rqi_serving_size : number;
  rqi_status : string
}.

(** A row of [requests]; [serving_size] may be null. *)
Record RequestRow := {
  rq_id : string;
  rq_ngo_id : string;
  rq_title : string;
  rq_food_type : string;
  rq_quantity : number;
  rq_unit : string;
  rq_urgency : string;
  rq_description : string;
  rq_delivery_address : string;
  rq_delivery_latitude : number;
  rq_delivery_longitude : number;
  rq_needed_by : string;
  rq_serving_size : option number;
  rq_status : string;
  rq_created_at : string;
  rq_updated_at : string
}.

(** Argument of [transactionService.create]. *)
Record TransactionInsert := {
  txi_donor_id : string;
  txi_ngo_id : string;
  txi_food_item_id : string;
  txi_request_id : string;
  txi_quantity_transferred : number;
  txi_status : string;
  txi_pickup_time : string;
  txi_delivery_time : string;
  txi_match_score : number;
  txi_distance_km : number
}.

(** A row of [transactions]: the module only reads its [id]. *)
Record TransactionRow := {
  tx_id : string
}.

(** *** Documents of the real-time store *)

(** Entry of [activity_feed] written by [createDonation]. *)
Record DonationActivity := {
  da_id : string;
  da_type : string;
  da_donationId : string;
  da_donorId : string;
  da_donorName : string;
  da_foodType : string;
  da_quantity : string;
  da_unit : string;
  da_location : string;
  da_timestamp : string;
  da_message : string
}.

(** Entry of [activity_feed] written by [createRequirement]. *)
Record RequirementActivity := {
  ra_id : string;
  ra_type : string;
  ra_requirementId : string;
  ra_receiverId : string;
  ra_receiverName : string;
  ra_organizationName : string;
  ra_title : string;
  ra_foodType : string;
  ra_quantity : string;
  ra_unit : string;
  ra_urgency : string;
  ra_location : string;
  ra_timestamp : string;
  ra_message : string
}.

(** Entry of [activity_feed] written by [createMatch]. *)
Record MatchActivity := {
  ma_id : string;
  ma_type : string;
  ma_matchId : string;
  ma_donationId : string;
  ma_requirementId : string;
  ma_donorId : string;
  ma_receiverId : string;
  ma_matchScore : number;
  ma_distance : number;
  ma_timestamp : string;
  ma_message : string
}.

(** [Partial<FoodDonation>] and [Partial<FoodRequirement>] as the status
    updates build them, and the object [updateMatchStatus] writes (which
    never has the last two fields). *)
Record StatusPatch := {
  sp_status : string;
  sp_updatedAt : string;
  sp_matchedWith : option string;
  sp_matchedAt : option string
}.

(** What [set] and [update] are given. *)
Inductive MirrorValue : Type :=
| VDonation (d : FoodDonation)
| VRequirement (r : FoodRequirement)
| VMatch (m : Match)
| VDonationActivity (a : DonationActivity)
| VRequirementActivity (a : RequirementActivity)
| VMatchActivity (a : MatchActivity)
| VPatch (p : StatusPatch).

(** The [type] of an activity-feed entry, [None] for other documents. *)
Definition activity_type (v : MirrorValue) : option string :=
  match v with
  | VDonationActivity a => Some (da_type a)
  | VRequirementActivity a => Some (ra_type a)
  | VMatchActivity a => Some (ma_type a)
  | _ => None
  end.

End DataModel.

(** ** Effects, state and collaborators *)

Inductive level : Set := LLog | LWarn | LError.

(** What a subscription entry point returns: the no-op [() => {}] or the
    closure that unsubscribes the channel it has opened. *)
Inductive Unsubscribe : Set :=
| NoOp
| UnsubscribeChannel (channel : string).

(** A JavaScript array value: one of the module-level mock arrays, shared
    by reference, or an array built by the call that returns it. *)
Inductive array_ref (A : Type) : Type :=
| ModuleArray
| FreshArray (items : list A).
Arguments ModuleArray {A}.
Arguments FreshArray {A} items.

(** [{ data, error }] of a Supabase query. *)
Record QueryResult (A : Type) : Type := {
  q_data : option (list A);
  q_error : option error
}.
Arguments q_data {A} q.
Arguments q_error {A} q.

Section Effects.

Context {N : NumberOps}.

(** The effects of the module that leave it: console output, calls to
    the relational store, calls to the real-time store, and invocations
    of the callbacks it was given. *)
Inductive event : Type :=
| Console (lvl : level) (msg : string) (err : option error)
| FoodItemCreate (d : FoodItemInsert)
| FoodItemUpdateStatus (id status : string)
| FoodItemGetByDonor (donorId : string)
| RequestCreate (d : RequestInsert)
| RequestUpdateStatus (id status : string)
| RequestGetByNGO (ngoId : string)
| TransactionCreate (d : TransactionInsert)
| SelectByStatus (table status : string)
| ChannelSubscribe (channel table filter : string)
| ChannelUnsubscribe (channel : string)
| FirebasePush (parent : string)
| FirebaseSet (path : string) (v : MirrorValue)
| FirebaseUpdate (path : string) (v : MirrorValue)
| FirebaseGet (path : string)
| CallbackDonations (data : list FoodDonation)
| CallbackRequirements (data : list FoodRequirement).

(** The object [getAnalyticsData] returns. *)
Record AnalyticsData := {
  donations : array_ref FoodDonation;
  requirements : array_ref FoodRequirement;
  matches : array_ref Match
}.

(** An object with its identity: two objects are reference-identical
    when their addresses are equal. *)
Definition object (A : Type) : Type := (nat * A)%type.

(** The state the module reads and writes: the host clock, the mock
    arrays, the analytics cache, and the allocator of object
    identities. *)
Record World := {
  now : Z;
  mockDonations : list FoodDonation;
  mockRequirements : list FoodRequirement;
  mockMatches : list Match;
  analyticsCache : option (object AnalyticsData);
  analyticsCacheTime : Z;
  next_object : nat
}.

(** The answer of an awaited call: its outcome and the time at which the
    caller resumes. *)
Definition reply (A : Type) : Type := (result A * Z)%type.

(** The collaborators. A call may answer differently in different
    states. *)
Record Env := {
  (** [process.env.NEXT_PUBLIC_FIREBASE_API_KEY] *)
  NEXT_PUBLIC_FIREBASE_API_KEY : option string;
  (** [process.env.NEXT_PUBLIC_FIREBASE_PROJECT_ID] *)
  NEXT_PUBLIC_FIREBASE_PROJECT_ID : option string;
  (** truthiness of [database && database.app]; [Throw] if reading it
      throws *)
  database_app : result bool;
  foodItemService_create : FoodItemInsert -> World -> reply (option FoodItemRow);
  foodItemService_updateStatus : string -> string -> World -> reply unit;
  foodItemService_getByDonor : string -> World -> reply (list FoodItemRow);
  requestService_create : RequestInsert -> World -> reply (option RequestRow);
  requestService_updateStatus : string -> string -> World -> reply unit;
  requestService_getByNGO : string -> World -> reply (list RequestRow);
  transactionService_create : TransactionInsert -> World -> reply (option TransactionRow);
  (** [supabase.from('food_items').select('*').eq('status', s).order(...)] *)
  supabase_select_food_items : string -> World -> reply (QueryResult FoodItemRow);
  (** the same on [requests] *)
  supabase_select_requests : string -> World -> reply (QueryResult RequestRow);
  (** [supabase.channel(c).on(...).subscribe()], synchronous *)
  supabase_subscribe : string -> World -> result unit;
  (** the key of [push(ref(database, parent))], synchronous *)
  firebase_push : string -> World -> result string;
  firebase_set : string -> MirrorValue -> World -> reply unit;
  firebase_update : string -> MirrorValue -> World -> reply unit;
  (** [(await get(ref(database, '.info/connected'))).exists()] *)
  firebase_get_connected : World -> reply bool;
  (** the children of the snapshots of [donations], [requirements] and
      [matches] *)
  firebase_get_donations : World -> reply (list FoodDonation);
  firebase_get_requirements : World -> reply (list FoodRequirement);
  firebase_get_matches : World -> reply (list Match)
}.

(** *** The monad of the module's functions *)

Record Run (A : Type) : Type := MkRun {
  outcome : result A;
  final : World;
  emitted : list event
}.
Arguments MkRun {A} outcome final emitted.
Arguments outcome {A} r.
Arguments final {A} r.
Arguments emitted {A} r.

Definition M (A : Type) : Type := World -> Run A.

Definition ret {A} (a : A) : M A := fun w => MkRun (Ok a) w [].

Definition throw {A} (e : error) : M A := fun w => MkRun (Throw e) w [].

Definition bind {A B} (m : M A) (f : A -> M B) : M B := fun w =>
  match m w with
  | MkRun (Ok a) w1 evs =>
      match f a w1 with
      | MkRun o w2 evs' => MkRun o w2 (evs ++ evs')
      end
  | MkRun (Throw e) w1 evs => MkRun (Throw e) w1 evs
  end.

(** [try { m } catch (e) { h e }] *)
Definition try_catch {A} (m : M A) (h : error -> M A) : M A := fun w =>
  match m w with
  | MkRun (Ok a) w1 evs => MkRun (Ok a) w1 evs
  | MkRun (Throw e) w1 evs =>
      match h e w1 with
      | MkRun o w2 evs' => MkRun o w2 (evs ++ evs')
      end
  end.

(** A call that is started and not awaited: [bg] runs once [m] is over,
    whatever the outcome of [m], and its own outcome is lost to the
    caller of [m]. *)
Definition then_background {A B} (m : M A) (bg : M B) : M A := fun w =>
  match m w with
  | MkRun o w1 evs =>
      match bg w1 with
      | MkRun _ w2 evs' => MkRun o w2 (evs ++ evs')
      end
  end.

Definition emit (ev : event) : M unit := fun w => MkRun (Ok tt) w [ev].

Definition set_now (t : Z) (w : World) : World :=
  {| now := t;
     mockDonations := mockDonations w;
     mockRequirements := mockRequirements w;
     mockMatches := mockMatches w;
     analyticsCache := analyticsCache w;
     analyticsCacheTime := analyticsCacheTime w;
     next_object := next_object w |}.

(** [await] of a call to a collaborator: the call is recorded, and the
    function resumes at the time of the answer. *)
Definition await {A} (ev : event) (call : World -> reply A) : M A := fun w =>
  MkRun (fst (call w)) (set_now (snd (call w)) w) [ev].

(** A synchronous call to a collaborator. *)
Definition call_sync {A} (ev : event) (call : World -> result A) : M A := fun w =>
  MkRun (call w) w [ev].

(** [Date.now()] *)
Definition Date_now : M Z := fun w => MkRun (Ok (now w)) w [].

Definition console_log (msg : string) : M unit := emit (Console LLog msg None).
Definition console_warn (msg : string) (e : error) : M unit := emit (Console LWarn msg (Some e)).
Definition console_error (msg : string) (e : error) : M unit := emit (Console LError msg (Some e)).

End Effects.

Arguments MkRun {N A} outcome final emitted.
Arguments outcome {N A} r.
Arguments final {N A} r.
Arguments emitted {N A} r.

Declare Scope js_scope.
Delimit Scope js_scope with js.
Notation "x <- m ;; k" := (bind m (fun x => k))
  (at level 61, m at next level, right associativity) : js_scope.
Notation "m ;; k" := (bind m (fun _ => k))
  (at level 61, right associativity) : js_scope.
Local Open Scope js_scope.

(** ** The module *)

Section Service.

Context {N : NumberOps}.

(** *** Mock data, computed when the module is loaded (at time [t0]) *)

Definition hours (h : Z) : Z := h * 60 * 60 * 1000.
Definition days (d : Z) : Z := d * 24 * 60 * 60 * 1000.

Definition initial_mockDonations (t0 : Z) : list FoodDonation :=
  [ {| fd_id := Some "1"; fd_donorId := "current-user"; fd_donorName := "Local Restaurant";
       fd_foodType := "Fresh Vegetables"; fd_quantity := "50"; fd_unit := "kg";
       fd_description := "Fresh organic vegetables from our garden";
       fd_location := {| address := "123 Main St, Downtown";
                         lat := parseFloat "37.7749"; lng := parseFloat "-122.4194" |};
       fd_pickupTime := Some (Date.toISOString (t0 + hours 2));
       fd_expiryDate := Some (Date.toISOString (t0 + hours 24));
       fd_imageUrl := None; fd_status := "pending";
       fd_matchedWith := None; fd_matchedAt := None;
       fd_createdAt := Date.toISOString (t0 - days 3);
       fd_updatedAt := Date.toISOString (t0 - days 3) |};
    {| fd_id := Some "2"; fd_donorId := "donor2"; fd_donorName := "Community Bakery";
       fd_foodType := "Bread and Pastries"; fd_quantity := "100"; fd_unit := "pieces";
       fd_description := "Freshly baked bread and pastries";
       fd_location := {| address := "456 Oak Ave, Midtown";
                         lat := parseFloat "37.7849"; lng := parseFloat "-122.4094" |};
       fd_pickupTime := Some (Date.toISOString (t0 + hours 4));
       fd_expiryDate := Some (Date.toISOString (t0 + hours 8));
       fd_imageUrl := None; fd_status := "pending";
       fd_matchedWith := None; fd_matchedAt := None;
       fd_createdAt := Date.toISOString (t0 - days 2);
       fd_updatedAt := Date.toISOString (t0 - days 2) |};
    {| fd_id := Some "3"; fd_donorId := "donor3"; fd_donorName := "Neighborhood Canteen";
       fd_foodType := "Cooked Meals"; fd_quantity := "60"; fd_unit := "portions";
       fd_description := "Daily meal surplus from canteen";
       fd_location := {| address := "789 Market St, Central";
                         lat := parseFloat "37.7689"; lng := parseFloat "-122.4312" |};
       fd_pickupTime := Some (Date.toISOString (t0 + hours 1));
       fd_expiryDate := Some (Date.toISOString (t0 + hours 12));
       fd_imageUrl := None; fd_status := "pending";
       fd_matchedWith := None; fd_matchedAt := None;
       fd_createdAt := Date.toISOString (t0 - days 1);
       fd_updatedAt := Date.toISOString (t0 - days 1) |} ].

Definition initial_mockRequirements (t0 : Z) : list FoodRequirement :=
  [ {| fr_id := Some "1"; fr_receiverId := "current-user"; fr_receiverName := "John Smith";
       fr_organizationName := "Community Shelter"; fr_title := "Daily Meal Program";
       fr_foodType := "Vegetables and Grains"; fr_quantity := "30"; fr_unit := "kg";
       fr_urgency := "high";
       fr_description := "Need fresh vegetables for our daily meal program";
       fr_location := {| address := "789 Pine St, Uptown";
                         lat := parseFloat "37.7649"; lng := parseFloat "-122.4294" |};
       fr_neededBy := Some (Date.toISOString (t0 + hours 48));
       fr_servingSize := "150"; fr_status := "active";
       fr_matchedWith := None; fr_matchedAt := None;
       fr_createdAt := Date.toISOString (t0 - days 1);
       fr_updatedAt := Date.toISOString (t0 - days 1) |};
    {| fr_id := Some "2"; fr_receiverId := "receiver2"; fr_receiverName := "Jane Doe";
       fr_organizationName := "Food Bank"; fr_title := "Weekly Food Distribution";
       fr_foodType := "Any Food Type"; fr_quantity := "100"; fr_unit := "portions";
       fr_urgency := "medium";
       fr_description := "Weekly food distribution for families in need";
       fr_location := {| address := "321 Elm St, Downtown";
                         lat := parseFloat "37.7749"; lng := parseFloat "-122.4194" |};
       fr_neededBy := Some (Date.toISOString (t0 + days 5));
       fr_servingSize := "100"; fr_status := "active";
       fr_matchedWith := None; fr_matchedAt := None;
       fr_createdAt := Date.toISOString (t0 - days 2);
       fr_updatedAt := Date.toISOString (t0 - days 2) |};
    {| fr_id := Some "3"; fr_receiverId := "receiver3"; fr_receiverName := "Shelter Manager";
       fr_organizationName := "Night Shelter"; fr_title := "Emergency Dinner Request";
       fr_foodType := "Cooked Meals"; fr_quantity := "80"; fr_unit := "portions";
       fr_urgency := "high";
       fr_description := "Short notice need for dinner service";
       fr_location := {| address := "55 Harbor Rd, Bayside";
                         lat := parseFloat "37.7600"; lng := parseFloat "-122.4350" |};
       fr_neededBy := Some (Date.toISOString (t0 + hours 6));
       fr_servingSize := "80"; fr_status := "active";
       fr_matchedWith := None; fr_matchedAt := None;
       fr_createdAt := Date.toISOString (t0 - hours 6);
       fr_updatedAt := Date.toISOString (t0 - hours 6) |} ].

Definition initial_mockMatches (t0 : Z) : list Match :=
  [ {| m_id := Some "1"; m_donationId := "1"; m_requirementId := "1";
       m_donorId := "donor1"; m_receiverId := "receiver1"; m_status := "confirmed";
       m_distance := parseFloat "2.5"; m_matchScore := number_of_Z 95;
       m_createdAt := Date.toISOString (t0 - days 2);
       m_updatedAt := Date.toISOString (t0 - days 2) |};
    {| m_id := Some "2"; m_donationId := "3"; m_requirementId := "3";
       m_donorId := "donor3"; m_receiverId := "receiver3"; m_status := "pending";
       m_distance := parseFloat "1.2"; m_matchScore := number_of_Z 88;
       m_createdAt := Date.toISOString (t0 - hours 6);
       m_updatedAt := Date.toISOString (t0 - hours 6) |} ].

(** The state right after the module is loaded at time [t0]. *)
Definition initial_world (t0 : Z) : World :=
  {| now := t0;
     mockDonations := initial_mockDonations t0;
     mockRequirements := initial_mockRequirements t0;
     mockMatches := initial_mockMatches t0;
     analyticsCache := None;
     analyticsCacheTime := 0;
     next_object := O |}.

Variable env : Env.

(** *** Availability checks *)

(** [v && v !== sentinel] for a value of [process.env] *)
Definition set_and_not (v : option string) (sentinel : string) : bool :=
  match v with
  | Some s => truthy_string v && negb (s =? sentinel)%string
  | None => false
  end.

Definition hasValidConfig : bool :=
  set_and_not (NEXT_PUBLIC_FIREBASE_API_KEY env) "demo-api-key"
  && set_and_not (NEXT_PUBLIC_FIREBASE_PROJECT_ID env) "demo-project".

(** [isDatabaseAvailable]; no function of the module calls it. *)
Definition isDatabaseAvailable : M bool :=
  try_catch
    (if negb hasValidConfig
     then console_log "Firebase not configured, using mock data mode" ;; ret false
     else ret true)
    (fun error => console_error "Error checking database availability:" error ;; ret false).

Definition getDatabaseAvailability : M bool :=
  try_catch
    (exists_ <- await (FirebaseGet ".info/connected") (firebase_get_connected env) ;;
     console_log ("Firebase database connection test: "
                    ++ (if exists_ : bool then "true" else "false")) ;;
     ret exists_)
    (fun error =>
       emit (Console LLog "Firebase database not available, using mock data:" (Some error)) ;;
       ret false).

Definition getDatabaseAvailabilitySync : M bool :=
  match database_app env with
  | Ok b => ret b
  | Throw error =>
      emit (Console LLog "Firebase database not available (sync check):" (Some error)) ;;
      ret false
  end.

(** *** Record translator *)

(** [supabaseStatus] of [updateDonationStatus] *)
Definition donation_status_to_supabase (status : string) : string :=
  if (status =? "pending")%string then "available"
  else if (status =? "matched")%string then "reserved"
  else if (status =? "completed")%string then "collected"
  else "expired".

(** the [status] of [convertSupabaseToFoodDonation] *)
Definition donation_status_of_supabase (status : string) : string :=
  if (status =? "available")%string then "pending"
  else if (status =? "reserved")%string then "matched"
  else if (status =? "collected")%string then "completed"
  else "expired".

(** [supabaseStatus] of [updateRequirementStatus] *)
Definition requirement_status_to_supabase (status : string) : string :=
  if (status =? "active")%string then "active"
  else if (status =? "matched")%string then "matched"
  else "fulfilled".

(** the [status] of [convertSupabaseToRequirement] in
    [getRequirementsByReceiver] *)
Definition requirement_status_of_supabase (status : string) : string :=
  if (status =? "active")%string then "active"
  else if (status =? "matched")%string then "matched"
  else "fulfilled".

(** [item.image_url || undefined] *)
Definition image_or_undefined (x : option string) : option string :=
  if truthy_string x then x else None.

Definition convertSupabaseToFoodDonation (item : FoodItemRow) : FoodDonation :=
  {| fd_id := Some (fi_id item);
     fd_donorId := fi_donor_id item;
     fd_donorName := "Donor";
     fd_foodType := fi_food_type item;
     fd_quantity := number_toString (fi_quantity item);
     fd_unit := fi_unit item;
     fd_description := fi_description item;
     fd_location := {| address := fi_pickup_address item;
                       lat := fi_pickup_latitude item;
                       lng := fi_pickup_longitude item |};
     fd_pickupTime := Some (fi_pickup_time item);
     fd_expiryDate := Some (fi_expiry_date item);
     fd_imageUrl := image_or_undefined (fi_image_url item);
     fd_status := donation_status_of_supabase (fi_status item);
     fd_matchedWith := None;
     fd_matchedAt := None;
     fd_createdAt := fi_created_at item;
     fd_updatedAt := fi_updated_at item |}.

(** [item.serving_size?.toString() || '0'] *)
Definition serving_size_string (x : option number) : string :=
  match x with
  | Some n => string_or (Some (number_toString n)) "0"
  | None => "0"
  end.

(** [convertSupabaseToRequirement], with the translation of the status
    as a parameter: [getRequirementsByReceiver] maps it,
    [listenToActiveRequirements] copies it. *)
Definition convertSupabaseToRequirement (status_of : string -> string) (item : RequestRow)
  : FoodRequirement :=
  {| fr_id := Some (rq_id item);
     fr_receiverId := rq_ngo_id item;
     fr_receiverName := "Receiver";
     fr_organizationName := string_or (Some (rq_title item)) "Organization";
     fr_title := rq_title item;
     fr_foodType := rq_food_type item;
     fr_quantity := number_toString (rq_quantity item);
     fr_unit := rq_unit item;
     fr_urgency := rq_urgency item;
     fr_description := rq_description item;
     fr_location := {| address := rq_delivery_address item;
                       lat := rq_delivery_latitude item;
                       lng := rq_delivery_longitude item |};
     fr_neededBy := Some (rq_needed_by item);
     fr_servingSize := serving_size_string (rq_serving_size item);
     fr_status := status_of (rq_status item);
     fr_matchedWith := None;
     fr_matchedAt := None;
     fr_createdAt := rq_created_at item;
     fr_updatedAt := rq_updated_at item |}.

(** *** Donations *)

Definition sevenDays : Z := 7 * 24 * 60 * 60 * 1000.

(** [supabaseData] of [createDonation], built at time [t]. *)
Definition donation_supabaseData (donation : DonationInput) (t : Z) : FoodItemInsert :=
  let pickupTime := string_or (di_pickupTime donation) (Date.toISOString t) in
  let expiryDate := string_or (di_expiryDate donation) (Date.toISOString (t + sevenDays)) in
  {| fii_donor_id := di_donorId donation;
     fii_food_type := di_foodType donation;
     fii_quantity := parseFloat (di_quantity donation);
     fii_unit := di_unit donation;
     fii_description := di_description donation;
     fii_pickup_address := address (di_location donation);
     fii_pickup_latitude := lat (di_location donation);
     fii_pickup_longitude := lng (di_location donation);
     fii_pickup_time := pickupTime;
     fii_expiry_date := expiryDate;
     fii_image_url := string_or (di_imageUrl donation) "";
     fii_status := "available" |}.

(** [{ ...donation, id, createdAt, updatedAt }] *)
Definition donation_firebaseData (donation : DonationInput) (supabaseResult : FoodItemRow)
  : FoodDonation :=
  {| fd_id := Some (fi_id supabaseResult);
     fd_donorId := di_donorId donation;
     fd_donorName := di_donorName donation;
     fd_foodType := di_foodType donation;
     fd_quantity := di_quantity donation;
     fd_unit := di_unit donation;
     fd_description := di_description donation;
     fd_location := di_location donation;
     fd_pickupTime := di_pickupTime donation;
     fd_expiryDate := di_expiryDate donation;
     fd_imageUrl := di_imageUrl donation;
     fd_status := di_status donation;
     fd_matchedWith := di_matchedWith donation;
     fd_matchedAt := di_matchedAt donation;
     fd_createdAt := fi_created_at supabaseResult;
     fd_updatedAt := fi_created_at supabaseResult |}.

Definition donation_activity (donation : DonationInput) (supabaseResult : FoodItemRow)
    (key : string) (t : Z) : DonationActivity :=
  {| da_id := key;
     da_type := "donation_created";
     da_donationId := fi_id supabaseResult;
     da_donorId := di_donorId donation;
     da_donorName := di_donorName donation;
     da_foodType := di_foodType donation;
     da_quantity := di_quantity donation;
     da_unit := di_unit donation;
     da_location := address (di_location donation);
     da_timestamp := Date.toISOString t;
     da_message := "New donation: " ++ di_quantity donation ++ " " ++ di_unit donation
                     ++ " of " ++ di_foodType donation |}.

(** Step 1 of [createDonation]: the write to Supabase. *)
Definition createDonation_primary (donation : DonationInput) : M FoodItemRow :=
  console_log "Saving to Supabase PostgreSQL..." ;;
  t <- Date_now ;;
  let supabaseData := donation_supabaseData donation t in
  supabaseResult <- await (FoodItemCreate supabaseData)
                          (foodItemService_create env supabaseData) ;;
  match supabaseResult with
  | None => throw "Failed to save donation to Supabase"
  | Some row =>
      console_log ("Saved to Supabase (SQL) with ID: " ++ fi_id row) ;;
      ret row
  end.

(** Steps 2 and 3 of [createDonation]: the copy and the activity entry
    in Firebase. *)
Definition createDonation_mirror (donation : DonationInput) (supabaseResult : FoodItemRow)
  : M unit :=
  let firebaseData := donation_firebaseData donation supabaseResult in
  let path := "donations/" ++ fi_id supabaseResult in
  await (FirebaseSet path (VDonation firebaseData))
        (firebase_set env path (VDonation firebaseData)) ;;
  console_log "Synced to Firebase (NoSQL) for real-time updates" ;;
  key <- call_sync (FirebasePush "activity_feed") (firebase_push env "activity_feed") ;;
  t <- Date_now ;;
  let activity := VDonationActivity (donation_activity donation supabaseResult key t) in
  await (FirebaseSet ("activity_feed/" ++ key) activity)
        (firebase_set env ("activity_feed/" ++ key) activity) ;;
  console_log "Activity logged in Firebase (NoSQL)".

Definition createDonation (donation : DonationInput) : M string :=
  console_log "Creating donation - Dual database write:" ;;
  try_catch
    (supabaseResult <- createDonation_primary donation ;;
     createDonation_mirror donation supabaseResult ;;
     ret (fi_id supabaseResult))
    (fun error =>
       console_error "Error creating donation:" error ;;
       throw error).

(** [firebaseUpdates] of the two status updates as they are first built,
    [{ status, updatedAt: new Date().toISOString() }], the clock read at
    [t]. *)
Definition status_updates (status : string) (t : Z) : StatusPatch :=
  {| sp_status := status;
     sp_updatedAt := Date.toISOString t;
     sp_matchedWith := None;
     sp_matchedAt := None |}.

(** The two assignments made under [if (matchedWith)]; [matchedAt] comes
    from a second [new Date()], read at [t]. *)
Definition stamp_match (firebaseUpdates : StatusPatch) (matchedWith : option string)
    (t : Z) : StatusPatch :=
  {| sp_status := sp_status firebaseUpdates;
     sp_updatedAt := sp_updatedAt firebaseUpdates;
     sp_matchedWith := matchedWith;
     sp_matchedAt := Some (Date.toISOString t) |}.

Definition updateDonationStatus (donationId status : string) (matchedWith : option string)
  : M unit :=
  console_log ("Updating donation status in Supabase: " ++ donationId ++ " to " ++ status) ;;
  try_catch
    (let supabaseStatus := donation_status_to_supabase status in
     await (FoodItemUpdateStatus donationId supabaseStatus)
           (foodItemService_updateStatus env donationId supabaseStatus) ;;
     console_log "Donation status updated in Supabase" ;;
     try_catch
       (t <- Date_now ;;
        let firebaseUpdates := status_updates status t in
        firebaseUpdates <-
          (if truthy_string matchedWith
           then t' <- Date_now ;; ret (stamp_match firebaseUpdates matchedWith t')
           else ret firebaseUpdates) ;;
        let firebaseUpdates := VPatch firebaseUpdates in
        await (FirebaseUpdate ("donations/" ++ donationId) firebaseUpdates)
              (firebase_update env ("donations/" ++ donationId) firebaseUpdates) ;;
        console_log "Donation status synced to Firebase")
       (fun firebaseError =>
          console_warn "Firebase sync failed (non-critical):" firebaseError))
    (fun error =>
       console_error "Error updating donation status:" error ;;
       throw error).

Definition updateRequirementStatus (requirementId status : string)
    (matchedWith : option string) : M unit :=
  console_log ("Updating requirement status in Supabase: " ++ requirementId
                 ++ " to " ++ status) ;;
  try_catch
    (let supabaseStatus := requirement_status_to_supabase status in
     await (RequestUpdateStatus requirementId supabaseStatus)
           (requestService_updateStatus env requirementId supabaseStatus) ;;
     console_log "Requirement status updated in Supabase" ;;
     try_catch
       (t <- Date_now ;;
        let firebaseUpdates := status_updates status t in
        firebaseUpdates <-
          (if truthy_string matchedWith
           then t' <- Date_now ;; ret (stamp_match firebaseUpdates matchedWith t')
           else ret firebaseUpdates) ;;
        let firebaseUpdates := VPatch firebaseUpdates in
        await (FirebaseUpdate ("requirements/" ++ requirementId) firebaseUpdates)
              (firebase_update env ("requirements/" ++ requirementId) firebaseUpdates) ;;
        console_log "Requirement status synced to Firebase")
       (fun firebaseError =>
          console_warn "Firebase sync failed (non-critical):" firebaseError))
    (fun error =>
       console_error "Error updating requirement status:" error ;;
       throw error).

(** A callback registered by a caller: it returns or throws. *)
Definition Callback (A : Type) : Type := list A -> result unit.

Definition call_donations (callback : Callback FoodDonation) (data : list FoodDonation)
  : M unit := fun w => MkRun (callback data) w [CallbackDonations data].

Definition call_requirements (callback : Callback FoodRequirement)
    (data : list FoodRequirement) : M unit :=
  fun w => MkRun (callback data) w [CallbackRequirements data].

Definition list_length_string {A} (l : list A) : string :=
  Z_toString (Z.of_nat (List.length l)).

Definition getDonationsByDonor (donorId : string) (callback : Callback FoodDonation)
  : M Unsubscribe :=
  console_log ("Setting up listener for donations by donor (Supabase ONLY): " ++ donorId) ;;
  try_catch
    (supabaseDonations <- await (FoodItemGetByDonor donorId)
                                (foodItemService_getByDonor env donorId) ;;
     console_log ("Found " ++ list_length_string supabaseDonations
                    ++ " donations from Supabase") ;;
     let donations := map convertSupabaseToFoodDonation supabaseDonations in
     call_donations callback donations ;;
     let channel := "donations-" ++ donorId in
     call_sync (ChannelSubscribe channel "food_items" ("donor_id=eq." ++ donorId))
               (supabase_subscribe env channel) ;;
     ret (UnsubscribeChannel channel))
    (fun error =>
       console_error "Error setting up donations listener from Supabase:" error ;;
       ret NoOp).

(** The handler [getDonationsByDonor] registers for changes of the
    donor's rows. *)
Definition getDonationsByDonor_onChange (donorId : string)
    (callback : Callback FoodDonation) : M unit :=
  console_log "Supabase real-time update:" ;;
  updatedDonations <- await (FoodItemGetByDonor donorId)
                            (foodItemService_getByDonor env donorId) ;;
  let converted := map convertSupabaseToFoodDonation updatedDonations in
  call_donations callback converted.

(** Running what a subscription entry point returned. *)
Definition unsubscribe (u : Unsubscribe) : M unit :=
  match u with
  | NoOp => ret tt
  | UnsubscribeChannel channel => emit (ChannelUnsubscribe channel)
  end.

(** *** Requirements *)

(** [parseInt(s) || 0] *)
Definition parseInt_or_zero (s : string) : number :=
  match ParseInt.parseInt s with
  | Some z => if number_truthy (number_of_Z z) then number_of_Z z else number_of_Z 0
  | None => number_of_Z 0
  end.

(** [supabaseData] of [createRequirement], built at time [t]. *)
Definition requirement_supabaseData (requirement : RequirementInput) (t : Z)
  : RequestInsert :=
  let neededBy := string_or (ri_neededBy requirement) (Date.toISOString (t + sevenDays)) in
  {| rqi_ngo_id := ri_receiverId requirement;
     rqi_title := ri_title requirement;
     rqi_food_type := ri_foodType requirement;
     rqi_quantity := parseFloat (ri_quantity requirement);
     rqi_unit := ri_unit requirement;
     rqi_urgency := ri_urgency requirement;
     rqi_description := ri_description requirement;
     rqi_delivery_address := address (ri_location requirement);
     rqi_delivery_latitude := lat (ri_location requirement);
     rqi_delivery_longitude := lng (ri_location requirement);
     rqi_needed_by := neededBy;
     rqi_serving_size := parseInt_or_zero (ri_servingSize requirement);
     rqi_status := "active" |}.

(** [{ ...requirement, id, createdAt, updatedAt }] *)
Definition requirement_firebaseData (requirement : RequirementInput)
    (supabaseResult : RequestRow) : FoodRequirement :=
  {| fr_id := Some (rq_id supabaseResult);
     fr_receiverId := ri_receiverId requirement;
     fr_receiverName := ri_receiverName requirement;
     fr_organizationName := ri_organizationName requirement;
     fr_title := ri_title requirement;
     fr_foodType := ri_foodType requirement;
     fr_quantity := ri_quantity requirement;
     fr_unit := ri_unit requirement;
     fr_urgency := ri_urgency requirement;
     fr_description := ri_description requirement;
     fr_location := ri_location requirement;
     fr_neededBy := ri_neededBy requirement;
     fr_servingSize := ri_servingSize requirement;
     fr_status := ri_status requirement;
     fr_matchedWith := ri_matchedWith requirement;
     fr_matchedAt := ri_matchedAt requirement;
     fr_createdAt := rq_created_at supabaseResult;
     fr_updatedAt := rq_created_at supabaseResult |}.

Definition requirement_activity (requirement : RequirementInput)
    (supabaseResult : RequestRow) (key : string) (t : Z) : RequirementActivity :=
  {| ra_id := key;
     ra_type := "requirement_created";
     ra_requirementId := rq_id supabaseResult;
     ra_receiverId := ri_receiverId requirement;
     ra_receiverName := ri_receiverName requirement;
     ra_organizationName := ri_organizationName requirement;
     ra_title := ri_title requirement;
     ra_foodType := ri_foodType requirement;
     ra_quantity := ri_quantity requirement;
     ra_unit := ri_unit requirement;
     ra_urgency := ri_urgency requirement;
     ra_location := address (ri_location requirement);
     ra_timestamp := Date.toISOString t;
     ra_message := "New request: " ++ ri_quantity requirement ++ " " ++ ri_unit requirement
                     ++ " of " ++ ri_foodType requirement
                     ++ " (" ++ ri_urgency requirement ++ " priority)" |}.

(** Step 1 of [createRequirement]: the write to Supabase. *)
Definition createRequirement_primary (requirement : RequirementInput) : M RequestRow :=
  console_log "Saving requirement to Supabase PostgreSQL..." ;;
  t <- Date_now ;;
  let supabaseData := requirement_supabaseData requirement t in
  supabaseResult <- await (RequestCreate supabaseData)
                          (requestService_create env supabaseData) ;;
  match supabaseResult with
  | None => throw "Failed to save requirement to Supabase"
  | Some row =>
      console_log ("Saved to Supabase (SQL) with ID: " ++ rq_id row) ;;
      ret row
  end.

(** Steps 2 and 3 of [createRequirement]. *)
Definition createRequirement_mirror (requirement : RequirementInput)
    (supabaseResult : RequestRow) : M unit :=
  let firebaseData := requirement_firebaseData requirement supabaseResult in
  let path := "requirements/" ++ rq_id supabaseResult in
  await (FirebaseSet path (VRequirement firebaseData))
        (firebase_set env path (VRequirement firebaseData)) ;;
  console_log "Synced to Firebase (NoSQL) for real-time updates" ;;
  key <- call_sync (FirebasePush "activity_feed") (firebase_push env "activity_feed") ;;
  t <- Date_now ;;
  let activity := VRequirementActivity (requirement_activity requirement supabaseResult key t) in
  await (FirebaseSet ("activity_feed/" ++ key) activity)
        (firebase_set env ("activity_feed/" ++ key) activity) ;;
  console_log "Activity logged in Firebase (NoSQL)".

Definition createRequirement (requirement : RequirementInput) : M string :=
  console_log "Creating requirement - Dual database write:" ;;
  try_catch
    (supabaseResult <- createRequirement_primary requirement ;;
     createRequirement_mirror requirement supabaseResult ;;
     ret (rq_id supabaseResult))
    (fun error =>
       console_error "Error creating requirement:" error ;;
       throw error).

Definition getRequirementsByReceiver (receiverId : string)
    (callback : Callback FoodRequirement) : M Unsubscribe :=
  console_log ("Setting up listener for requirements by receiver (Supabase ONLY): "
                 ++ receiverId) ;;
  try_catch
    (supabaseRequirements <- await (RequestGetByNGO receiverId)
                                   (requestService_getByNGO env receiverId) ;;
     console_log ("Found " ++ list_length_string supabaseRequirements
                    ++ " requirements from Supabase") ;;
     let requirements :=
       map (convertSupabaseToRequirement requirement_status_of_supabase)
           supabaseRequirements in
     call_requirements callback requirements ;;
     let channel := "requirements-" ++ receiverId in
     call_sync (ChannelSubscribe channel "requests" ("ngo_id=eq." ++ receiverId))
               (supabase_subscribe env channel) ;;
     ret (UnsubscribeChannel channel))
    (fun error =>
       console_error "Error setting up requirements listener from Supabase:" error ;;
       ret NoOp).

(** The handler [getRequirementsByReceiver] registers for changes. *)
Definition getRequirementsByReceiver_onChange (receiverId : string)
    (callback : Callback FoodRequirement) : M unit :=
  console_log "Supabase real-time update:" ;;
  updatedRequirements <- await (RequestGetByNGO receiverId)
                               (requestService_getByNGO env receiverId) ;;
  let converted :=
    map (convertSupabaseToRequirement requirement_status_of_supabase)
        updatedRequirements in
  call_requirements callback converted.

(** *** Matches *)

(** [actualQuantity || 0] *)
Definition number_or_zero (x : option number) : number :=
  match x with
  | Some n => if number_truthy n then n else number_of_Z 0
  | None => number_of_Z 0
  end.

(** [transactionData] of [createMatch], built at time [t]. *)
Definition match_transactionData (match_ : MatchInput) (actualQuantity : option number)
    (t : Z) : TransactionInsert :=
  {| txi_donor_id := mi_donorId match_;
     txi_ngo_id := mi_receiverId match_;
     txi_food_item_id := mi_donationId match_;
     txi_request_id := mi_requirementId match_;
     txi_quantity_transferred := number_or_zero actualQuantity;
     txi_status := if (mi_status match_ =? "confirmed")%string then "completed"
                   else if (mi_status match_ =? "pending")%string then "pending"
                   else "completed";
     txi_pickup_time := Date.toISOString t;
     txi_delivery_time := Date.toISOString t;
     txi_match_score := mi_matchScore match_;
     txi_distance_km := mi_distance match_ |}.

(** [{ ...match, id: transactionId || newMatchRef.key, createdAt,
    updatedAt }] *)
Definition match_matchData (match_ : MatchInput) (transactionId key : string) (t : Z)
  : Match :=
  {| m_id := Some (string_or (Some transactionId) key);
     m_donationId := mi_donationId match_;
     m_requirementId := mi_requirementId match_;
     m_donorId := mi_donorId match_;
     m_receiverId := mi_receiverId match_;
     m_status := mi_status match_;
     m_distance := mi_distance match_;
     m_matchScore := mi_matchScore match_;
     m_createdAt := Date.toISOString t;
     m_updatedAt := Date.toISOString t |}.

Definition match_activity (match_ : MatchInput) (transactionId matchKey key : string)
    (t : Z) : MatchActivity :=
  {| ma_id := key;
     ma_type := "match_created";
     ma_matchId := string_or (Some transactionId) matchKey;
     ma_donationId := mi_donationId match_;
     ma_requirementId := mi_requirementId match_;
     ma_donorId := mi_donorId match_;
     ma_receiverId := mi_receiverId match_;
     ma_matchScore := mi_matchScore match_;
     ma_distance := mi_distance match_;
     ma_timestamp := Date.toISOString t;
     ma_message := "Transaction completed (" ++ number_toString (mi_matchScore match_)
                     ++ "% match, " ++ number_toString (mi_distance match_)
                     ++ "km distance)" |}.

(** [supabaseTransaction?.id || ''] *)
Definition transaction_id (supabaseTransaction : option TransactionRow) : string :=
  match supabaseTransaction with
  | Some row => tx_id row
  | None => ""
  end.

(** Step 1 of [createMatch]: the transaction in Supabase; the value is
    [transactionId]. *)
Definition createMatch_primary (match_ : MatchInput) (actualQuantity : option number)
  : M string :=
  console_log "Creating transaction in Supabase PostgreSQL..." ;;
  t <- Date_now ;;
  let transactionData := match_transactionData match_ actualQuantity t in
  supabaseTransaction <- await (TransactionCreate transactionData)
                               (transactionService_create env transactionData) ;;
  let transactionId := transaction_id supabaseTransaction in
  console_log ("Transaction created in Supabase (SQL) with ID: " ++ transactionId) ;;
  ret transactionId.

(** Steps 2 and 3 of [createMatch]; the value is [newMatchRef.key]. *)
Definition createMatch_mirror (match_ : MatchInput) (transactionId : string) : M string :=
  matchKey <- call_sync (FirebasePush "matches") (firebase_push env "matches") ;;
  t <- Date_now ;;
  let matchData := VMatch (match_matchData match_ transactionId matchKey t) in
  await (FirebaseSet ("matches/" ++ matchKey) matchData)
        (firebase_set env ("matches/" ++ matchKey) matchData) ;;
  console_log ("Match record synced to Firebase (NoSQL) with key: " ++ matchKey) ;;
  key <- call_sync (FirebasePush "activity_feed") (firebase_push env "activity_feed") ;;
  t' <- Date_now ;;
  let activity := VMatchActivity (match_activity match_ transactionId matchKey key t') in
  await (FirebaseSet ("activity_feed/" ++ key) activity)
        (firebase_set env ("activity_feed/" ++ key) activity) ;;
  console_log "Transaction activity logged in Firebase (NoSQL)" ;;
  ret matchKey.

Definition createMatch (match_ : MatchInput) (actualQuantity : option number) : M string :=
  console_log "Creating match/transaction record in both databases:" ;;
  try_catch
    (transactionId <- createMatch_primary match_ actualQuantity ;;
     matchKey <- createMatch_mirror match_ transactionId ;;
     ret (string_or (Some transactionId) matchKey))
    (fun error =>
       console_error "Error creating match/transaction:" error ;;
       throw error).

(** [match.status = status; match.updatedAt = ...] on the first element
    of [mockMatches] whose id is [matchId]; [None] when there is none. *)
Fixpoint update_mock_match (matchId status updatedAt : string) (l : list Match)
  : option (list Match) :=
  match l with
  | [] => None
  | m :: l' =>
      if match m_id m with Some i => (i =? matchId)%string | None => false end
      then Some ({| m_id := m_id m;
                    m_donationId := m_donationId m;
                    m_requirementId := m_requirementId m;
                    m_donorId := m_donorId m;
                    m_receiverId := m_receiverId m;
                    m_status := status;
                    m_distance := m_distance m;
                    m_matchScore := m_matchScore m;
                    m_createdAt := m_createdAt m;
                    m_updatedAt := updatedAt |} :: l')
      else option_map (cons m) (update_mock_match matchId status updatedAt l')
  end.

Definition set_mockMatches (l : list Match) (w : World) : World :=
  {| now := now w;
     mockDonations := mockDonations w;
     mockRequirements := mockRequirements w;
     mockMatches := l;
     analyticsCache := analyticsCache w;
     analyticsCacheTime := analyticsCacheTime w;
     next_object := next_object w |}.

Definition updateMatchStatus (matchId status : string) : M unit :=
  available <- getDatabaseAvailabilitySync ;;
  if negb available then
    fun w =>
      match update_mock_match matchId status (Date.toISOString (now w)) (mockMatches w) with
      | Some l => MkRun (Ok tt) (set_mockMatches l w) [Console LLog "Mock match updated:" None]
      | None => MkRun (Ok tt) w []
      end
  else
    t <- Date_now ;;
    let updates := VPatch {| sp_status := status;
                             sp_updatedAt := Date.toISOString t;
                             sp_matchedWith := None;
                             sp_matchedAt := None |} in
    await (FirebaseUpdate ("matches/" ++ matchId) updates)
          (firebase_update env ("matches/" ++ matchId) updates).

(** *** Real-time listeners *)

(** [data || []] *)
Definition data_or_empty {A} (data : option (list A)) : list A :=
  match data with
  | Some l => l
  | None => []
  end.

(** [fetchAndCallback] of [listenToAvailableDonations] *)
Definition fetchAndCallback_donations (callback : Callback FoodDonation) : M unit :=
  try_catch
    (r <- await (SelectByStatus "food_items" "available")
                (supabase_select_food_items env "available") ;;
     match q_error r with
     | Some error =>
         console_error "Error fetching available donations:" error ;;
         call_donations callback []
     | None =>
         let donations := map convertSupabaseToFoodDonation (data_or_empty (q_data r)) in
         console_log ("Found " ++ list_length_string donations
                        ++ " available donations from Supabase") ;;
         call_donations callback donations
     end)
    (fun error =>
       console_error "Error in fetchAndCallback:" error ;;
       call_donations callback []).

(** The synchronous part of [listenToAvailableDonations]: the call of
    [fetchAndCallback()], which is not awaited, only issues its query
    once this part is over. *)
Definition listenToAvailableDonations_sync : M Unsubscribe :=
  console_log "Setting up listener for available donations (Supabase ONLY)" ;;
  call_sync (ChannelSubscribe "available-donations" "food_items" "status=eq.available")
            (supabase_subscribe env "available-donations") ;;
  ret (UnsubscribeChannel "available-donations").

(** [listenToAvailableDonations] together with the initial fetch it
    starts. *)
Definition listenToAvailableDonations (callback : Callback FoodDonation) : M Unsubscribe :=
  then_background listenToAvailableDonations_sync (fetchAndCallback_donations callback).

(** The handler registered for changes of the available donations. *)
Definition listenToAvailableDonations_onChange (callback : Callback FoodDonation) : M unit :=
  console_log "Supabase real-time update for donations:" ;;
  then_background (ret tt) (fetchAndCallback_donations callback).

(** [fetchAndCallback] of [listenToActiveRequirements]; its converter
    copies the status of the row. *)
Definition fetchAndCallback_requirements (callback : Callback FoodRequirement) : M unit :=
  try_catch
    (r <- await (SelectByStatus "requests" "active")
                (supabase_select_requests env "active") ;;
     match q_error r with
     | Some error =>
         console_error "Error fetching active requirements:" error ;;
         call_requirements callback []
     | None =>
         let requirements :=
           map (convertSupabaseToRequirement (fun s => s)) (data_or_empty (q_data r)) in
         console_log ("Found " ++ list_length_string requirements
                        ++ " active requirements from Supabase") ;;
         call_requirements callback requirements
     end)
    (fun error =>
       console_error "Error in fetchAndCallback:" error ;;
       call_requirements callback []).

Definition listenToActiveRequirements_sync : M Unsubscribe :=
  console_log "Setting up listener for active requirements (Supabase ONLY)" ;;
  call_sync (ChannelSubscribe "active-requirements" "requests" "status=eq.active")
            (supabase_subscribe env "active-requirements") ;;
  ret (UnsubscribeChannel "active-requirements").

Definition listenToActiveRequirements (callback : Callback FoodRequirement)
  : M Unsubscribe :=
  then_background listenToActiveRequirements_sync (fetchAndCallback_requirements callback).

Definition listenToActiveRequirements_onChange (callback : Callback FoodRequirement)
  : M unit :=
  console_log "Supabase real-time update for requirements:" ;;
  then_background (ret tt) (fetchAndCallback_requirements callback).

(** *** Analytics, with its cache *)

Definition CACHE_DURATION : Z := 30000.

(** [{ donations: mockDonations, requirements: mockRequirements,
    matches: mockMatches }] *)
Definition mock_data : AnalyticsData :=
  {| donations := ModuleArray; requirements := ModuleArray; matches := ModuleArray |}.

(** [const data = ...; analyticsCache = data; analyticsCacheTime =
    Date.now(); return data]: the object is new. *)
Definition cache_and_return (data : AnalyticsData) : M (object AnalyticsData) := fun w =>
  let obj := (next_object w, data) in
  MkRun (Ok obj)
        {| now := now w;
           mockDonations := mockDonations w;
           mockRequirements := mockRequirements w;
           mockMatches := mockMatches w;
           analyticsCache := Some obj;
           analyticsCacheTime := now w;
           next_object := S (next_object w) |}
        [].

(** [Promise.all] of two calls that have answered [a] and [b]: both
    values once the later one has arrived, or the earlier rejection. *)
Definition both {A B} (a : reply A) (b : reply B) : reply (A * B) :=
  match fst a, fst b with
  | Ok x, Ok y => (Ok (x, y), Z.max (snd a) (snd b))
  | Throw e, Ok _ => (Throw e, snd a)
  | Ok _, Throw e => (Throw e, snd b)
  | Throw e, Throw e' => if snd b <? snd a then (Throw e', snd b) else (Throw e, snd a)
  end.

(** [await Promise.all([get(..'donations'), get(..'requirements'),
    get(..'matches')])]: the three reads are issued together, in the
    state of the call. *)
Definition get_all_snapshots
  : M (list FoodDonation * (list FoodRequirement * list Match)) := fun w =>
  let answer := both (firebase_get_donations env w)
                     (both (firebase_get_requirements env w)
                           (firebase_get_matches env w)) in
  MkRun (fst answer) (set_now (snd answer) w)
        [FirebaseGet "donations"; FirebaseGet "requirements"; FirebaseGet "matches"].

(** The part of [getAnalyticsData] after the test of the cache. *)
Definition getAnalyticsData_refresh : M (object AnalyticsData) :=
  isAvailable <- getDatabaseAvailability ;;
  if negb isAvailable then cache_and_return mock_data
  else
    try_catch
      (snapshots <- get_all_snapshots ;;
       let '(donations, (requirements, matches)) := snapshots in
       cache_and_return {| donations := FreshArray donations;
                           requirements := FreshArray requirements;
                           matches := FreshArray matches |})
      (fun error =>
         console_error "Error fetching analytics data:" error ;;
         cache_and_return mock_data).

Definition getAnalyticsData : M (object AnalyticsData) := fun w =>
  match analyticsCache w with
  | Some cached =>
      if now w - analyticsCacheTime w <? CACHE_DURATION
      then MkRun (Ok cached) w []
      else getAnalyticsData_refresh w
  | None => getAnalyticsData_refresh w
  end.

End Service.

(** ** Mock pub/sub *)

Module PubSub.
Section PubSub.

Variable T : Type.

(** [Listener<T>]: a callback that returns or throws. *)
Definition Listener : Type := list T -> result unit.

(** [subscribe]: the array after [listeners.push(callback)]. *)
Definition subscribe (listeners : list Listener) (callback : Listener) : list Listener :=
  listeners ++ [callback].

End PubSub.
End PubSub.

(** ** Reading the effects of a run *)

Section Observations.

Context {N : NumberOps}.

(** A write to the relational store. *)
Definition is_relational_write (ev : event) : bool :=
  match ev with
  | FoodItemCreate _ | FoodItemUpdateStatus _ _
  | RequestCreate _ | RequestUpdateStatus _ _
  | TransactionCreate _ => true
  | _ => false
  end.

(** A write to the real-time store. *)
Definition is_mirror_write (ev : event) : bool :=
  match ev with
  | FirebaseSet _ _ | FirebaseUpdate _ _ => true
  | _ => false
  end.

(** A request sent to one of the two stores. *)
Definition is_network_call (ev : event) : bool :=
  match ev with
  | Console _ _ _ | CallbackDonations _ | CallbackRequirements _ | FirebasePush _ => false
  | _ => true
  end.

(** The first write among the effects. *)
Fixpoint first_write (l : list event) : option event :=
  match l with
  | [] => None
  | ev :: l' =>
      if is_relational_write ev || is_mirror_write ev then Some ev else first_write l'
  end.

(** The rows handed to [foodItemService.create]. *)
Fixpoint food_item_creates (l : list event) : list FoodItemInsert :=
  match l with
  | [] => []
  | FoodItemCreate d :: l' => d :: food_item_creates l'
  | _ :: l' => food_item_creates l'
  end.

(** The rows handed to [requestService.create]. *)
Fixpoint request_creates (l : list event) : list RequestInsert :=
  match l with
  | [] => []
  | RequestCreate d :: l' => d :: request_creates l'
  | _ :: l' => request_creates l'
  end.

(** The activity-feed entries written, each with its path and type. *)
Fixpoint activity_entries (l : list event) : list (string * string) :=
  match l with
  | [] => []
  | FirebaseSet path v :: l' =>
      match activity_type v with
      | Some ty => (path, ty) :: activity_entries l'
      | None => activity_entries l'
      end
  | _ :: l' => activity_entries l'
  end.

(** The arguments of the invocations of a donations callback. *)
Fixpoint donation_callbacks (l : list event) : list (list FoodDonation) :=
  match l with
  | [] => []
  | CallbackDonations d :: l' => d :: donation_callbacks l'
  | _ :: l' => donation_callbacks l'
  end.

(** The arguments of the invocations of a requirements callback. *)
Fixpoint requirement_callbacks (l : list event) : list (list FoodRequirement) :=
  match l with
  | [] => []
  | CallbackRequirements d :: l' => d :: requirement_callbacks l'
  | _ :: l' => requirement_callbacks l'
  end.

(** The last effect of a run. *)
Definition last_effect (r : list event) : option event :=
  match rev r with
  | ev :: _ => Some ev
  | [] => None
  end.

(** The errors written with [console.error]. *)
Fixpoint console_errors (l : list event) : list error :=
  match l with
  | [] => []
  | Console LError _ (Some e) :: l' => e :: console_errors l'
  | _ :: l' => console_errors l'
  end.

(** A configuration value that is absent, empty or the placeholder. *)
Definition absent_or_placeholder (v : option string) (sentinel : string) : Prop :=
  v = None \/ v = Some "" \/ v = Some sentinel.

(** The collaborators [env] with other configuration values. *)
Definition with_config (key project : option string) (env : Env) : Env :=
  {| NEXT_PUBLIC_FIREBASE_API_KEY := key;
     NEXT_PUBLIC_FIREBASE_PROJECT_ID := project;
     database_app := database_app env;
     foodItemService_create := foodItemService_create env;
     foodItemService_updateStatus := foodItemService_updateStatus env;
     foodItemService_getByDonor := foodItemService_getByDonor env;
     requestService_create := requestService_create env;
     requestService_updateStatus := requestService_updateStatus env;
     requestService_getByNGO := requestService_getByNGO env;
     transactionService_create := transactionService_create env;
     supabase_select_food_items := supabase_select_food_items env;
     supabase_select_requests := supabase_select_requests env;
     supabase_subscribe := supabase_subscribe env;
     firebase_push := firebase_push env;
     firebase_set := firebase_set env;
     firebase_update := firebase_update env;
     firebase_get_connected := firebase_get_connected env;
     firebase_get_donations := firebase_get_donations env;
     firebase_get_requirements := firebase_get_requirements env;
     firebase_get_matches := firebase_get_matches env |}.

(** The answer of a filtered query is a failure with error [e]: the
    call throws [e], or its result carries the error [e]. *)
Definition query_failed {A} (a : reply (QueryResult A)) (e : error) : Prop :=
  fst a = Throw e \/ exists r, fst a = Ok r /\ q_error r = Some e.

(** The cache holds an object that has not expired. *)
Definition cache_valid (w : World) : bool :=
  match analyticsCache w with
  | Some _ => now w - analyticsCacheTime w <? CACHE_DURATION
  | None => false
  end.

End Observations.

(** The status vocabularies. *)
Definition donation_statuses : list string := ["pending"; "matched"; "completed"; "expired"].
Definition food_item_statuses : list string := ["available"; "reserved"; "collected"; "expired"].
Definition requirement_statuses : list string := ["active"; "matched"; "fulfilled"].

(** ** A number model for the scenarios

    Decimal numbers [mantissa / 10 ^ scale], without trailing zeros in the
    fraction. On decimals of at most fifteen significant digits, written
    without exponent, parsing and printing agree with the doubles of
    JavaScript. *)
Module Decimal.

Inductive t : Set :=
| NaN
| Dec (mantissa : Z) (scale : nat).

Fixpoint normalise (m : Z) (scale : nat) : t :=
  match scale with
  | O => Dec m O
  | S k => if m mod 10 =? 0 then normalise (m / 10) k else Dec m scale
  end.

(** The digits at the head of [s]: their value on top of [acc], their
    number, and the rest of [s]. *)
Fixpoint scan (s : string) (acc : Z) (n : nat) : Z * nat * string :=
  match s with
  | String c s' =>
      match ParseInt.digit_value 10 c with
      | Some d => scan s' (10 * acc + d) (S n)
      | None => (acc, n, s)
      end
  | EmptyString => (acc, n, s)
  end.

Definition parse (s : string) : t :=
  let '(sign, s1) := ParseInt.strip_sign (ParseInt.trim_start s) in
  let '(ip, ni, s2) := scan s1 0 O in
  match s2 with
  | String "." s3 =>
      let '(v, nf, _) := scan s3 ip O in
      if (ni + nf =? 0)%nat then NaN else normalise (sign * v) nf
  | _ => if (ni =? 0)%nat then NaN else Dec (sign * ip) O
  end.

Definition to_string (x : t) : string :=
  match x with
  | NaN => "NaN"
  | Dec m O => Z_toString m
  | Dec m k =>
      let a := Z.abs m in
      (if m <? 0 then "-" else "") ++ Z_toString (a / 10 ^ Z.of_nat k) ++ "."
        ++ pad_decimal k (a mod 10 ^ Z.of_nat k)
  end.

Definition truthy (x : t) : bool :=
  match x with
  | NaN => false
  | Dec m _ => negb (m =? 0)
  end.

End Decimal.

Definition DecimalNumbers : NumberOps := {|
  number := Decimal.t;
  parseFloat := Decimal.parse;
  number_of_Z := fun z => Decimal.Dec z O;
  number_toString := Decimal.to_string;
  number_truthy := Decimal.truthy
|}.

(** ** Scenarios: concrete inputs and collaborators *)

Module Scenario.

#[local] Existing Instance DecimalNumbers.

Definition depot : Location :=
  {| address := "12 Mill Lane"; lat := parseFloat "51.5"; lng := parseFloat "-0.12" |}.

(** A donation without [pickupTime] and [expiryDate]. *)
Definition donation : DonationInput :=
  {| di_donorId := "donor-7"; di_donorName := "Corner Cafe"; di_foodType := "Bread";
     di_quantity := "50"; di_unit := "kg"; di_description := "Day-old loaves";
     di_location := depot; di_pickupTime := None; di_expiryDate := None;
     di_imageUrl := None; di_status := "pending";
     di_matchedWith := None; di_matchedAt := None |}.

(** A requirement without [neededBy], whose serving size is no number. *)
Definition requirement : RequirementInput :=
  {| ri_receiverId := "ngo-3"; ri_receiverName := "Ana"; ri_organizationName := "Shelter";
     ri_title := "Evening meals"; ri_foodType := "Bread"; ri_quantity := "30";
     ri_unit := "kg"; ri_urgency := "high"; ri_description := "For tonight";
     ri_location := depot; ri_neededBy := None; ri_servingSize := "many";
     ri_status := "active"; ri_matchedWith := None; ri_matchedAt := None |}.

Definition match_ : MatchInput :=
  {| mi_donationId := "food-1"; mi_requirementId := "req-1"; mi_donorId := "donor-7";
     mi_receiverId := "ngo-3"; mi_status := "confirmed";
     mi_distance := parseFloat "2.5"; mi_matchScore := number_of_Z 95 |}.

(** The row the relational store makes of an insert. *)
Definition food_row (id : string) (d : FoodItemInsert) (created : string) : FoodItemRow :=
  {| fi_id := id; fi_donor_id := fii_donor_id d; fi_food_type := fii_food_type d;
     fi_quantity := fii_quantity d; fi_unit := fii_unit d;
     fi_description := fii_description d; fi_pickup_address := fii_pickup_address d;
     fi_pickup_latitude := fii_pickup_latitude d;
     fi_pickup_longitude := fii_pickup_longitude d;
     fi_pickup_time := fii_pickup_time d; fi_expiry_date := fii_expiry_date d;
     fi_image_url := Some (fii_image_url d); fi_status := fii_status d;
     fi_created_at := created; fi_updated_at := created |}.

Definition request_row (id : string) (d : RequestInsert) (created : string) : RequestRow :=
  {| rq_id := id; rq_ngo_id := rqi_ngo_id d; rq_title := rqi_title d;
     rq_food_type := rqi_food_type d; rq_quantity := rqi_quantity d;
     rq_unit := rqi_unit d; rq_urgency := rqi_urgency d;
     rq_description := rqi_description d;
     rq_delivery_address := rqi_delivery_address d;
     rq_delivery_latitude := rqi_delivery_latitude d;
     rq_delivery_longitude := rqi_delivery_longitude d;
     rq_needed_by := rqi_needed_by d; rq_serving_size := Some (rqi_serving_size d);
     rq_status := rqi_status d; rq_created_at := created; rq_updated_at := created |}.

(** How the collaborators behave in a scenario. *)
Record Knobs := {
  api_key : option string;
  project_id : option string;
  (** [createRow]: the relational store makes a row; otherwise its
      [create] answers null *)
  creates_row : bool;
  (** the error thrown by [set] and [update] on a path, if any *)
  mirror_fault : string -> option error;
  (** the error thrown by [getByDonor] and [getByNGO], if any *)
  owner_query_fault : option error;
  (** the [error] of the filtered queries, if any *)
  select_fault : option error;
  (** the error thrown by [subscribe], if any *)
  subscribe_fault : option error;
  (** the answer of the connectivity probe *)
  connected : result bool
}.

Definition stored_food_rows : list FoodItemRow :=
  [ food_row "food-1" (donation_supabaseData donation 0) "2024-05-01T08:00:00.000Z" ].

Definition stored_request_rows : list RequestRow :=
  [ request_row "req-1" (requirement_supabaseData requirement 0) "2024-05-01T09:00:00.000Z" ].

(** A document of the mirror that is not part of the mock data. *)
Definition mirrored_donation : FoodDonation :=
  donation_firebaseData donation
    (food_row "food-1" (donation_supabaseData donation 0) "2024-05-01T08:00:00.000Z").

Definition answer {A} (fault : option error) (a : A) : result A :=
  match fault with
  | Some e => Throw e
  | None => Ok a
  end.

(** Every awaited call takes 20 ms. *)
Definition latency : Z := 20.

Definition make_env (k : Knobs) : Env :=
  {| NEXT_PUBLIC_FIREBASE_API_KEY := api_key k;
     NEXT_PUBLIC_FIREBASE_PROJECT_ID := project_id k;
     database_app := Ok true;
     foodItemService_create := fun d w =>
       (Ok (if creates_row k then Some (food_row "food-1" d (Date.toISOString (now w)))
            else None), now w + latency);
     foodItemService_updateStatus := fun _ _ w => (Ok tt, now w + latency);
     foodItemService_getByDonor := fun _ w =>
       (answer (owner_query_fault k) stored_food_rows, now w + latency);
     requestService_create := fun d w =>
       (Ok (if creates_row k then Some (request_row "req-1" d (Date.toISOString (now w)))
            else None), now w + latency);
     requestService_updateStatus := fun _ _ w => (Ok tt, now w + latency);
     requestService_getByNGO := fun _ w =>
       (answer (owner_query_fault k) stored_request_rows, now w + latency);
     transactionService_create := fun _ w =>
       (Ok (if creates_row k then Some {| tx_id := "tx-1" |} else None), now w + latency);
     supabase_select_food_items := fun _ w =>
       (Ok match select_fault k with
           | Some e => {| q_data := None; q_error := Some e |}
           | None => {| q_data := Some stored_food_rows; q_error := None |}
           end, now w + latency);
     supabase_select_requests := fun _ w =>
       (Ok match select_fault k with
           | Some e => {| q_data := None; q_error := Some e |}
           | None => {| q_data := Some stored_request_rows; q_error := None |}
           end, now w + latency);
     supabase_subscribe := fun _ _ => answer (subscribe_fault k) tt;
     firebase_push := fun parent _ =>
       Ok (if (parent =? "matches")%string then "-Nmatch01" else "-Nfeed01");
     firebase_set := fun path _ w => (answer (mirror_fault k path) tt, now w + latency);
     firebase_update := fun path _ w => (answer (mirror_fault k path) tt, now w + latency);
     firebase_get_connected := fun w => (connected k, now w + latency);
     firebase_get_donations := fun w => (Ok [mirrored_donation], now w + latency);
     firebase_get_requirements := fun w => (Ok [], now w + latency);
     firebase_get_matches := fun w => (Ok [], now w + latency) |}.

(** Both stores up, the module configured. *)
Definition healthy : Knobs :=
  {| api_key := Some "AIzaSyExample"; project_id := Some "food-bridge";
     creates_row := true; mirror_fault := fun _ => None;
     owner_query_fault := None; select_fault := None; subscribe_fault := None;
     connected := Ok true |}.

(** The real-time store refuses every write. *)
Definition mirror_down : Knobs :=
  {| api_key := api_key healthy; project_id := project_id healthy;
     creates_row := true; mirror_fault := fun _ => Some "PERMISSION_DENIED";
     owner_query_fault := None; select_fault := None; subscribe_fault := None;
     connected := Ok true |}.

(** The real-time store takes the documents and refuses the activity
    feed. *)
Definition feed_down : Knobs :=
  {| api_key := api_key healthy; project_id := project_id healthy;
     creates_row := true;
     mirror_fault := fun path =>
       if String.prefix "activity_feed/" path then Some "PERMISSION_DENIED" else None;
     owner_query_fault := None; select_fault := None; subscribe_fault := None;
     connected := Ok true |}.

(** The relational store answers null to every [create]. *)
Definition no_row : Knobs :=
  {| api_key := api_key healthy; project_id := project_id healthy;
     creates_row := false; mirror_fault := fun _ => None;
     owner_query_fault := None; select_fault := None; subscribe_fault := None;
     connected := Ok true |}.

(** The queries of the relational store fail. *)
Definition queries_fail : Knobs :=
  {| api_key := api_key healthy; project_id := project_id healthy;
     creates_row := true; mirror_fault := fun _ => None;
     owner_query_fault := Some "fetch failed";
     select_fault := Some "fetch failed"; subscribe_fault := None;
     connected := Ok true |}.

(** The channel cannot be opened. *)
Definition subscribe_fails : Knobs :=
  {| api_key := api_key healthy; project_id := project_id healthy;
     creates_row := true; mirror_fault := fun _ => None;
     owner_query_fault := None; select_fault := None;
     subscribe_fault := Some "channel error";
     connected := Ok true |}.

(** No configuration value is set, and the real-time store answers. *)
Definition unconfigured : Knobs :=
  {| api_key := None; project_id := None;
     creates_row := true; mirror_fault := fun _ => None;
     owner_query_fault := None; select_fault := None; subscribe_fault := None;
     connected := Ok true |}.

(** No configuration value is set, and the real-time store cannot be
    reached. *)
Definition unconfigured_offline : Knobs :=
  {| api_key := None; project_id := None;
     creates_row := true; mirror_fault := fun _ => Some "offline";
     owner_query_fault := None; select_fault := None; subscribe_fault := None;
     connected := Throw "offline" |}.

(** The placeholder values are set, and the real-time store answers. *)
Definition placeholder_config : Knobs :=
  {| api_key := Some "demo-api-key"; project_id := Some "demo-project";
     creates_row := true; mirror_fault := fun _ => None;
     owner_query_fault := None; select_fault := None; subscribe_fault := None;
     connected := Ok true |}.

(** The real-time store cannot be reached. *)
Definition offline : Knobs :=
  {| api_key := api_key healthy; project_id := project_id healthy;
     creates_row := true; mirror_fault := fun _ => Some "offline";
     owner_query_fault := None; select_fault := None; subscribe_fault := None;
     connected := Throw "offline" |}.

(** The module was loaded at 2023-11-14T22:13:20.000Z. *)
Definition t0 : Z := 1700000000000.

Definition w0 : World := initial_world t0.

(** The state [w] when the clock shows [t]. *)
Definition at_time (t : Z) (w : World) : World := set_now t w.

Definition quiet {A} : Callback A := fun _ => Ok tt.

(** The rows the relational store answers to the creations made in [w0]. *)
Definition stored_donation : FoodItemRow :=
  food_row "food-1" (donation_supabaseData donation t0) "2023-11-14T22:13:20.000Z".

Definition stored_requirement : RequestRow :=
  request_row "req-1" (requirement_supabaseData requirement t0) "2023-11-14T22:13:20.000Z".

End Scenario.

(** ** The listener arrays, with the identity of the callbacks

    [subscribe] returns a closure that looks its callback up with
    [indexOf], which compares function objects by identity. Here a
    registered callback carries the identity of its function object.
    [notify] traverses the same array with [forEach], and a listener may
    call [subscribe] or one of these closures while it is notified: the
    traversal goes over the array as the listeners leave it. *)

Module Registry.
Section Registry.

Variable T : Type.

Record Registered : Type := {
  ref : nat;
  listener : PubSub.Listener T
}.

(** [listeners.indexOf(callback)], counting from [i]: the index of the
    first element that is the callback, or -1. *)
Fixpoint indexOf_from (i : Z) (listeners : list Registered) (callback : Registered) : Z :=
  match listeners with
  | [] => -1
  | x :: rest =>
      if (ref x =? ref callback)%nat then i else indexOf_from (i + 1) rest callback
  end.

Definition indexOf (listeners : list Registered) (callback : Registered) : Z :=
  indexOf_from 0 listeners callback.

(** The array after [listeners.splice(index, 1)], for an index that is not
    negative. *)
Definition splice_one (index : Z) (listeners : list Registered) : list Registered :=
  firstn (Z.to_nat index) listeners ++ skipn (S (Z.to_nat index)) listeners.

(** The array after [listeners.push(callback)]. *)
Definition subscribe (listeners : list Registered) (callback : Registered)
  : list Registered :=
  listeners ++ [callback].

(** The array after a call of the closure that [subscribe] has returned
    for [callback]. *)
Definition unsubscribe (listeners : list Registered) (callback : Registered)
  : list Registered :=
  let index := indexOf listeners callback in
  if -1 <? index then splice_one index listeners else listeners.

(** What a listener can do to the array while it runs: the array is
    private to the module, and reached only through [subscribe] and the
    closures [subscribe] has returned. *)
Inductive action : Type :=
| Subscribes (callback : Registered)
| Unsubscribes (callback : Registered).

Definition act (listeners : list Registered) (a : action) : list Registered :=
  match a with
  | Subscribes callback => subscribe listeners callback
  | Unsubscribes callback => unsubscribe listeners callback
  end.

Inductive effect : Type :=
| Log (msg : string)
| Call (callback : Registered) (data : list T)
| Error (msg : string) (err : error).

(** The effects of the call of one listener that returns or throws. *)
Definition call_effects (data : list T) (x : Registered) : list effect :=
  match listener x data with
  | Ok _ => [Call x data]
  | Throw error => [Call x data; Error "Error in listener callback:" error]
  end.

(** What the function object of a registered callback does to the array
    when it is called with [data], before it returns or throws. *)
Variable during : Registered -> list T -> list action.

(** [try { listener(data) } catch (error) { console.error(...) }] at one
    element: the effects, and the array afterwards. *)
Definition notify_one (data : list T) (x : Registered) (listeners : list Registered)
  : list effect * list Registered :=
  (call_effects data x, fold_left act (during x data) listeners).

(** [listeners.forEach(...)]: the length is read once, before the first
    call; the indices [k], [k + 1], ... below it are visited in order, each
    looked up in the array as it is then, and skipped when the array has
    become too short to hold it. [n] is the number of indices left. *)
Fixpoint forEach (n k : nat) (data : list T) (listeners : list Registered)
  : list effect * list Registered :=
  match n with
  | O => ([], listeners)
  | S n' =>
      match nth_error listeners k with
      | Some x =>
          let '(effects, listeners') := notify_one data x listeners in
          let '(rest, final) := forEach n' (S k) data listeners' in
          ((effects ++ rest)%list, final)
      | None => forEach n' (S k) data listeners
      end
  end.

(** [notify]: its effects, oldest first, and the array afterwards. It has
    no value and throws nothing. *)
Definition notify (listeners : list Registered) (data : list T)
  : list effect * list Registered :=
  let '(effects, final) := forEach (List.length listeners) 0 data listeners in
  (Log ("Notifying " ++ Z_toString (Z.of_nat (List.length listeners))
          ++ " listeners with " ++ Z_toString (Z.of_nat (List.length data)) ++ " items")
     :: effects,
   final).

(** The invocations among the effects. *)
Fixpoint calls (l : list effect) : list (Registered * list T) :=
  match l with
  | [] => []
  | Call x d :: l' => (x, d) :: calls l'
  | _ :: l' => calls l'
  end.


(** No listener of the list changes the array when called with [data]. *)
Definition undisturbed (listeners : list Registered) (data : list T) : Prop :=
  Forall (fun x => during x data = []) listeners.

(** The number of registrations of a callback. *)
Definition registrations (listeners : list Registered) (callback : Registered) : nat :=
  List.length (filter (fun x => (ref x =? ref callback)%nat) listeners).

(** The registrations of the other callbacks, in order. *)
Definition others (listeners : list Registered) (callback : Registered)
  : list Registered :=
  filter (fun x => negb (ref x =? ref callback)%nat) listeners.

End Registry.
End Registry.

(** ** The role of a user

    [updateUserRole] writes a document of its own kind, [{ role }], to the
    real-time store; the call of [update] for it is a collaborator of this
    function only. *)

Section UserRole.

Context {N : NumberOps}.
Variable env : Env.

(** [update(ref(database, `users/${userId}`), { role })], given the path
    and the role. *)
Variable firebase_update_role : string -> string -> World -> reply unit.

(** The effects of [updateUserRole]: those of the other functions, and the
    update of the role. *)
Inductive role_effect : Type :=
| Shared (ev : event)
| RoleUpdate (path role : string).

Record RoleRun : Type := {
  role_outcome : result unit;
  role_final : World;
  role_emitted : list role_effect
}.

Definition updateUserRole (userId role : string) (w : World) : RoleRun :=
  let started :=
    Shared (Console LLog ("Updating role for user " ++ userId ++ " to " ++ role) None) in
  let check := getDatabaseAvailabilitySync env w in
  match outcome check with
  | Ok true =>
      let path := "users/" ++ userId in
      let answer := firebase_update_role path role (final check) in
      match fst answer with
      | Ok _ =>
          {| role_outcome := Ok tt;
             role_final := set_now (snd answer) (final check);
             role_emitted :=
               (started :: map Shared (emitted check)
                  ++ [RoleUpdate path role;
                      Shared (Console LLog ("Role updated for user " ++ userId) None)])%list |}
      | Throw e =>
          {| role_outcome := Throw e;
             role_final := set_now (snd answer) (final check);
             role_emitted :=
               (started :: map Shared (emitted check) ++ [RoleUpdate path role])%list |}
      end
  | _ =>
      {| role_outcome := Ok tt;
         role_final := final check;
         role_emitted :=
           (started :: map Shared (emitted check)
              ++ [Shared (Console LLog
                            "Mock user role updated in concept (no mock user store yet)"
                            None)])%list |}
  end.

(** The updates of a role among the effects. *)
Fixpoint role_updates (l : list role_effect) : list (string * string) :=
  match l with
  | [] => []
  | RoleUpdate path role :: l' => (path, role) :: role_updates l'
  | _ :: l' => role_updates l'
  end.

End UserRole.

(** ** More readers of runs and states *)

Section MoreObservations.

Context {N : NumberOps}.

(** The matches an analytics object shows in a state: a module-level
    array is read in the state, an array of its own is fixed. *)
Definition matches_of (w : World) (data : AnalyticsData) : list Match :=
  match matches data with
  | ModuleArray => mockMatches w
  | FreshArray items => items
  end.

(** The state of the module proper is the same in both states: they differ
    at most by the clock. *)
Definition same_module_state (w w' : World) : Prop :=
  mockDonations w' = mockDonations w
  /\ mockRequirements w' = mockRequirements w
  /\ mockMatches w' = mockMatches w
  /\ analyticsCache w' = analyticsCache w
  /\ analyticsCacheTime w' = analyticsCacheTime w
  /\ next_object w' = next_object w.

(** The rows handed to [transactionService.create]. *)
Fixpoint transaction_creates (l : list event) : list TransactionInsert :=
  match l with
  | [] => []
  | TransactionCreate d :: l' => d :: transaction_creates l'
  | _ :: l' => transaction_creates l'
  end.

(** The writes to the real-time store, each with its path and document. *)
Fixpoint mirror_writes (l : list event) : list (string * MirrorValue) :=
  match l with
  | [] => []
  | FirebaseSet path v :: l' => (path, v) :: mirror_writes l'
  | FirebaseUpdate path v :: l' => (path, v) :: mirror_writes l'
  | _ :: l' => mirror_writes l'
  end.

(** The keys asked of the real-time store with [push]. *)
Fixpoint pushes (l : list event) : list string :=
  match l with
  | [] => []
  | FirebasePush parent :: l' => parent :: pushes l'
  | _ :: l' => pushes l'
  end.

(** A call to the client of the real-time store. *)
Definition is_mirror_call (ev : event) : bool :=
  match ev with
  | FirebasePush _ | FirebaseSet _ _ | FirebaseUpdate _ _ | FirebaseGet _ => true
  | _ => false
  end.

(** The warnings written with [console.warn]. *)
Fixpoint console_warnings (l : list event) : list error :=
  match l with
  | [] => []
  | Console LWarn _ (Some e) :: l' => e :: console_warnings l'
  | _ :: l' => console_warnings l'
  end.

End MoreObservations.

(** ** More scenarios: faults of the relational store and of the reads *)

Module Faults.

#[local] Existing Instance DecimalNumbers.

(** What goes wrong, on top of the behaviour [base]. *)
Record Knobs := {
  base : Scenario.Knobs;
  (** the error thrown by the writes to the relational store, if any *)
  relational_fault : option error;
  (** the error thrown by the reads of the three collections, if any *)
  read_fault : option error;
  (** what [database && database.app] is *)
  db_app : result bool
}.

Definition make_env (k : Knobs) : Env :=
  let env := Scenario.make_env (base k) in
  let failing {A} (call : World -> reply A) : World -> reply A :=
    fun w => match relational_fault k with
             | Some e => (Throw e, now w + Scenario.latency)
             | None => call w
             end in
  let unread {A} (call : World -> reply A) : World -> reply A :=
    fun w => match read_fault k with
             | Some e => (Throw e, now w + Scenario.latency)
             | None => call w
             end in
  {| NEXT_PUBLIC_FIREBASE_API_KEY := NEXT_PUBLIC_FIREBASE_API_KEY env;
     NEXT_PUBLIC_FIREBASE_PROJECT_ID := NEXT_PUBLIC_FIREBASE_PROJECT_ID env;
     database_app := db_app k;
     foodItemService_create := fun d => failing (foodItemService_create env d);
     foodItemService_updateStatus := fun id s =>
       failing (foodItemService_updateStatus env id s);
     foodItemService_getByDonor := foodItemService_getByDonor env;
     requestService_create := fun d => failing (requestService_create env d);
     requestService_updateStatus := fun id s =>
       failing (requestService_updateStatus env id s);
     requestService_getByNGO := requestService_getByNGO env;
     transactionService_create := fun d => failing (transactionService_create env d);
     supabase_select_food_items := supabase_select_food_items env;
     supabase_select_requests := supabase_select_requests env;
     supabase_subscribe := supabase_subscribe env;
     firebase_push := firebase_push env;
     firebase_set := firebase_set env;
     firebase_update := firebase_update env;
     firebase_get_connected := firebase_get_connected env;
     firebase_get_donations := unread (firebase_get_donations env);
     firebase_get_requirements := unread (firebase_get_requirements env);
     firebase_get_matches := unread (firebase_get_matches env) |}.

(** The relational store rejects every write. *)
Definition relational_down : Knobs :=
  {| base := Scenario.healthy; relational_fault := Some "connection refused";
     read_fault := None; db_app := Ok true |}.

(** The collections of the real-time store cannot be read, though the
    probe answers. *)
Definition reads_fail : Knobs :=
  {| base := Scenario.healthy; relational_fault := None;
     read_fault := Some "permission denied"; db_app := Ok true |}.

(** The real-time database is not initialised, and cannot be reached. *)
Definition mock_mode : Knobs :=
  {| base := Scenario.offline; relational_fault := None;
     read_fault := None; db_app := Ok false |}.

(** A callback that throws. *)
Definition failing_callback {A} : Callback A := fun _ => Throw "render failed".

(** The state after a first [getAnalyticsData] in mock mode: the cache
    holds the placeholder object. *)
Definition cached : World := final (getAnalyticsData (make_env mock_mode) Scenario.w0).

(** The first mock match, as the module makes it when loaded at
    [Scenario.t0]. *)
Definition match_1 : Match :=
  {| m_id := Some "1"; m_donationId := "1"; m_requirementId := "1";
     m_donorId := "donor1"; m_receiverId := "receiver1"; m_status := "confirmed";
     m_distance := Decimal.Dec 25 1; m_matchScore := Decimal.Dec 95 0;
     m_createdAt := "2023-11-12T22:13:20.000Z";
     m_updatedAt := "2023-11-12T22:13:20.000Z" |}.

(** A request row whose status is outside the vocabulary of requirements. *)
Definition cancelled_request : RequestRow :=
  Scenario.request_row "req-9"
    {| rqi_ngo_id := "ngo-3"; rqi_title := "Lunch"; rqi_food_type := "Rice";
       rqi_quantity := Decimal.Dec 10 0; rqi_unit := "kg"; rqi_urgency := "low";
       rqi_description := "Withdrawn"; rqi_delivery_address := "12 Mill Lane";
       rqi_delivery_latitude := Decimal.Dec 515 1;
       rqi_delivery_longitude := Decimal.Dec (-12) 2;
       rqi_needed_by := "2023-11-20T12:00:00.000Z";
       rqi_serving_size := Decimal.Dec 40 0; rqi_status := "cancelled" |}
    "2023-11-14T08:00:00.000Z".

(** Three registered listeners of numbers; the second throws. *)
Definition first_listener : Registry.Registered nat :=
  {| Registry.ref := 1; Registry.listener := fun _ => Ok tt |}.
Definition second_listener : Registry.Registered nat :=
  {| Registry.ref := 2; Registry.listener := fun _ => Throw "listener failed" |}.
Definition third_listener : Registry.Registered nat :=
  {| Registry.ref := 3; Registry.listener := fun _ => Ok tt |}.

(** Listeners that leave the array alone. *)
Definition leave_alone
  : Registry.Registered nat -> list nat -> list (Registry.action nat) :=
  fun _ _ => [].


(** The update of a role, which the real-time store refuses. *)
Definition refused_role_update : string -> string -> World -> reply unit :=
  fun _ _ w => (Throw "PERMISSION_DENIED", now w + Scenario.latency).

End Faults.

(** ** Properties *)

Local Open Scope list_scope.

(** *** Tactics for runs *)

(** Unfold the monad in the goal. *)
Ltac unfold_monad :=
  cbv beta iota zeta delta
    [bind try_catch then_background ret throw emit await call_sync Date_now
     console_log console_warn console_error call_donations call_requirements negb];
  cbn [outcome final emitted fst snd app].

(** Split on the answer of the next collaborator consulted in the goal. *)
Ltac split_answer :=
  match goal with
  | |- context [match fst ?x with _ => _ end] =>
      let r := fresh "r" in let t := fresh "t" in let E := fresh "E" in
      destruct x as [r t] eqn:E; destruct r;
      cbn [outcome final emitted fst snd app] in *
  | |- context [match ?x with Ok _ => _ | Throw _ => _ end] =>
      let E := fresh "E" in
      destruct x eqn:E; cbn [outcome final emitted fst snd app] in *
  | |- context [match ?x with Some _ => _ | None => _ end] =>
      let E := fresh "E" in
      destruct x eqn:E; cbn [outcome final emitted fst snd app] in *
  | |- context [if ?b then _ else _] =>
      is_var b; destruct b; cbn [outcome final emitted fst snd app] in *
  | |- context [match ?p with pair _ _ => _ end] =>
      is_var p; destruct p; cbn [outcome final emitted fst snd app] in *
  end.

Section RecordTranslator.

(** C5. The translation of the statuses is a bijection on each status
    domain: the donation statuses pending, matched, completed, expired
    are sent one to one onto available, reserved, collected, expired and
    the reverse map brings each of them back; the requirement statuses
    active, matched, fulfilled likewise (onto themselves). *)
Theorem status_translation_round_trip :
  map donation_status_to_supabase donation_statuses = food_item_statuses
  /\ map donation_status_of_supabase food_item_statuses = donation_statuses
  /\ Forall (fun s => donation_status_of_supabase (donation_status_to_supabase s) = s)
            donation_statuses
  /\ Forall (fun s => donation_status_to_supabase (donation_status_of_supabase s) = s)
            food_item_statuses
  /\ NoDup donation_statuses /\ NoDup food_item_statuses
  /\ map requirement_status_to_supabase requirement_statuses = requirement_statuses
  /\ map requirement_status_of_supabase requirement_statuses = requirement_statuses
  /\ Forall (fun s => requirement_status_of_supabase (requirement_status_to_supabase s) = s)
            requirement_statuses
  /\ Forall (fun s => requirement_status_to_supabase (requirement_status_of_supabase s) = s)
            requirement_statuses
  /\ NoDup requirement_statuses.
Proof.
  assert (nodup4 : forall a b c d : string,
             a <> b -> a <> c -> a <> d -> b <> c -> b <> d -> c <> d ->
             NoDup [a; b; c; d]).
  { intros a b c d ab ac ad bc bd cd.
    repeat constructor; simpl; intuition congruence. }
  assert (nodup3 : forall a b c : string,
             a <> b -> a <> c -> b <> c -> NoDup [a; b; c]).
  { intros a b c ab ac bc. repeat constructor; simpl; intuition congruence. }
  repeat split;
    try reflexivity;
    try (repeat constructor; reflexivity);
    try (apply nodup4; discriminate);
    try (apply nodup3; discriminate).
Qed.

End RecordTranslator.

Section Notify.

Variable T : Type.
Variable during : Registry.Registered T -> list T -> list (Registry.action T).

Lemma calls_app (l1 l2 : list (Registry.effect T)) :
  Registry.calls T (l1 ++ l2) = Registry.calls T l1 ++ Registry.calls T l2.
Proof.
  induction l1 as [|ef l1 IH]; simpl; [reflexivity|].
  destruct ef; simpl; rewrite IH; reflexivity.
Qed.


Lemma calls_call_effects (data : list T) (listeners : list (Registry.Registered T)) :
  Registry.calls T (flat_map (Registry.call_effects T data) listeners)
  = map (fun x => (x, data)) listeners.
Proof.
  induction listeners as [|x l IH]; simpl; [reflexivity|].
  rewrite calls_app, IH. unfold Registry.call_effects.
  destruct (Registry.listener T x data); reflexivity.
Qed.


Lemma forEach_visit (n k : nat) (data : list T) (x : Registry.Registered T)
    (listeners : list (Registry.Registered T)) :
  nth_error listeners k = Some x ->
  Registry.forEach T during (S n) k data listeners
  = (fst (Registry.notify_one T during data x listeners)
       ++ fst (Registry.forEach T during n (S k) data
                 (snd (Registry.notify_one T during data x listeners))),
     snd (Registry.forEach T during n (S k) data
            (snd (Registry.notify_one T during data x listeners)))).
Proof.
  intros H. cbn [Registry.forEach]. rewrite H.
  destruct (Registry.notify_one T during data x listeners) as [effects listeners'].
  cbn [fst snd].
  destruct (Registry.forEach T during n (S k) data listeners'). reflexivity.
Qed.

Lemma forEach_skip (n k : nat) (data : list T)
    (listeners : list (Registry.Registered T)) :
  nth_error listeners k = None ->
  Registry.forEach T during (S n) k data listeners
  = Registry.forEach T during n (S k) data listeners.
Proof. intros H. cbn [Registry.forEach]. rewrite H. reflexivity. Qed.

Lemma notify_one_undisturbed (data : list T) (x : Registry.Registered T)
    (listeners : list (Registry.Registered T)) :
  during x data = [] ->
  Registry.notify_one T during data x listeners = (Registry.call_effects T data x, listeners).
Proof.
  intros H. unfold Registry.notify_one. rewrite H. reflexivity.
Qed.

(** The traversal of listeners that leave the array alone: the indices
    from the length of [earlier] on hold the elements of [later]. *)
Lemma forEach_undisturbed (data : list T) (later earlier : list (Registry.Registered T)) :
  Registry.undisturbed T during later data ->
  Registry.forEach T during (List.length later) (List.length earlier) data
    (earlier ++ later)
  = (flat_map (Registry.call_effects T data) later, earlier ++ later).
Proof.
  revert earlier. induction later as [|x later IH]; intros earlier H.
  - reflexivity.
  - inversion H as [|x' l' Hx Hl]; subst. cbn [List.length].
    rewrite (forEach_visit _ _ _ x)
      by (rewrite nth_error_app2 by apply Nat.le_refl;
          rewrite Nat.sub_diag; reflexivity).
    rewrite (notify_one_undisturbed _ _ _ Hx). cbn [fst snd].
    replace (earlier ++ x :: later) with ((earlier ++ [x]) ++ later)
      by (rewrite <- app_assoc; reflexivity).
    replace (S (List.length earlier)) with (List.length (earlier ++ [x]))
      by (rewrite length_app; simpl; apply Nat.add_1_r).
    rewrite (IH (earlier ++ [x]) Hl). reflexivity.
Qed.

Lemma notify_undisturbed (data : list T) (listeners : list (Registry.Registered T)) :
  Registry.undisturbed T during listeners data ->
  Registry.notify T during listeners data
  = (Registry.Log T ("Notifying " ++ Z_toString (Z.of_nat (List.length listeners))
                       ++ " listeners with "
                       ++ Z_toString (Z.of_nat (List.length data)) ++ " items")%string
       :: flat_map (Registry.call_effects T data) listeners,
     listeners).
Proof.
  intros H. unfold Registry.notify.
  pose proof (forEach_undisturbed data listeners [] H) as E.
  cbn [List.length app] in E. rewrite E. reflexivity.
Qed.


End Notify.

Section CreateDefaults.

Context {N : NumberOps}.
Variable env : Env.

Lemma donation_default_pickup_time (donation : DonationInput) (t : Z) :
  di_pickupTime donation = None ->
  fii_pickup_time (donation_supabaseData donation t) = Date.toISOString t.
Proof. intros H. unfold donation_supabaseData. simpl. rewrite H. reflexivity. Qed.

Lemma donation_default_expiry_date (donation : DonationInput) (t : Z) :
  di_expiryDate donation = None ->
  fii_expiry_date (donation_supabaseData donation t)
  = Date.toISOString (t + 7 * 24 * 60 * 60 * 1000).
Proof. intros H. unfold donation_supabaseData. simpl. rewrite H. reflexivity. Qed.

Lemma requirement_default_needed_by (requirement : RequirementInput) (t : Z) :
  ri_neededBy requirement = None ->
  rqi_needed_by (requirement_supabaseData requirement t)
  = Date.toISOString (t + 7 * 24 * 60 * 60 * 1000).
Proof. intros H. unfold requirement_supabaseData. simpl. rewrite H. reflexivity. Qed.

(** [createDonation] hands exactly one row to the relational store, built
    at the time of the call. *)
Lemma createDonation_food_item_creates (donation : DonationInput) (w : World) :
  food_item_creates (emitted (createDonation env donation w))
  = [donation_supabaseData donation (now w)].
Proof.
  unfold createDonation, createDonation_primary, createDonation_mirror.
  unfold_monad.
  repeat (split_answer; try reflexivity).
Qed.

Lemma createRequirement_request_creates (requirement : RequirementInput) (w : World) :
  request_creates (emitted (createRequirement env requirement w))
  = [requirement_supabaseData requirement (now w)].
Proof.
  unfold createRequirement, createRequirement_primary, createRequirement_mirror.
  unfold_monad.
  repeat (split_answer; try reflexivity).
Qed.

Lemma createDonation_one_activity (donation : DonationInput) (w : World) (id : string) :
  outcome (createDonation env donation w) = Ok id ->
  exists key : string,
    activity_entries (emitted (createDonation env donation w))
    = [(("activity_feed/" ++ key)%string, "donation_created")].
Proof.
  unfold createDonation, createDonation_primary, createDonation_mirror.
  unfold_monad.
  repeat (split_answer; try discriminate).
  intros _. eexists. reflexivity.
Qed.

(** C7. A [createDonation] whose input has no [pickupTime] hands the
    relational store a row whose [pickup_time] is the time of the call,
    and one whose input has no [expiryDate] a row whose [expiry_date] is
    the time of the call plus seven days; a [createRequirement] whose
    input has no [neededBy] hands over a row whose [needed_by] is the
    time of the call plus seven days; and a [createDonation] that
    succeeds has written exactly one activity-feed entry, of type
    donation_created. *)
Theorem create_defaults (w : World) :
  (forall donation : DonationInput,
      exists row : FoodItemInsert,
        food_item_creates (emitted (createDonation env donation w)) = [row]
        /\ (di_pickupTime donation = None ->
            fii_pickup_time row = Date.toISOString (now w))
        /\ (di_expiryDate donation = None ->
            fii_expiry_date row = Date.toISOString (now w + 7 * 24 * 60 * 60 * 1000))
        /\ (forall id : string,
               outcome (createDonation env donation w) = Ok id ->
               exists key : string,
                 activity_entries (emitted (createDonation env donation w))
                 = [(("activity_feed/" ++ key)%string, "donation_created")]))
  /\ (forall requirement : RequirementInput,
         exists row : RequestInsert,
           request_creates (emitted (createRequirement env requirement w)) = [row]
           /\ (ri_neededBy requirement = None ->
               rqi_needed_by row = Date.toISOString (now w + 7 * 24 * 60 * 60 * 1000))).
Proof.
  split.
  - intros donation. exists (donation_supabaseData donation (now w)).
    split; [apply createDonation_food_item_creates|].
    split; [apply donation_default_pickup_time|].
    split; [apply donation_default_expiry_date|].
    intros id. apply createDonation_one_activity.
  - intros requirement. exists (requirement_supabaseData requirement (now w)).
    split; [apply createRequirement_request_creates|].
    apply requirement_default_needed_by.
Qed.

End CreateDefaults.

Section ServingSize.

Context {N : NumberOps}.
Variable env : Env.

Lemma parseInt_or_zero_NaN (s : string) :
  ParseInt.parseInt s = None -> parseInt_or_zero s = number_of_Z 0.
Proof. intros H. unfold parseInt_or_zero. rewrite H. reflexivity. Qed.

(** When the stores answer, [createRequirement] resolves with the
    identity of the row. *)
Lemma createRequirement_resolves (requirement : RequirementInput) (w : World)
    (stored : RequestRow) :
  fst (requestService_create env (requirement_supabaseData requirement (now w)) w)
  = Ok (Some stored) ->
  (forall path v w', fst (firebase_set env path v w') = Ok tt) ->
  (forall w', exists key, firebase_push env "activity_feed" w' = Ok key) ->
  outcome (createRequirement env requirement w) = Ok (rq_id stored).
Proof.
  intros Hcreate Hset Hpush.
  unfold createRequirement, createRequirement_primary, createRequirement_mirror.
  unfold_monad.
  rewrite Hcreate. cbn [outcome final emitted fst snd app].
  rewrite Hset. cbn [outcome final emitted fst snd app].
  match goal with
  | |- context [firebase_push env "activity_feed" ?w'] =>
      destruct (Hpush w') as [key Hkey]
  end.
  rewrite Hkey. cbn [outcome final emitted fst snd app].
  rewrite Hset. reflexivity.
Qed.

(** C10. When [parseInt] of the serving size is [NaN], [createRequirement]
    does not fail on it: it hands the relational store a row whose
    [serving_size] is 0, and it resolves with the identity of the stored
    row when the stores answer. *)
Theorem createRequirement_unparsable_serving_size
    (requirement : RequirementInput) (w : World) :
  ParseInt.parseInt (ri_servingSize requirement) = None ->
  (exists row : RequestInsert,
      request_creates (emitted (createRequirement env requirement w)) = [row]
      /\ rqi_serving_size row = number_of_Z 0)
  /\ (forall stored : RequestRow,
         fst (requestService_create env (requirement_supabaseData requirement (now w)) w)
         = Ok (Some stored) ->
         (forall path v w', fst (firebase_set env path v w') = Ok tt) ->
         (forall w', exists key, firebase_push env "activity_feed" w' = Ok key) ->
         outcome (createRequirement env requirement w) = Ok (rq_id stored)).
Proof.
  intros HNaN. split.
  - exists (requirement_supabaseData requirement (now w)). split.
    + apply createRequirement_request_creates.
    + unfold requirement_supabaseData. simpl. apply parseInt_or_zero_NaN, HNaN.
  - intros stored. apply createRequirement_resolves.
Qed.

End ServingSize.

Section DualWrite.

Context {N : NumberOps}.
Variable env : Env.

Lemma string_or_Some (s d : string) :
  string_or (Some s) d = if (s =? "")%string then d else s.
Proof. destruct s; reflexivity. Qed.

Ltac fails_with H :=
  rewrite H; cbn [outcome final emitted fst snd app];
  repeat split; reflexivity.

(** C1, as the code has it. In each of [createDonation],
    [createRequirement] and [createMatch], when the relational store has
    answered the write and one of the requests to the real-time store that
    follow throws (the write of the mirror record, the generation of a key,
    the write of the activity-feed entry), the error is caught, logged
    with [console.error] and thrown again: the operation rejects with the
    error of the real-time store and returns no identity. The requests are
    those of the collaborators, each at the state in which it is sent. *)
Theorem create_mirror_failure_rethrown :
  (forall (donation : DonationInput) (w : World) (row : FoodItemRow) (e : error),
      let created := foodItemService_create env (donation_supabaseData donation (now w)) w in
      let w1 := set_now (snd created) w in
      let copied :=
        firebase_set env ("donations/" ++ fi_id row)%string
          (VDonation (donation_firebaseData donation row)) w1 in
      let w2 := set_now (snd copied) w1 in
      let entry key := VDonationActivity (donation_activity donation row key (now w2)) in
      fst created = Ok (Some row) ->
      fst copied = Throw e
      \/ (fst copied = Ok tt /\ firebase_push env "activity_feed" w2 = Throw e)
      \/ (exists key : string,
             fst copied = Ok tt
             /\ firebase_push env "activity_feed" w2 = Ok key
             /\ fst (firebase_set env ("activity_feed/" ++ key)%string (entry key) w2)
                = Throw e) ->
      outcome (createDonation env donation w) = Throw e
      /\ last_effect (emitted (createDonation env donation w))
         = Some (Console LError "Error creating donation:" (Some e))
      /\ console_errors (emitted (createDonation env donation w)) = [e])
  /\ (forall (requirement : RequirementInput) (w : World) (row : RequestRow) (e : error),
         let created :=
           requestService_create env (requirement_supabaseData requirement (now w)) w in
         let w1 := set_now (snd created) w in
         let copied :=
           firebase_set env ("requirements/" ++ rq_id row)%string
             (VRequirement (requirement_firebaseData requirement row)) w1 in
         let w2 := set_now (snd copied) w1 in
         let entry key :=
           VRequirementActivity (requirement_activity requirement row key (now w2)) in
         fst created = Ok (Some row) ->
         fst copied = Throw e
         \/ (fst copied = Ok tt /\ firebase_push env "activity_feed" w2 = Throw e)
         \/ (exists key : string,
                fst copied = Ok tt
                /\ firebase_push env "activity_feed" w2 = Ok key
                /\ fst (firebase_set env ("activity_feed/" ++ key)%string (entry key) w2)
                   = Throw e) ->
         outcome (createRequirement env requirement w) = Throw e
         /\ last_effect (emitted (createRequirement env requirement w))
            = Some (Console LError "Error creating requirement:" (Some e))
         /\ console_errors (emitted (createRequirement env requirement w)) = [e])
  /\ (forall (match_ : MatchInput) (actualQuantity : option number) (w : World)
             (answer : option TransactionRow) (e : error),
         let created :=
           transactionService_create env
             (match_transactionData match_ actualQuantity (now w)) w in
         let w1 := set_now (snd created) w in
         let transactionId := transaction_id answer in
         let copied matchKey :=
           firebase_set env ("matches/" ++ matchKey)%string
             (VMatch (match_matchData match_ transactionId matchKey (now w1))) w1 in
         let w2 matchKey := set_now (snd (copied matchKey)) w1 in
         let entry matchKey key :=
           VMatchActivity
             (match_activity match_ transactionId matchKey key (now (w2 matchKey))) in
         fst created = Ok answer ->
         firebase_push env "matches" w1 = Throw e
         \/ (exists matchKey : string,
                firebase_push env "matches" w1 = Ok matchKey
                /\ (fst (copied matchKey) = Throw e
                    \/ (fst (copied matchKey) = Ok tt
                        /\ firebase_push env "activity_feed" (w2 matchKey) = Throw e)
                    \/ (exists key : string,
                           fst (copied matchKey) = Ok tt
                           /\ firebase_push env "activity_feed" (w2 matchKey) = Ok key
                           /\ fst (firebase_set env ("activity_feed/" ++ key)%string
                                     (entry matchKey key) (w2 matchKey)) = Throw e))) ->
         outcome (createMatch env match_ actualQuantity w) = Throw e
         /\ last_effect (emitted (createMatch env match_ actualQuantity w))
            = Some (Console LError "Error creating match/transaction:" (Some e))
         /\ console_errors (emitted (createMatch env match_ actualQuantity w)) = [e]).
Proof.
  split; [|split].
  - cbv zeta. intros donation w row e Hcreated Hfault.
    unfold createDonation, createDonation_primary, createDonation_mirror.
    unfold_monad. rewrite Hcreated. cbn [outcome final emitted fst snd app].
    destruct Hfault as [Hset | [[Hset Hpush] | [key [Hset [Hpush Hentry]]]]].
    + fails_with Hset.
    + rewrite Hset. cbn [outcome final emitted fst snd app]. fails_with Hpush.
    + rewrite Hset. cbn [outcome final emitted fst snd app].
      rewrite Hpush. cbn [outcome final emitted fst snd app]. fails_with Hentry.
  - cbv zeta. intros requirement w row e Hcreated Hfault.
    unfold createRequirement, createRequirement_primary, createRequirement_mirror.
    unfold_monad. rewrite Hcreated. cbn [outcome final emitted fst snd app].
    destruct Hfault as [Hset | [[Hset Hpush] | [key [Hset [Hpush Hentry]]]]].
    + fails_with Hset.
    + rewrite Hset. cbn [outcome final emitted fst snd app]. fails_with Hpush.
    + rewrite Hset. cbn [outcome final emitted fst snd app].
      rewrite Hpush. cbn [outcome final emitted fst snd app]. fails_with Hentry.
  - cbv zeta. intros match_ q w answer e Hcreated Hfault.
    unfold createMatch, createMatch_primary, createMatch_mirror.
    unfold_monad. rewrite Hcreated. cbn [outcome final emitted fst snd app].
    destruct Hfault as [Hkey | [matchKey [Hkey Hfault]]].
    + fails_with Hkey.
    + rewrite Hkey. cbn [outcome final emitted fst snd app].
      destruct Hfault as [Hset | [[Hset Hpush] | [key [Hset [Hpush Hentry]]]]].
      * fails_with Hset.
      * rewrite Hset. cbn [outcome final emitted fst snd app]. fails_with Hpush.
      * rewrite Hset. cbn [outcome final emitted fst snd app].
        rewrite Hpush. cbn [outcome final emitted fst snd app]. fails_with Hentry.
Qed.

(** The status updates do swallow a failure of the mirror: once the
    relational store has taken the update, [updateDonationStatus]
    resolves whatever the real-time store answers. *)
Lemma updateDonationStatus_mirror_failure_swallowed
    (donationId status : string) (matchedWith : option string) (w : World) :
  fst (foodItemService_updateStatus env donationId (donation_status_to_supabase status) w)
  = Ok tt ->
  outcome (updateDonationStatus env donationId status matchedWith w) = Ok tt.
Proof.
  intros H. unfold updateDonationStatus. unfold_monad.
  rewrite H. cbn [outcome final emitted].
  destruct (truthy_string matchedWith); split_answer; [destruct a| |destruct a|];
    reflexivity.
Qed.

Lemma updateRequirementStatus_mirror_failure_swallowed
    (requirementId status : string) (matchedWith : option string) (w : World) :
  fst (requestService_updateStatus env requirementId
         (requirement_status_to_supabase status) w) = Ok tt ->
  outcome (updateRequirementStatus env requirementId status matchedWith w) = Ok tt.
Proof.
  intros H. unfold updateRequirementStatus. unfold_monad.
  rewrite H. cbn [outcome final emitted].
  destruct (truthy_string matchedWith); split_answer; [destruct a| |destruct a|];
    reflexivity.
Qed.

(** C4, as the code has it. A [createDonation] or [createRequirement]
    that succeeds returns the [id] of the row the relational store has
    answered. A [createMatch] that succeeds returns the [id] of the
    transaction the relational store has answered when there is one and
    it is not empty, and otherwise the key the real-time store has
    generated for the match. *)
Theorem create_returns_identity (w : World) :
  (forall (donation : DonationInput) (id : string),
      outcome (createDonation env donation w) = Ok id ->
      exists row : FoodItemRow,
        fst (foodItemService_create env (donation_supabaseData donation (now w)) w)
        = Ok (Some row)
        /\ id = fi_id row)
  /\ (forall (requirement : RequirementInput) (id : string),
         outcome (createRequirement env requirement w) = Ok id ->
         exists row : RequestRow,
           fst (requestService_create env (requirement_supabaseData requirement (now w)) w)
           = Ok (Some row)
           /\ id = rq_id row)
  /\ (forall (match_ : MatchInput) (actualQuantity : option number) (id : string),
         outcome (createMatch env match_ actualQuantity w) = Ok id ->
         let call := transactionService_create env
                       (match_transactionData match_ actualQuantity (now w)) w in
         exists (answer : option TransactionRow) (key : string),
           fst call = Ok answer
           /\ firebase_push env "matches" (set_now (snd call) w) = Ok key
           /\ id = if (transaction_id answer =? "")%string then key
                   else transaction_id answer).
Proof.
  split; [|split].
  - intros donation id.
    unfold createDonation, createDonation_primary, createDonation_mirror.
    unfold_monad.
    repeat (split_answer; try discriminate).
    intros H. injection H as <-. eexists. split; reflexivity.
  - intros requirement id.
    unfold createRequirement, createRequirement_primary, createRequirement_mirror.
    unfold_monad.
    repeat (split_answer; try discriminate).
    intros H. injection H as <-. eexists. split; reflexivity.
  - intros match_ q id.
    unfold createMatch, createMatch_primary, createMatch_mirror.
    unfold_monad.
    repeat (split_answer; try discriminate).
    intros H. injection H as <-. cbn zeta.
    eexists _, _. split; [reflexivity|]. split; [reflexivity|].
    destruct (transaction_id _); reflexivity.
Qed.

End DualWrite.

Section WriteOrder.

Context {N : NumberOps}.
Variable env : Env.

(** C2, as the code has it. The first write of [createDonation],
    [createRequirement], [createMatch], [updateDonationStatus] and
    [updateRequirementStatus] goes to the relational store, before any
    write to the real-time store. [updateMatchStatus] never writes to the
    relational store: when the real-time database is initialised its only
    request is the update of the mirror record, and otherwise it sends
    nothing to either store. *)
Theorem relational_store_written_first (w : World) :
  (forall donation : DonationInput,
      first_write (emitted (createDonation env donation w))
      = Some (FoodItemCreate (donation_supabaseData donation (now w))))
  /\ (forall requirement : RequirementInput,
         first_write (emitted (createRequirement env requirement w))
         = Some (RequestCreate (requirement_supabaseData requirement (now w))))
  /\ (forall (match_ : MatchInput) (actualQuantity : option number),
         first_write (emitted (createMatch env match_ actualQuantity w))
         = Some (TransactionCreate (match_transactionData match_ actualQuantity (now w))))
  /\ (forall (donationId status : string) (matchedWith : option string),
         first_write (emitted (updateDonationStatus env donationId status matchedWith w))
         = Some (FoodItemUpdateStatus donationId (donation_status_to_supabase status)))
  /\ (forall (requirementId status : string) (matchedWith : option string),
         first_write (emitted (updateRequirementStatus env requirementId status
                                 matchedWith w))
         = Some (RequestUpdateStatus requirementId
                   (requirement_status_to_supabase status)))
  /\ (forall matchId status : string,
         filter is_relational_write (emitted (updateMatchStatus env matchId status w)) = []
         /\ filter is_network_call (emitted (updateMatchStatus env matchId status w))
            = match database_app env with
              | Ok true =>
                  [FirebaseUpdate ("matches/" ++ matchId)%string
                     (VPatch {| sp_status := status;
                                sp_updatedAt := Date.toISOString (now w);
                                sp_matchedWith := None;
                                sp_matchedAt := None |})]
              | _ => []
              end).
Proof.
  repeat split.
  - intros. unfold createDonation, createDonation_primary, createDonation_mirror. unfold_monad.
    repeat (split_answer; try reflexivity).
  - intros. unfold createRequirement, createRequirement_primary, createRequirement_mirror. unfold_monad.
    repeat (split_answer; try reflexivity).
  - intros. unfold createMatch, createMatch_primary, createMatch_mirror. unfold_monad.
    repeat (split_answer; try reflexivity).
  - intros. unfold updateDonationStatus. unfold_monad.
    destruct (truthy_string matchedWith); repeat (split_answer; try reflexivity).
  - intros. unfold updateRequirementStatus. unfold_monad.
    destruct (truthy_string matchedWith); repeat (split_answer; try reflexivity).
  - unfold updateMatchStatus, getDatabaseAvailabilitySync.
    destruct (database_app env) as [[|]|e]; unfold_monad; try reflexivity;
      destruct (update_mock_match _ _ _ _); reflexivity.
  - unfold updateMatchStatus, getDatabaseAvailabilitySync.
    destruct (database_app env) as [[|]|e]; unfold_monad; try reflexivity;
      destruct (update_mock_match _ _ _ _); reflexivity.
Qed.

End WriteOrder.

Section Configuration.

Context {N : NumberOps}.
Variable env : Env.

Lemma set_and_not_false (v : option string) (sentinel : string) :
  absent_or_placeholder v sentinel -> set_and_not v sentinel = false.
Proof.
  intros [-> | [-> | ->]]; try reflexivity.
  unfold set_and_not. rewrite String.eqb_refl. apply andb_false_r.
Qed.

(** With a stale cache, [getAnalyticsData] starts with the connectivity
    probe. *)
Lemma getAnalyticsData_probes (w : World) :
  cache_valid w = false ->
  exists rest, emitted (getAnalyticsData env w) = FirebaseGet ".info/connected" :: rest.
Proof.
  unfold cache_valid, getAnalyticsData. intros H.
  assert (R : exists rest, emitted (getAnalyticsData_refresh env w)
                           = FirebaseGet ".info/connected" :: rest).
  { unfold getAnalyticsData_refresh, getDatabaseAvailability, get_all_snapshots,
      cache_and_return.
    unfold_monad.
    repeat (split_answer; try (eexists; reflexivity)). }
  destruct (analyticsCache w); [rewrite H|]; exact R.
Qed.

(** When the probe does not report a connection, the result is the
    placeholder dataset, in a new object, and the probe is the only
    request. *)
Lemma getAnalyticsData_placeholder (w : World) :
  cache_valid w = false ->
  fst (firebase_get_connected env w) <> Ok true ->
  outcome (getAnalyticsData env w) = Ok (next_object w, mock_data)
  /\ filter is_network_call (emitted (getAnalyticsData env w))
     = [FirebaseGet ".info/connected"].
Proof.
  unfold cache_valid, getAnalyticsData. intros H Hp.
  assert (R : outcome (getAnalyticsData_refresh env w) = Ok (next_object w, mock_data)
              /\ filter is_network_call (emitted (getAnalyticsData_refresh env w))
                 = [FirebaseGet ".info/connected"]).
  { revert Hp.
    unfold getAnalyticsData_refresh, getDatabaseAvailability, cache_and_return.
    unfold_monad.
    split_answer; intros Hp.
    - destruct a; [congruence|]. unfold_monad. split; reflexivity.
    - unfold_monad. split; reflexivity. }
  destruct (analyticsCache w); [rewrite H|]; exact R.
Qed.

(** C3, as the code has it. [isDatabaseAvailable] answers false, and
    says that mock data mode is used, whenever one of the two
    configuration values is absent, empty or equal to its placeholder;
    but no operation calls it, and every operation runs the same whatever
    the two values are. [getAnalyticsData], when its cache is stale,
    starts with the connectivity probe, which is a request to the
    real-time store, and returns the placeholder dataset without any
    further request when the probe throws or reports no connection. *)
Theorem configuration_is_not_consulted (w : World) :
  (absent_or_placeholder (NEXT_PUBLIC_FIREBASE_API_KEY env) "demo-api-key"
   \/ absent_or_placeholder (NEXT_PUBLIC_FIREBASE_PROJECT_ID env) "demo-project" ->
   isDatabaseAvailable env w
   = MkRun (Ok false) w [Console LLog "Firebase not configured, using mock data mode" None])
  /\ (forall key project : option string,
         let env' := with_config key project env in
         getAnalyticsData env' w = getAnalyticsData env w
         /\ (forall donation, createDonation env' donation w = createDonation env donation w)
         /\ (forall requirement,
                createRequirement env' requirement w = createRequirement env requirement w)
         /\ (forall match_ q, createMatch env' match_ q w = createMatch env match_ q w)
         /\ (forall id status matchedWith,
                updateDonationStatus env' id status matchedWith w
                = updateDonationStatus env id status matchedWith w)
         /\ (forall id status matchedWith,
                updateRequirementStatus env' id status matchedWith w
                = updateRequirementStatus env id status matchedWith w)
         /\ (forall id status,
                updateMatchStatus env' id status w = updateMatchStatus env id status w)
         /\ (forall donorId callback,
                getDonationsByDonor env' donorId callback w
                = getDonationsByDonor env donorId callback w)
         /\ (forall receiverId callback,
                getRequirementsByReceiver env' receiverId callback w
                = getRequirementsByReceiver env receiverId callback w)
         /\ (forall callback,
                listenToAvailableDonations env' callback w
                = listenToAvailableDonations env callback w)
         /\ (forall callback,
                listenToActiveRequirements env' callback w
                = listenToActiveRequirements env callback w))
  /\ (cache_valid w = false ->
      (exists rest,
          emitted (getAnalyticsData env w) = FirebaseGet ".info/connected" :: rest)
      /\ (fst (firebase_get_connected env w) <> Ok true ->
          outcome (getAnalyticsData env w) = Ok (next_object w, mock_data)
          /\ filter is_network_call (emitted (getAnalyticsData env w))
             = [FirebaseGet ".info/connected"])).
Proof.
  split; [|split].
  - intros H. unfold isDatabaseAvailable, hasValidConfig.
    assert (E : set_and_not (NEXT_PUBLIC_FIREBASE_API_KEY env) "demo-api-key"
                && set_and_not (NEXT_PUBLIC_FIREBASE_PROJECT_ID env) "demo-project"
                = false).
    { destruct H as [H|H]; rewrite (set_and_not_false _ _ H);
        [reflexivity | apply andb_false_r]. }
    rewrite E. reflexivity.
  - intros key project env'. repeat split; intros; reflexivity.
  - intros H. split.
    + apply getAnalyticsData_probes, H.
    + apply getAnalyticsData_placeholder, H.
Qed.

End Configuration.

Section Subscriptions.

Context {N : NumberOps}.
Variable env : Env.

(** C6, as the code has it. No entry point raises when its initial query
    fails, and each does half of what remains. [getDonationsByDonor] and
    [getRequirementsByReceiver] log the error and return the no-op
    unsubscribe function, without invoking the callback; they do the same
    when the query has succeeded, the callback has received the rows and
    the channel cannot be opened. [listenToAvailableDonations] and
    [listenToActiveRequirements] invoke the callback with the empty
    sequence, and with nothing else, when the initial query fails; what
    they return does not depend on the query: the function that
    unsubscribes the channel when the channel has been opened, and an
    exception when it could not be opened. *)
Theorem subscription_failure_handling (w : World) :
  (forall (donorId : string) (callback : Callback FoodDonation) (e : error),
      fst (foodItemService_getByDonor env donorId w) = Throw e ->
      outcome (getDonationsByDonor env donorId callback w) = Ok NoOp
      /\ donation_callbacks (emitted (getDonationsByDonor env donorId callback w)) = []
      /\ console_errors (emitted (getDonationsByDonor env donorId callback w)) = [e])
  /\ (forall (receiverId : string) (callback : Callback FoodRequirement) (e : error),
         fst (requestService_getByNGO env receiverId w) = Throw e ->
         outcome (getRequirementsByReceiver env receiverId callback w) = Ok NoOp
         /\ requirement_callbacks
              (emitted (getRequirementsByReceiver env receiverId callback w)) = []
         /\ console_errors
              (emitted (getRequirementsByReceiver env receiverId callback w)) = [e])
  /\ (forall (donorId : string) (callback : Callback FoodDonation)
             (rows : list FoodItemRow) (e : error),
         let call := foodItemService_getByDonor env donorId w in
         fst call = Ok rows ->
         callback (map convertSupabaseToFoodDonation rows) = Ok tt ->
         supabase_subscribe env ("donations-" ++ donorId)%string (set_now (snd call) w)
         = Throw e ->
         outcome (getDonationsByDonor env donorId callback w) = Ok NoOp
         /\ donation_callbacks (emitted (getDonationsByDonor env donorId callback w))
            = [map convertSupabaseToFoodDonation rows])
  /\ (forall (receiverId : string) (callback : Callback FoodRequirement)
             (rows : list RequestRow) (e : error),
         let call := requestService_getByNGO env receiverId w in
         fst call = Ok rows ->
         callback (map (convertSupabaseToRequirement requirement_status_of_supabase) rows)
         = Ok tt ->
         supabase_subscribe env ("requirements-" ++ receiverId)%string
           (set_now (snd call) w) = Throw e ->
         outcome (getRequirementsByReceiver env receiverId callback w) = Ok NoOp
         /\ requirement_callbacks
              (emitted (getRequirementsByReceiver env receiverId callback w))
            = [map (convertSupabaseToRequirement requirement_status_of_supabase) rows])
  /\ (forall (callback : Callback FoodDonation) (e : error),
         query_failed (supabase_select_food_items env "available" w) e ->
         let r := listenToAvailableDonations env callback w in
         hd_error (donation_callbacks (emitted r)) = Some []
         /\ Forall (fun data => data = []) (donation_callbacks (emitted r))
         /\ outcome r
            = match supabase_subscribe env "available-donations" w with
              | Ok _ => Ok (UnsubscribeChannel "available-donations")
              | Throw e' => Throw e'
              end)
  /\ (forall (callback : Callback FoodRequirement) (e : error),
         query_failed (supabase_select_requests env "active" w) e ->
         let r := listenToActiveRequirements env callback w in
         hd_error (requirement_callbacks (emitted r)) = Some []
         /\ Forall (fun data => data = []) (requirement_callbacks (emitted r))
         /\ outcome r
            = match supabase_subscribe env "active-requirements" w with
              | Ok _ => Ok (UnsubscribeChannel "active-requirements")
              | Throw e' => Throw e'
              end).
Proof.
  split; [|split; [|split; [|split; [|split]]]].
  - intros donorId callback e H. unfold getDonationsByDonor. unfold_monad.
    rewrite H. repeat split; reflexivity.
  - intros receiverId callback e H. unfold getRequirementsByReceiver. unfold_monad.
    rewrite H. repeat split; reflexivity.
  - intros donorId callback rows e call Hq Hc Hs. subst call.
    unfold getDonationsByDonor. unfold_monad.
    rewrite Hq. cbn [outcome final emitted]. rewrite Hc, Hs. split; reflexivity.
  - intros receiverId callback rows e call Hq Hc Hs. subst call.
    unfold getRequirementsByReceiver. unfold_monad.
    rewrite Hq. cbn [outcome final emitted]. rewrite Hc, Hs. split; reflexivity.
  - intros callback e Hq r. subst r.
    unfold listenToAvailableDonations, listenToAvailableDonations_sync,
      fetchAndCallback_donations.
    unfold_monad.
    destruct (supabase_subscribe env "available-donations" w) as [[]|e'];
      cbn [outcome final emitted];
      (destruct Hq as [Hq | [q [Hq He]]]; rewrite Hq; [|rewrite He];
       cbn [outcome final emitted];
       destruct (callback []) as [[]|e2]; cbn [outcome final emitted app];
       try (destruct (callback []) as [[]|e3]; cbn [outcome final emitted app]);
       repeat split; repeat constructor).
  - intros callback e Hq r. subst r.
    unfold listenToActiveRequirements, listenToActiveRequirements_sync,
      fetchAndCallback_requirements.
    unfold_monad.
    destruct (supabase_subscribe env "active-requirements" w) as [[]|e'];
      cbn [outcome final emitted];
      (destruct Hq as [Hq | [q [Hq He]]]; rewrite Hq; [|rewrite He];
       cbn [outcome final emitted];
       destruct (callback []) as [[]|e2]; cbn [outcome final emitted app];
       try (destruct (callback []) as [[]|e3]; cbn [outcome final emitted app]);
       repeat split; repeat constructor).
Qed.

End Subscriptions.

Section AnalyticsCache.

Context {N : NumberOps}.
Variable env : Env.

(** A call that finds a valid cache returns the cached object and does
    nothing else. *)
Lemma getAnalyticsData_hit (w : World) (obj : object AnalyticsData) :
  analyticsCache w = Some obj ->
  now w - analyticsCacheTime w < CACHE_DURATION ->
  getAnalyticsData env w = MkRun (Ok obj) w [].
Proof.
  intros Hc Ht. unfold getAnalyticsData. rewrite Hc.
  apply Z.ltb_lt in Ht. rewrite Ht. reflexivity.
Qed.

Lemma getAnalyticsData_miss (w : World) :
  cache_valid w = false ->
  getAnalyticsData env w = getAnalyticsData_refresh env w.
Proof.
  unfold cache_valid, getAnalyticsData. intros H.
  destruct (analyticsCache w); [rewrite H|]; reflexivity.
Qed.

(** A call that queries completes, with a new object that it leaves in
    the cache, stamped with the time of its completion. *)
Lemma getAnalyticsData_refresh_caches (w : World) :
  exists (data : AnalyticsData) (rest : list event),
    outcome (getAnalyticsData_refresh env w) = Ok (next_object w, data)
    /\ emitted (getAnalyticsData_refresh env w) = FirebaseGet ".info/connected" :: rest
    /\ analyticsCache (final (getAnalyticsData_refresh env w))
       = Some (next_object w, data)
    /\ analyticsCacheTime (final (getAnalyticsData_refresh env w))
       = now (final (getAnalyticsData_refresh env w)).
Proof.
  unfold getAnalyticsData_refresh, getDatabaseAvailability, get_all_snapshots,
    cache_and_return.
  unfold_monad.
  repeat (split_answer; try (eexists _, _; repeat split; reflexivity)).
Qed.

Lemma cache_valid_false (w : World) :
  analyticsCache w = None \/ 30000 <= now w - analyticsCacheTime w ->
  cache_valid w = false.
Proof.
  unfold cache_valid, CACHE_DURATION. intros [H | H].
  - rewrite H. reflexivity.
  - destruct (analyticsCache w); [apply Z.ltb_ge; exact H | reflexivity].
Qed.

(** C8, as the code has it. [getAnalyticsData] keeps its result in a
    cache of the module, and the 30 seconds (30000 ms of the host clock)
    run from the moment the cached object was stored, not from the last
    call. A call made less than 30 seconds after that moment returns the
    very same object, with no request to a store and no other effect: it
    leaves the cache and its time as they are. A call made with an empty
    cache, or 30 seconds or more after the cached object was stored,
    queries again: it sends the connectivity probe and, when the probe
    reports a connection, the three reads; it returns a new object, which
    holds the children of the three snapshots when the three reads answer
    and the placeholder dataset when the probe or a read fails, and it
    leaves that object in the cache, stamped with the time of its
    completion. So a call made less than 30 seconds after the completion of
    a call that has queried returns the object of that call. *)
Theorem getAnalyticsData_cache_window (w : World) :
  (forall obj : object AnalyticsData,
      analyticsCache w = Some obj ->
      now w - analyticsCacheTime w < 30000 ->
      getAnalyticsData env w = MkRun (Ok obj) w [])
  /\ (analyticsCache w = None \/ 30000 <= now w - analyticsCacheTime w ->
      let probe := firebase_get_connected env w in
      let w1 := set_now (snd probe) w in
      let r := getAnalyticsData env w in
      exists data : AnalyticsData,
        outcome r = Ok (next_object w, data)
        /\ analyticsCache (final r) = Some (next_object w, data)
        /\ analyticsCacheTime (final r) = now (final r)
        /\ next_object (final r) = S (next_object w)
        /\ (fst probe <> Ok true ->
            filter is_network_call (emitted r) = [FirebaseGet ".info/connected"]
            /\ data = mock_data)
        /\ (fst probe = Ok true ->
            filter is_network_call (emitted r)
            = [FirebaseGet ".info/connected"; FirebaseGet "donations";
               FirebaseGet "requirements"; FirebaseGet "matches"]
            /\ (forall d q m,
                   fst (firebase_get_donations env w1) = Ok d ->
                   fst (firebase_get_requirements env w1) = Ok q ->
                   fst (firebase_get_matches env w1) = Ok m ->
                   data = {| donations := FreshArray d;
                             requirements := FreshArray q;
                             matches := FreshArray m |})
            /\ ((exists e, fst (firebase_get_donations env w1) = Throw e)
                \/ (exists e, fst (firebase_get_requirements env w1) = Throw e)
                \/ (exists e, fst (firebase_get_matches env w1) = Throw e) ->
                data = mock_data)))
  /\ (analyticsCache w = None \/ 30000 <= now w - analyticsCacheTime w ->
      forall later : World,
        analyticsCache later = analyticsCache (final (getAnalyticsData env w)) ->
        analyticsCacheTime later = analyticsCacheTime (final (getAnalyticsData env w)) ->
        now later - now (final (getAnalyticsData env w)) < 30000 ->
        getAnalyticsData env later = MkRun (outcome (getAnalyticsData env w)) later []).
Proof.
  split; [|split].
  - intros obj. apply getAnalyticsData_hit.
  - intros Hstale probe w1 r. subst r w1 probe.
    rewrite (getAnalyticsData_miss w (cache_valid_false w Hstale)).
    unfold getAnalyticsData_refresh, getDatabaseAvailability, get_all_snapshots,
      cache_and_return, both.
    unfold_monad.
    destruct (firebase_get_connected env w) as [[[|]|e] t];
      cbn [outcome final emitted fst snd app negb].
    + destruct (firebase_get_donations env _) as [[d|ed] td];
        destruct (firebase_get_requirements env _) as [[q|eq] tq];
        destruct (firebase_get_matches env _) as [[m|em] tm];
        cbn [outcome final emitted fst snd app];
        repeat match goal with
          | |- context [if ?c then _ else _] =>
              destruct c; cbn [outcome final emitted fst snd app]
          end;
        (eexists; split; [reflexivity|]);
        (split; [reflexivity|]); (split; [reflexivity|]); (split; [reflexivity|]);
        (split; [intros H; exfalso; apply H; reflexivity|]);
        intros _; (split; [reflexivity|]); split;
        try (intros d' q' m' Hd Hq Hm; try discriminate;
             injection Hd as <-; injection Hq as <-; injection Hm as <-;
             reflexivity);
        try (intros _; reflexivity);
        intros [[e H] | [[e H] | [e H]]]; discriminate.
    + exists mock_data. repeat split; try reflexivity; discriminate.
    + exists mock_data. repeat split; try reflexivity; discriminate.
  - intros Hstale later Hcache Htime Hin.
    rewrite (getAnalyticsData_miss w (cache_valid_false w Hstale)) in *.
    destruct (getAnalyticsData_refresh_caches w) as [data [rest [Ho [_ [Hc Ht]]]]].
    rewrite Ho. apply getAnalyticsData_hit.
    + rewrite Hcache. exact Hc.
    + rewrite Htime, Ht. exact Hin.
Qed.

End AnalyticsCache.

(** ** The host functions on known values *)

Example toISOString_epoch : Date.toISOString 0 = "1970-01-01T00:00:00.000Z".
Proof. reflexivity. Qed.

Example toISOString_2023 : Date.toISOString 1700000000000 = "2023-11-14T22:13:20.000Z".
Proof. vm_compute. reflexivity. Qed.

Example toISOString_leap : Date.toISOString 1709251199999 = "2024-02-29T23:59:59.999Z".
Proof. vm_compute. reflexivity. Qed.

Example toISOString_before_epoch : Date.toISOString (-1) = "1969-12-31T23:59:59.999Z".
Proof. vm_compute. reflexivity. Qed.

Example parseInt_examples :
  ParseInt.parseInt "150" = Some 150 /\ ParseInt.parseInt "  -12abc" = Some (-12)
  /\ ParseInt.parseInt "0x1F" = Some 31 /\ ParseInt.parseInt "many" = None
  /\ ParseInt.parseInt "" = None /\ ParseInt.parseInt "-" = None
  /\ ParseInt.parseInt "3.9" = Some 3.
Proof. vm_compute. repeat split. Qed.

Example Z_toString_examples :
  Z_toString 0 = "0" /\ Z_toString 95 = "95" /\ Z_toString (-120) = "-120" /\ Z_toString 1000 = "1000".
Proof. vm_compute. repeat split. Qed.

Example Decimal_examples :
  Decimal.to_string (Decimal.parse "37.7749") = "37.7749"
  /\ Decimal.to_string (Decimal.parse "-122.4194") = "-122.4194"
  /\ Decimal.to_string (Decimal.parse "50") = "50"
  /\ Decimal.to_string (Decimal.parse "2.50") = "2.5"
  /\ Decimal.to_string (Decimal.parse "-0.05") = "-0.05"
  /\ Decimal.to_string (Decimal.parse "kg") = "NaN".
Proof. vm_compute. repeat split. Qed.

(** ** Runs of the scenarios *)

(** C1, against the claim. The relational store has stored the row and
    answered its identity, the real-time store refuses the write that
    follows (the record in the first three runs, the activity-feed entry in
    the last), and the operation rejects with the error of the real-time
    store instead of resolving with the identity. *)
Lemma create_mirror_failure_escapes :
  outcome (createDonation_primary (Scenario.make_env Scenario.mirror_down)
             Scenario.donation Scenario.w0) = Ok Scenario.stored_donation
  /\ outcome (createDonation (Scenario.make_env Scenario.mirror_down)
                Scenario.donation Scenario.w0) = Throw "PERMISSION_DENIED"
  /\ outcome (createRequirement (Scenario.make_env Scenario.mirror_down)
                Scenario.requirement Scenario.w0) = Throw "PERMISSION_DENIED"
  /\ outcome (createMatch (Scenario.make_env Scenario.mirror_down)
                Scenario.match_ None Scenario.w0) = Throw "PERMISSION_DENIED"
  /\ outcome (createDonation (Scenario.make_env Scenario.feed_down)
                Scenario.donation Scenario.w0) = Throw "PERMISSION_DENIED"
  /\ outcome (createDonation (Scenario.make_env Scenario.mirror_down)
                Scenario.donation Scenario.w0) <> Ok (fi_id Scenario.stored_donation).
Proof.
  repeat split; try reflexivity.
  change (Throw "PERMISSION_DENIED" <> @Ok string "food-1"). discriminate.
Qed.

Lemma create_mirror_failure_rethrown_witness :
  outcome (createDonation (Scenario.make_env Scenario.mirror_down)
             Scenario.donation Scenario.w0) = Throw "PERMISSION_DENIED"
  /\ outcome (createRequirement (Scenario.make_env Scenario.feed_down)
                Scenario.requirement Scenario.w0) = Throw "PERMISSION_DENIED"
  /\ console_errors (emitted (createMatch (Scenario.make_env Scenario.mirror_down)
                                Scenario.match_ None Scenario.w0))
     = ["PERMISSION_DENIED"].
Proof.
  destruct (create_mirror_failure_rethrown (Scenario.make_env Scenario.mirror_down))
    as [HD [_ HM]].
  destruct (create_mirror_failure_rethrown (Scenario.make_env Scenario.feed_down))
    as [_ [HR _]].
  split; [|split].
  - refine (proj1 (HD Scenario.donation Scenario.w0 Scenario.stored_donation
                      "PERMISSION_DENIED" _ _)); [reflexivity|].
    left. reflexivity.
  - refine (proj1 (HR Scenario.requirement Scenario.w0 Scenario.stored_requirement
                      "PERMISSION_DENIED" _ _)); [reflexivity|].
    right. right. exists "-Nfeed01". repeat split; reflexivity.
  - refine (proj2 (proj2 (HM Scenario.match_ None Scenario.w0
                            (Some {| tx_id := "tx-1" |}) "PERMISSION_DENIED" _ _)));
      [reflexivity|].
    right. exists "-Nmatch01". split; [reflexivity|]. left. reflexivity.
Defined.



(** C2, against the claim. With both stores up, the only effect of
    [updateMatchStatus] is the update of the mirror record: nothing is
    written to the relational store, before or after. *)
Lemma updateMatchStatus_skips_relational_store :
  emitted (updateMatchStatus (Scenario.make_env Scenario.healthy)
             "tx-1" "completed" Scenario.w0)
  = [FirebaseUpdate "matches/tx-1"
       (VPatch {| sp_status := "completed";
                  sp_updatedAt := "2023-11-14T22:13:20.000Z";
                  sp_matchedWith := None;
                  sp_matchedAt := None |})]
  /\ outcome (updateMatchStatus (Scenario.make_env Scenario.healthy)
                "tx-1" "completed" Scenario.w0) = Ok tt
  /\ existsb is_relational_write
       (emitted (updateMatchStatus (Scenario.make_env Scenario.healthy)
                   "tx-1" "completed" Scenario.w0)) = false.
Proof. repeat split; reflexivity. Qed.

(** C3, against the claim. With no configuration value set, and with the
    placeholder values set, [isDatabaseAvailable] would answer false; yet
    [getAnalyticsData] sends four requests to the real-time store and
    returns what it holds, not the placeholder dataset, and
    [createDonation] writes to both stores. When, moreover, the real-time
    store cannot be reached, [getAnalyticsData] still sends the probe, and
    [getDonationsByDonor] queries the relational store and hands its rows,
    not the placeholder donations, to the callback. *)
Lemma unconfigured_analytics_reads_mirror :
  outcome (isDatabaseAvailable (Scenario.make_env Scenario.unconfigured) Scenario.w0)
  = Ok false
  /\ outcome (getAnalyticsData (Scenario.make_env Scenario.unconfigured) Scenario.w0)
     = Ok (O, {| donations := FreshArray [Scenario.mirrored_donation];
                 requirements := FreshArray [];
                 matches := FreshArray [] |})
  /\ filter is_network_call
       (emitted (getAnalyticsData (Scenario.make_env Scenario.unconfigured) Scenario.w0))
     = [FirebaseGet ".info/connected"; FirebaseGet "donations";
        FirebaseGet "requirements"; FirebaseGet "matches"]
  /\ outcome (isDatabaseAvailable (Scenario.make_env Scenario.placeholder_config)
                Scenario.w0) = Ok false
  /\ outcome (getAnalyticsData (Scenario.make_env Scenario.placeholder_config)
                Scenario.w0)
     = Ok (O, {| donations := FreshArray [Scenario.mirrored_donation];
                 requirements := FreshArray [];
                 matches := FreshArray [] |})
  /\ List.length
       (filter is_network_call
          (emitted (createDonation (Scenario.make_env Scenario.unconfigured)
                      Scenario.donation Scenario.w0))) = 3%nat
  /\ filter is_network_call
       (emitted (getAnalyticsData (Scenario.make_env Scenario.unconfigured_offline)
                   Scenario.w0))
     = [FirebaseGet ".info/connected"]
  /\ filter is_network_call
       (emitted (getDonationsByDonor (Scenario.make_env Scenario.unconfigured_offline)
                   "donor-7" Scenario.quiet Scenario.w0))
     = [FoodItemGetByDonor "donor-7";
        ChannelSubscribe "donations-donor-7" "food_items" "donor_id=eq.donor-7"]
  /\ donation_callbacks
       (emitted (getDonationsByDonor (Scenario.make_env Scenario.unconfigured_offline)
                   "donor-7" Scenario.quiet Scenario.w0))
     = [map convertSupabaseToFoodDonation Scenario.stored_food_rows].
Proof. repeat split; reflexivity. Qed.

Lemma configuration_is_not_consulted_witness :
  isDatabaseAvailable (Scenario.make_env Scenario.unconfigured) Scenario.w0
  = MkRun (Ok false) Scenario.w0
      [Console LLog "Firebase not configured, using mock data mode" None]
  /\ outcome (getAnalyticsData (Scenario.make_env Scenario.offline) Scenario.w0)
     = Ok (O, mock_data)
  /\ filter is_network_call
       (emitted (getAnalyticsData (Scenario.make_env Scenario.offline) Scenario.w0))
     = [FirebaseGet ".info/connected"].
Proof.
  split.
  - apply (proj1 (configuration_is_not_consulted
                    (Scenario.make_env Scenario.unconfigured) Scenario.w0)).
    left. left. reflexivity.
  - apply (proj2 (proj2 (configuration_is_not_consulted
                           (Scenario.make_env Scenario.offline) Scenario.w0))).
    + reflexivity.
    + change (@Throw bool "offline" <> Ok true). discriminate.
Defined.

(** C4, against the claim. The relational store answers null to the
    creation of the transaction: it has assigned no identity. [createMatch]
    succeeds all the same, and the string it returns is the key the
    real-time store has generated. *)
Lemma createMatch_returns_mirror_key :
  fst (transactionService_create (Scenario.make_env Scenario.no_row)
         (match_transactionData Scenario.match_ None Scenario.t0) Scenario.w0) = Ok None
  /\ firebase_push (Scenario.make_env Scenario.no_row) "matches"
       (final (createMatch_primary (Scenario.make_env Scenario.no_row)
                 Scenario.match_ None Scenario.w0)) = Ok "-Nmatch01"
  /\ outcome (createMatch (Scenario.make_env Scenario.no_row)
                Scenario.match_ None Scenario.w0) = Ok "-Nmatch01".
Proof. repeat split; reflexivity. Qed.

Lemma create_returns_identity_witness :
  (exists row : FoodItemRow,
      fst (foodItemService_create (Scenario.make_env Scenario.healthy)
             (donation_supabaseData Scenario.donation Scenario.t0) Scenario.w0)
      = Ok (Some row)
      /\ "food-1" = fi_id row)
  /\ (exists row : RequestRow,
         fst (requestService_create (Scenario.make_env Scenario.healthy)
                (requirement_supabaseData Scenario.requirement Scenario.t0) Scenario.w0)
         = Ok (Some row)
         /\ "req-1" = rq_id row)
  /\ (exists (answer : option TransactionRow) (key : string),
         fst (transactionService_create (Scenario.make_env Scenario.healthy)
                (match_transactionData Scenario.match_ None Scenario.t0) Scenario.w0)
         = Ok answer
         /\ firebase_push (Scenario.make_env Scenario.healthy) "matches"
              (set_now
                 (snd (transactionService_create (Scenario.make_env Scenario.healthy)
                         (match_transactionData Scenario.match_ None Scenario.t0)
                         Scenario.w0))
                 Scenario.w0) = Ok key
         /\ "tx-1" = if (transaction_id answer =? "")%string then key
                     else transaction_id answer).
Proof.
  destruct (create_returns_identity (Scenario.make_env Scenario.healthy) Scenario.w0)
    as [HD [HR HM]].
  split; [|split].
  - apply (HD Scenario.donation "food-1"). reflexivity.
  - apply (HR Scenario.requirement "req-1"). reflexivity.
  - apply (HM Scenario.match_ None "tx-1"). reflexivity.
Defined.

(** C6, against the claim. The queries of the relational store fail.
    [getDonationsByDonor] and [getRequirementsByReceiver] return the no-op
    function but never invoke the callback; [listenToAvailableDonations]
    and [listenToActiveRequirements] invoke the callback with the empty
    sequence but return the function that unsubscribes the channel they
    have opened, which is not a no-op. *)
Lemma subscription_failure_splits :
  (fst (foodItemService_getByDonor (Scenario.make_env Scenario.queries_fail)
          "donor-7" Scenario.w0) = Throw "fetch failed"
   /\ outcome (getDonationsByDonor (Scenario.make_env Scenario.queries_fail)
                 "donor-7" Scenario.quiet Scenario.w0) = Ok NoOp
   /\ donation_callbacks
        (emitted (getDonationsByDonor (Scenario.make_env Scenario.queries_fail)
                    "donor-7" Scenario.quiet Scenario.w0)) = [])
  /\ (outcome (getRequirementsByReceiver (Scenario.make_env Scenario.queries_fail)
                 "ngo-3" Scenario.quiet Scenario.w0) = Ok NoOp
      /\ requirement_callbacks
           (emitted (getRequirementsByReceiver (Scenario.make_env Scenario.queries_fail)
                       "ngo-3" Scenario.quiet Scenario.w0)) = [])
  /\ (q_error (A := FoodItemRow)
        match fst (supabase_select_food_items (Scenario.make_env Scenario.queries_fail)
                     "available" Scenario.w0) with
        | Ok r => r
        | Throw _ => {| q_data := None; q_error := None |}
        end = Some "fetch failed"
      /\ donation_callbacks
           (emitted (listenToAvailableDonations (Scenario.make_env Scenario.queries_fail)
                       Scenario.quiet Scenario.w0)) = [[]]
      /\ outcome (listenToAvailableDonations (Scenario.make_env Scenario.queries_fail)
                    Scenario.quiet Scenario.w0)
         = Ok (UnsubscribeChannel "available-donations")
      /\ emitted (unsubscribe (N := DecimalNumbers)
                    (UnsubscribeChannel "available-donations") Scenario.w0)
         = [ChannelUnsubscribe "available-donations"])
  /\ (requirement_callbacks
        (emitted (listenToActiveRequirements (Scenario.make_env Scenario.queries_fail)
                    Scenario.quiet Scenario.w0)) = [[]]
      /\ outcome (listenToActiveRequirements (Scenario.make_env Scenario.queries_fail)
                    Scenario.quiet Scenario.w0)
         = Ok (UnsubscribeChannel "active-requirements")).
Proof. repeat split; reflexivity. Qed.

Lemma subscription_failure_handling_witness :
  outcome (getDonationsByDonor (Scenario.make_env Scenario.queries_fail)
             "donor-7" Scenario.quiet Scenario.w0) = Ok NoOp
  /\ outcome (getRequirementsByReceiver (Scenario.make_env Scenario.queries_fail)
                "ngo-3" Scenario.quiet Scenario.w0) = Ok NoOp
  /\ outcome (getDonationsByDonor (Scenario.make_env Scenario.subscribe_fails)
                "donor-7" Scenario.quiet Scenario.w0) = Ok NoOp
  /\ outcome (getRequirementsByReceiver (Scenario.make_env Scenario.subscribe_fails)
                "ngo-3" Scenario.quiet Scenario.w0) = Ok NoOp
  /\ hd_error (donation_callbacks
                 (emitted (listenToAvailableDonations
                             (Scenario.make_env Scenario.queries_fail)
                             Scenario.quiet Scenario.w0))) = Some []
  /\ hd_error (requirement_callbacks
                 (emitted (listenToActiveRequirements
                             (Scenario.make_env Scenario.queries_fail)
                             Scenario.quiet Scenario.w0))) = Some [].
Proof.
  destruct (subscription_failure_handling (Scenario.make_env Scenario.queries_fail)
              Scenario.w0) as [HD [HR [_ [_ [HLD HLR]]]]].
  destruct (subscription_failure_handling (Scenario.make_env Scenario.subscribe_fails)
              Scenario.w0) as [_ [_ [HDS [HRS _]]]].
  split; [|split; [|split; [|split; [|split]]]].
  - refine (proj1 (HD "donor-7" Scenario.quiet "fetch failed" _)). reflexivity.
  - refine (proj1 (HR "ngo-3" Scenario.quiet "fetch failed" _)). reflexivity.
  - refine (proj1 (HDS "donor-7" Scenario.quiet Scenario.stored_food_rows
                       "channel error" _ _ _)); reflexivity.
  - refine (proj1 (HRS "ngo-3" Scenario.quiet Scenario.stored_request_rows
                       "channel error" _ _ _)); reflexivity.
  - refine (proj1 (HLD Scenario.quiet "fetch failed" _)).
    right. eexists. split; reflexivity.
  - refine (proj1 (HLR Scenario.quiet "fetch failed" _)).
    right. eexists. split; reflexivity.
Defined.

Lemma create_defaults_witness :
  (exists row : FoodItemInsert,
      food_item_creates
        (emitted (createDonation (Scenario.make_env Scenario.healthy)
                    Scenario.donation Scenario.w0)) = [row]
      /\ fii_pickup_time row = "2023-11-14T22:13:20.000Z"
      /\ fii_expiry_date row = "2023-11-21T22:13:20.000Z"
      /\ exists key : string,
           activity_entries
             (emitted (createDonation (Scenario.make_env Scenario.healthy)
                         Scenario.donation Scenario.w0))
           = [(("activity_feed/" ++ key)%string, "donation_created")])
  /\ (exists row : RequestInsert,
         request_creates
           (emitted (createRequirement (Scenario.make_env Scenario.healthy)
                       Scenario.requirement Scenario.w0)) = [row]
         /\ rqi_needed_by row = "2023-11-21T22:13:20.000Z").
Proof.
  destruct (create_defaults (Scenario.make_env Scenario.healthy) Scenario.w0) as [HD HR].
  split.
  - destruct (HD Scenario.donation) as [row [Hrow [Hpickup [Hexpiry Hfeed]]]].
    exists row. split; [exact Hrow|].
    split; [exact (Hpickup eq_refl)|].
    split; [exact (Hexpiry eq_refl)|].
    apply (Hfeed "food-1"). reflexivity.
  - destruct (HR Scenario.requirement) as [row [Hrow Hneeded]].
    exists row. split; [exact Hrow|]. exact (Hneeded eq_refl).
Defined.

(** C8, against the claim. A first call fills the cache; a second call,
    29 seconds later, is answered from the cache and completes at once; a
    third call, 29 seconds after the completion of the second, finds the
    cached object 58 seconds old: it sends the probe and the three reads
    and returns another object. *)
Lemma getAnalyticsData_hit_does_not_restart_the_window :
  let env := Scenario.make_env Scenario.healthy in
  let first := getAnalyticsData env Scenario.w0 in
  let second := getAnalyticsData env (Scenario.at_time (Scenario.t0 + 29000) (final first)) in
  let w3 := Scenario.at_time (Scenario.t0 + 58000) (final second) in
  let third := getAnalyticsData env w3 in
  emitted second = []
  /\ outcome second = outcome first
  /\ now (final second) = Scenario.t0 + 29000
  /\ now w3 - now (final second) = 29000
  /\ filter is_network_call (emitted third)
     = [FirebaseGet ".info/connected"; FirebaseGet "donations";
        FirebaseGet "requirements"; FirebaseGet "matches"]
  /\ (exists d d' : AnalyticsData,
        outcome second = Ok (0%nat, d) /\ outcome third = Ok (1%nat, d')).
Proof.
  cbv zeta. repeat split; try reflexivity.
  eexists _, _. split; reflexivity.
Qed.

Lemma getAnalyticsData_cache_window_witness :
  getAnalyticsData (Scenario.make_env Scenario.healthy)
    (Scenario.at_time (Scenario.t0 + 29000)
       (final (getAnalyticsData (Scenario.make_env Scenario.healthy) Scenario.w0)))
  = MkRun (outcome (getAnalyticsData (Scenario.make_env Scenario.healthy) Scenario.w0))
      (Scenario.at_time (Scenario.t0 + 29000)
         (final (getAnalyticsData (Scenario.make_env Scenario.healthy) Scenario.w0)))
      []
  /\ filter is_network_call
       (emitted (getAnalyticsData (Scenario.make_env Scenario.healthy)
                   (Scenario.at_time (Scenario.t0 + 31000)
                      (final (getAnalyticsData (Scenario.make_env Scenario.healthy)
                                Scenario.w0)))))
     = [FirebaseGet ".info/connected"; FirebaseGet "donations";
        FirebaseGet "requirements"; FirebaseGet "matches"].
Proof.
  split.
  - apply (proj2 (proj2 (getAnalyticsData_cache_window
                           (Scenario.make_env Scenario.healthy) Scenario.w0))).
    + left. reflexivity.
    + reflexivity.
    + reflexivity.
    + reflexivity.
  - pose proof (proj1 (proj2 (getAnalyticsData_cache_window
                                (Scenario.make_env Scenario.healthy)
                                (Scenario.at_time (Scenario.t0 + 31000)
                                   (final (getAnalyticsData
                                             (Scenario.make_env Scenario.healthy)
                                             Scenario.w0)))))) as Hquery.
    destruct Hquery as [data [_ [_ [_ [_ [_ Hreads]]]]]].
    + right. apply Z.leb_le. reflexivity.
    + exact (proj1 (Hreads eq_refl)).
Defined.

Lemma createRequirement_unparsable_serving_size_witness :
  ParseInt.parseInt (ri_servingSize Scenario.requirement) = None
  /\ (exists row : RequestInsert,
         request_creates
           (emitted (createRequirement (Scenario.make_env Scenario.healthy)
                       Scenario.requirement Scenario.w0)) = [row]
         /\ rqi_serving_size row = Decimal.Dec 0 0)
  /\ outcome (createRequirement (Scenario.make_env Scenario.healthy)
                Scenario.requirement Scenario.w0) = Ok "req-1".
Proof.
  assert (HNaN : ParseInt.parseInt (ri_servingSize Scenario.requirement) = None)
    by reflexivity.
  destruct (createRequirement_unparsable_serving_size
              (Scenario.make_env Scenario.healthy) Scenario.requirement Scenario.w0 HNaN)
    as [Hrow Hresolves].
  split; [exact HNaN|]. split; [exact Hrow|].
  apply (Hresolves Scenario.stored_requirement).
  - reflexivity.
  - intros path v w'. reflexivity.
  - intros w'. exists "-Nfeed01". reflexivity.
Defined.

(** ** Further properties of the dual writes *)

Section PrimaryFailure.

Context {N : NumberOps}.
Variable env : Env.

(** X1. When the write to the relational store fails, the create
    operations stop there: if the store throws, the operation logs the
    error and rejects with it; if the store answers null to
    [createDonation] or [createRequirement], the operation rejects with
    its own "Failed to save" error. In all these cases nothing is written
    to the real-time store and no key is asked of it. *)
Theorem primary_failure_aborts (w : World) :
  (forall (donation : DonationInput) (e : error),
      fst (foodItemService_create env (donation_supabaseData donation (now w)) w)
      = Throw e ->
      outcome (createDonation env donation w) = Throw e
      /\ console_errors (emitted (createDonation env donation w)) = [e]
      /\ mirror_writes (emitted (createDonation env donation w)) = []
      /\ pushes (emitted (createDonation env donation w)) = [])
  /\ (forall donation : DonationInput,
         fst (foodItemService_create env (donation_supabaseData donation (now w)) w)
         = Ok None ->
         outcome (createDonation env donation w)
         = Throw "Failed to save donation to Supabase"
         /\ mirror_writes (emitted (createDonation env donation w)) = []
         /\ pushes (emitted (createDonation env donation w)) = [])
  /\ (forall (requirement : RequirementInput) (e : error),
         fst (requestService_create env (requirement_supabaseData requirement (now w)) w)
         = Throw e ->
         outcome (createRequirement env requirement w) = Throw e
         /\ console_errors (emitted (createRequirement env requirement w)) = [e]
         /\ mirror_writes (emitted (createRequirement env requirement w)) = []
         /\ pushes (emitted (createRequirement env requirement w)) = [])
  /\ (forall requirement : RequirementInput,
         fst (requestService_create env (requirement_supabaseData requirement (now w)) w)
         = Ok None ->
         outcome (createRequirement env requirement w)
         = Throw "Failed to save requirement to Supabase"
         /\ mirror_writes (emitted (createRequirement env requirement w)) = []
         /\ pushes (emitted (createRequirement env requirement w)) = [])
  /\ (forall (match_ : MatchInput) (actualQuantity : option number) (e : error),
         fst (transactionService_create env
                (match_transactionData match_ actualQuantity (now w)) w) = Throw e ->
         outcome (createMatch env match_ actualQuantity w) = Throw e
         /\ console_errors (emitted (createMatch env match_ actualQuantity w)) = [e]
         /\ mirror_writes (emitted (createMatch env match_ actualQuantity w)) = []
         /\ pushes (emitted (createMatch env match_ actualQuantity w)) = []).
Proof.
  split; [|split; [|split; [|split]]].
  - intros donation e H.
    unfold createDonation, createDonation_primary. unfold_monad.
    rewrite H. repeat split; reflexivity.
  - intros donation H.
    unfold createDonation, createDonation_primary. unfold_monad.
    rewrite H. repeat split; reflexivity.
  - intros requirement e H.
    unfold createRequirement, createRequirement_primary. unfold_monad.
    rewrite H. repeat split; reflexivity.
  - intros requirement H.
    unfold createRequirement, createRequirement_primary. unfold_monad.
    rewrite H. repeat split; reflexivity.
  - intros match_ q e H.
    unfold createMatch, createMatch_primary. unfold_monad.
    rewrite H. repeat split; reflexivity.
Qed.

(** X2. A [createDonation] that succeeds has written two documents to the
    real-time store, in this order: the copy of the donation, at
    [donations/<id>] for the identity it returns, and one activity entry
    under [activity_feed]. The copy carries that identity, both its
    timestamps are the creation time of the relational row, and its
    [pickupTime] and [expiryDate] are those of the input as they came: the
    defaults given to the relational row are not copied. The same holds of
    [createRequirement], with [requirements/<id>] and [neededBy]. *)
Theorem mirror_copy_of_created_record (w : World) :
  (forall (donation : DonationInput) (id : string),
      outcome (createDonation env donation w) = Ok id ->
      exists (row : FoodItemRow) (copy : FoodDonation) (entry : DonationActivity),
        fst (foodItemService_create env (donation_supabaseData donation (now w)) w)
        = Ok (Some row)
        /\ mirror_writes (emitted (createDonation env donation w))
           = [(("donations/" ++ id)%string, VDonation copy);
              (("activity_feed/" ++ da_id entry)%string, VDonationActivity entry)]
        /\ fd_id copy = Some id
        /\ fd_createdAt copy = fi_created_at row
        /\ fd_updatedAt copy = fi_created_at row
        /\ fd_pickupTime copy = di_pickupTime donation
        /\ fd_expiryDate copy = di_expiryDate donation
        /\ da_donationId entry = id)
  /\ (forall (requirement : RequirementInput) (id : string),
         outcome (createRequirement env requirement w) = Ok id ->
         exists (row : RequestRow) (copy : FoodRequirement) (entry : RequirementActivity),
           fst (requestService_create env
                  (requirement_supabaseData requirement (now w)) w) = Ok (Some row)
           /\ mirror_writes (emitted (createRequirement env requirement w))
              = [(("requirements/" ++ id)%string, VRequirement copy);
                 (("activity_feed/" ++ ra_id entry)%string, VRequirementActivity entry)]
           /\ fr_id copy = Some id
           /\ fr_createdAt copy = rq_created_at row
           /\ fr_updatedAt copy = rq_created_at row
           /\ fr_neededBy copy = ri_neededBy requirement
           /\ ra_requirementId entry = id).
Proof.
  split.
  - intros donation id.
    unfold createDonation, createDonation_primary, createDonation_mirror.
    unfold_monad.
    repeat (split_answer; try discriminate).
    intros H. injection H as <-.
    eexists _, _, (donation_activity _ _ _ _). repeat split; reflexivity.
  - intros requirement id.
    unfold createRequirement, createRequirement_primary, createRequirement_mirror.
    unfold_monad.
    repeat (split_answer; try discriminate).
    intros H. injection H as <-.
    eexists _, _, (requirement_activity _ _ _ _). repeat split; reflexivity.
Qed.

(** X3. The activity entry comes after the copy: when the write of the
    mirror record throws, the create operations ask no key for an activity
    entry and write no activity entry. *)
Theorem no_activity_without_mirror_record (w : World) :
  (forall (donation : DonationInput) (row : FoodItemRow) (e : error),
      let call := foodItemService_create env
                    (donation_supabaseData donation (now w)) w in
      fst call = Ok (Some row) ->
      fst (firebase_set env ("donations/" ++ fi_id row)%string
             (VDonation (donation_firebaseData donation row)) (set_now (snd call) w))
      = Throw e ->
      activity_entries (emitted (createDonation env donation w)) = []
      /\ pushes (emitted (createDonation env donation w)) = [])
  /\ (forall (requirement : RequirementInput) (row : RequestRow) (e : error),
         let call := requestService_create env
                       (requirement_supabaseData requirement (now w)) w in
         fst call = Ok (Some row) ->
         fst (firebase_set env ("requirements/" ++ rq_id row)%string
                (VRequirement (requirement_firebaseData requirement row))
                (set_now (snd call) w)) = Throw e ->
         activity_entries (emitted (createRequirement env requirement w)) = []
         /\ pushes (emitted (createRequirement env requirement w)) = [])
  /\ (forall (match_ : MatchInput) (actualQuantity : option number)
             (answer : option TransactionRow) (key : string) (e : error),
         let call := transactionService_create env
                       (match_transactionData match_ actualQuantity (now w)) w in
         let w1 := set_now (snd call) w in
         fst call = Ok answer ->
         firebase_push env "matches" w1 = Ok key ->
         fst (firebase_set env ("matches/" ++ key)%string
                (VMatch (match_matchData match_ (transaction_id answer) key (now w1)))
                w1) = Throw e ->
         activity_entries (emitted (createMatch env match_ actualQuantity w)) = []
         /\ pushes (emitted (createMatch env match_ actualQuantity w)) = ["matches"]).
Proof.
  split; [|split].
  - intros donation row e call Hc Hs. subst call.
    unfold createDonation, createDonation_primary, createDonation_mirror.
    unfold_monad.
    rewrite Hc. cbn [outcome final emitted]. rewrite Hs. split; reflexivity.
  - intros requirement row e call Hc Hs. subst call.
    unfold createRequirement, createRequirement_primary, createRequirement_mirror.
    unfold_monad.
    rewrite Hc. cbn [outcome final emitted]. rewrite Hs. split; reflexivity.
  - intros match_ q answer key e call w1 Hc Hp Hs. subst w1 call.
    unfold createMatch, createMatch_primary, createMatch_mirror.
    unfold_monad.
    rewrite Hc. cbn [outcome final emitted]. rewrite Hp. cbn [outcome final emitted].
    rewrite Hs. split; reflexivity.
Qed.

End PrimaryFailure.

Section MatchesAndStatusUpdates.

Context {N : NumberOps}.
Variable env : Env.

(** X4. A [createMatch] that succeeds asks two keys of the real-time store
    and writes two documents: the match, stored under the key generated
    for it, and one activity entry. The [id] inside the stored match and
    the [matchId] of the entry are the string the operation returns, while
    the path of the match is made of the generated key. An
    [updateMatchStatus] for the returned identity writes to
    [matches/<identity>]. *)
Theorem createMatch_record_path_and_identity
    (w : World) (match_ : MatchInput) (actualQuantity : option number) (id : string) :
  outcome (createMatch env match_ actualQuantity w) = Ok id ->
  exists (key : string) (record : Match) (entry : MatchActivity),
    firebase_push env "matches"
      (final (createMatch_primary env match_ actualQuantity w)) = Ok key
    /\ pushes (emitted (createMatch env match_ actualQuantity w))
       = ["matches"; "activity_feed"]
    /\ mirror_writes (emitted (createMatch env match_ actualQuantity w))
       = [(("matches/" ++ key)%string, VMatch record);
          (("activity_feed/" ++ ma_id entry)%string, VMatchActivity entry)]
    /\ m_id record = Some id
    /\ m_status record = mi_status match_
    /\ ma_matchId entry = id
    /\ (forall (status : string) (w' : World),
           database_app env = Ok true ->
           map fst (mirror_writes (emitted (updateMatchStatus env id status w')))
           = [("matches/" ++ id)%string]).
Proof.
  unfold createMatch, createMatch_primary, createMatch_mirror.
  unfold_monad.
  repeat (split_answer; try discriminate).
  intros H. injection H as <-.
  eexists _, _, (match_activity _ _ _ _ _).
  repeat split; try reflexivity.
  intros status w' Hdb.
  unfold updateMatchStatus, getDatabaseAvailabilitySync. rewrite Hdb.
  unfold_monad. reflexivity.
Qed.

(** X5. Whatever its outcome, [createMatch] hands exactly one row to the
    relational store. The status of that row is "pending" when the status
    of the match is "pending" and "completed" for every other status, so
    that a cancelled match is recorded as a completed transaction; both its
    times are the time of the call; and the quantity transferred is 0 when
    the caller gives none. *)
Theorem createMatch_transaction_row
    (w : World) (match_ : MatchInput) (actualQuantity : option number) :
  exists row : TransactionInsert,
    transaction_creates (emitted (createMatch env match_ actualQuantity w)) = [row]
    /\ (txi_status row = "pending" <-> mi_status match_ = "pending")
    /\ (txi_status row = "pending" \/ txi_status row = "completed")
    /\ txi_pickup_time row = Date.toISOString (now w)
    /\ txi_delivery_time row = Date.toISOString (now w)
    /\ txi_food_item_id row = mi_donationId match_
    /\ txi_request_id row = mi_requirementId match_
    /\ (actualQuantity = None -> txi_quantity_transferred row = number_of_Z 0).
Proof.
  exists (match_transactionData match_ actualQuantity (now w)).
  split.
  - unfold createMatch, createMatch_primary, createMatch_mirror.
    unfold_monad.
    repeat (split_answer; try reflexivity).
  - unfold match_transactionData. cbn.
    repeat split; try reflexivity.
    + destruct (String.eqb_spec (mi_status match_) "confirmed") as [Hc|Hc].
      * discriminate.
      * destruct (String.eqb_spec (mi_status match_) "pending"); [auto|discriminate].
    + intros Hp. rewrite Hp. reflexivity.
    + destruct (mi_status match_ =? "confirmed")%string; [right; reflexivity|].
      destruct (mi_status match_ =? "pending")%string; [left|right]; reflexivity.
    + intros ->. reflexivity.
Qed.

(** X6. When the relational store rejects the update of a status, the
    status update logs the error and rejects with it, and does not touch
    the real-time store. *)
Theorem status_update_primary_failure (w : World) :
  (forall (donationId status : string) (matchedWith : option string) (e : error),
      fst (foodItemService_updateStatus env donationId
             (donation_status_to_supabase status) w) = Throw e ->
      let r := updateDonationStatus env donationId status matchedWith w in
      outcome r = Throw e /\ console_errors (emitted r) = [e]
      /\ mirror_writes (emitted r) = [])
  /\ (forall (requirementId status : string) (matchedWith : option string) (e : error),
         fst (requestService_updateStatus env requirementId
                (requirement_status_to_supabase status) w) = Throw e ->
         let r := updateRequirementStatus env requirementId status matchedWith w in
         outcome r = Throw e /\ console_errors (emitted r) = [e]
         /\ mirror_writes (emitted r) = []).
Proof.
  split.
  - intros id status mw e H r. subst r.
    unfold updateDonationStatus. unfold_monad. rewrite H. repeat split; reflexivity.
  - intros id status mw e H r. subst r.
    unfold updateRequirementStatus. unfold_monad. rewrite H. repeat split; reflexivity.
Qed.


End MatchesAndStatusUpdates.

(** ** Further properties of the record translator and of the subscriptions *)

Section TranslatorTotality.

Lemma requirement_status_fixed (s : string) :
  requirement_status_of_supabase s = s <-> In s requirement_statuses.
Proof.
  unfold requirement_status_of_supabase, requirement_statuses. split.
  - destruct (String.eqb_spec s "active") as [->|_]; [simpl; auto|].
    destruct (String.eqb_spec s "matched") as [->|_]; [simpl; auto|].
    intros <-. simpl. auto.
  - simpl. intros [<- | [<- | [<- | []]]]; reflexivity.
Qed.

Lemma status_translation_total_aux (s : string) :
  In (requirement_status_of_supabase s) requirement_statuses.
Proof.
  unfold requirement_status_of_supabase, requirement_statuses.
  destruct (s =? "active")%string; [simpl; auto|].
  destruct (s =? "matched")%string; simpl; auto.
Qed.

(** X8. The translations of the statuses are total, and land in the
    vocabulary of their side whatever string they are given: a status of
    the relational store that is not one of available, reserved, collected
    becomes "expired" for a donation, and one that is not active or
    matched becomes "fulfilled" for a requirement; in the other direction
    an unknown donation status is written as "expired" and an unknown
    requirement status as "fulfilled". *)
Theorem status_translation_total (s : string) :
  In (donation_status_of_supabase s) donation_statuses
  /\ In (donation_status_to_supabase s) food_item_statuses
  /\ In (requirement_status_of_supabase s) requirement_statuses
  /\ In (requirement_status_to_supabase s) requirement_statuses
  /\ (~ In s food_item_statuses -> donation_status_of_supabase s = "expired")
  /\ (~ In s donation_statuses -> donation_status_to_supabase s = "expired")
  /\ (~ In s requirement_statuses ->
      requirement_status_of_supabase s = "fulfilled"
      /\ requirement_status_to_supabase s = "fulfilled").
Proof.
  unfold donation_status_of_supabase, donation_status_to_supabase,
    requirement_status_of_supabase, requirement_status_to_supabase,
    donation_statuses, food_item_statuses, requirement_statuses.
  repeat split;
    repeat match goal with
      | |- context [(s =? ?c)%string] => destruct (String.eqb_spec s c) as [->|?]
      end;
    simpl; intros; try reflexivity; try (auto 10; fail);
    exfalso;
    match goal with
    | H : ~ _ |- _ => apply H; simpl; auto 10
    end.
Qed.

End TranslatorTotality.

Section ConverterAgreement.

Context {N : NumberOps}.

(** X9. The two converters of requirement rows differ in the status only:
    [getRequirementsByReceiver] translates it and
    [listenToActiveRequirements] copies it. They make the same requirement
    of a row exactly when the status of the row is active, matched or
    fulfilled; of any other row the listener hands out a status outside the
    vocabulary of requirements. *)
Theorem requirement_converters_agree (item : RequestRow) :
  (convertSupabaseToRequirement requirement_status_of_supabase item
   = convertSupabaseToRequirement (fun s => s) item
   <-> In (rq_status item) requirement_statuses)
  /\ fr_status (convertSupabaseToRequirement (fun s => s) item) = rq_status item
  /\ In (fr_status (convertSupabaseToRequirement requirement_status_of_supabase item))
        requirement_statuses.
Proof.
  split; [|split].
  - rewrite <- requirement_status_fixed. split.
    + intros H. apply (f_equal fr_status) in H. exact H.
    + intros H. unfold convertSupabaseToRequirement. rewrite H. reflexivity.
  - reflexivity.
  - apply status_translation_total_aux.
Qed.

End ConverterAgreement.

Section SubscriptionRuns.

Context {N : NumberOps}.
Variable env : Env.

(** X10. When the query answers, the callback returns and the channel
    opens, [getDonationsByDonor] has invoked the callback exactly once,
    with one donation per row, in the order of the rows and with their
    identities; it has sent the query and then opened the channel
    [donations-<donorId>], and it returns the function that unsubscribes
    that channel. [getRequirementsByReceiver] does the same with the
    channel [requirements-<receiverId>]. *)
Theorem subscription_by_owner_success (w : World) :
  (forall (donorId : string) (callback : Callback FoodDonation)
          (rows : list FoodItemRow),
      let call := foodItemService_getByDonor env donorId w in
      let channel := ("donations-" ++ donorId)%string in
      fst call = Ok rows ->
      callback (map convertSupabaseToFoodDonation rows) = Ok tt ->
      supabase_subscribe env channel (set_now (snd call) w) = Ok tt ->
      let r := getDonationsByDonor env donorId callback w in
      outcome r = Ok (UnsubscribeChannel channel)
      /\ donation_callbacks (emitted r) = [map convertSupabaseToFoodDonation rows]
      /\ map fd_id (map convertSupabaseToFoodDonation rows)
         = map (fun row => Some (fi_id row)) rows
      /\ filter is_network_call (emitted r)
         = [FoodItemGetByDonor donorId;
            ChannelSubscribe channel "food_items" ("donor_id=eq." ++ donorId)%string]
      /\ emitted (unsubscribe (UnsubscribeChannel channel) (final r))
         = [ChannelUnsubscribe channel])
  /\ (forall (receiverId : string) (callback : Callback FoodRequirement)
             (rows : list RequestRow),
         let call := requestService_getByNGO env receiverId w in
         let channel := ("requirements-" ++ receiverId)%string in
         let converted :=
           map (convertSupabaseToRequirement requirement_status_of_supabase) rows in
         fst call = Ok rows ->
         callback converted = Ok tt ->
         supabase_subscribe env channel (set_now (snd call) w) = Ok tt ->
         let r := getRequirementsByReceiver env receiverId callback w in
         outcome r = Ok (UnsubscribeChannel channel)
         /\ requirement_callbacks (emitted r) = [converted]
         /\ map fr_id converted = map (fun row => Some (rq_id row)) rows
         /\ filter is_network_call (emitted r)
            = [RequestGetByNGO receiverId;
               ChannelSubscribe channel "requests" ("ngo_id=eq." ++ receiverId)%string]
         /\ emitted (unsubscribe (UnsubscribeChannel channel) (final r))
            = [ChannelUnsubscribe channel]).
Proof.
  split.
  - intros donorId callback rows call channel Hq Hc Hs r. subst r channel call.
    unfold getDonationsByDonor. unfold_monad.
    rewrite Hq. cbn [outcome final emitted]. rewrite Hc, Hs.
    repeat split; try reflexivity.
    rewrite map_map. reflexivity.
  - intros receiverId callback rows call channel converted Hq Hc Hs r.
    subst r converted channel call.
    unfold getRequirementsByReceiver. unfold_monad.
    rewrite Hq. cbn [outcome final emitted]. rewrite Hc, Hs.
    repeat split; try reflexivity.
    rewrite map_map. reflexivity.
Qed.

(** X11. An exception of the callback during the set-up is swallowed like
    a failure of the query: [getDonationsByDonor] and
    [getRequirementsByReceiver] log it and return the no-op function, and
    they do not open the channel, so that the caller gets no further
    updates. *)
Theorem callback_exception_prevents_subscription (w : World) :
  (forall (donorId : string) (callback : Callback FoodDonation)
          (rows : list FoodItemRow) (e : error),
      fst (foodItemService_getByDonor env donorId w) = Ok rows ->
      callback (map convertSupabaseToFoodDonation rows) = Throw e ->
      let r := getDonationsByDonor env donorId callback w in
      outcome r = Ok NoOp
      /\ console_errors (emitted r) = [e]
      /\ filter is_network_call (emitted r) = [FoodItemGetByDonor donorId])
  /\ (forall (receiverId : string) (callback : Callback FoodRequirement)
             (rows : list RequestRow) (e : error),
         fst (requestService_getByNGO env receiverId w) = Ok rows ->
         callback (map (convertSupabaseToRequirement requirement_status_of_supabase) rows)
         = Throw e ->
         let r := getRequirementsByReceiver env receiverId callback w in
         outcome r = Ok NoOp
         /\ console_errors (emitted r) = [e]
         /\ filter is_network_call (emitted r) = [RequestGetByNGO receiverId]).
Proof.
  split.
  - intros donorId callback rows e Hq Hc r. subst r.
    unfold getDonationsByDonor. unfold_monad.
    rewrite Hq. cbn [outcome final emitted]. rewrite Hc. repeat split; reflexivity.
  - intros receiverId callback rows e Hq Hc r. subst r.
    unfold getRequirementsByReceiver. unfold_monad.
    rewrite Hq. cbn [outcome final emitted]. rewrite Hc. repeat split; reflexivity.
Qed.

(** X12. On a change of the rows of the owner, the handlers of
    [getDonationsByDonor] and [getRequirementsByReceiver] fetch all the
    rows again and invoke the callback once with the whole converted
    list, not with the change; their outcome is that of the callback. When
    the new query throws, they have no handler for it: the callback is not
    invoked and the error leaves the handler. *)
Theorem change_handler_refetches (w : World) :
  (forall (donorId : string) (callback : Callback FoodDonation),
      let r := getDonationsByDonor_onChange env donorId callback w in
      match fst (foodItemService_getByDonor env donorId w) with
      | Ok rows =>
          donation_callbacks (emitted r) = [map convertSupabaseToFoodDonation rows]
          /\ outcome r = callback (map convertSupabaseToFoodDonation rows)
      | Throw e => donation_callbacks (emitted r) = [] /\ outcome r = Throw e
      end
      /\ filter is_network_call (emitted r) = [FoodItemGetByDonor donorId])
  /\ (forall (receiverId : string) (callback : Callback FoodRequirement),
         let r := getRequirementsByReceiver_onChange env receiverId callback w in
         match fst (requestService_getByNGO env receiverId w) with
         | Ok rows =>
             requirement_callbacks (emitted r)
             = [map (convertSupabaseToRequirement requirement_status_of_supabase) rows]
             /\ outcome r
                = callback (map (convertSupabaseToRequirement
                                   requirement_status_of_supabase) rows)
         | Throw e => requirement_callbacks (emitted r) = [] /\ outcome r = Throw e
         end
         /\ filter is_network_call (emitted r) = [RequestGetByNGO receiverId]).
Proof.
  split.
  - intros donorId callback r. subst r.
    unfold getDonationsByDonor_onChange. unfold_monad.
    destruct (foodItemService_getByDonor env donorId w) as [[rows|e] t];
      cbn [fst snd outcome final emitted app]; repeat split; reflexivity.
  - intros receiverId callback r. subst r.
    unfold getRequirementsByReceiver_onChange. unfold_monad.
    destruct (requestService_getByNGO env receiverId w) as [[rows|e] t];
      cbn [fst snd outcome final emitted app]; repeat split; reflexivity.
Qed.

(** What [fetchAndCallback] hands to a callback that does not throw: the
    converted rows, none when the answer carries no data, and the empty
    sequence when the query has failed. *)
Definition delivered {A B} (convert : A -> B) (answer : result (QueryResult A)) : list B :=
  match answer with
  | Ok q =>
      match q_error q with
      | Some _ => []
      | None => map convert (data_or_empty (q_data q))
      end
  | Throw _ => []
  end.

(** X13. Every run of [fetchAndCallback] invokes the callback, whatever
    the query answers. With a callback that does not throw, the run
    resolves and has invoked it exactly once: with the converted rows of
    the answer, with the empty sequence when the answer has neither data
    nor error, and with the empty sequence when the query has failed. *)
Theorem fetchAndCallback_always_calls_back (w : World) :
  (forall callback : Callback FoodDonation,
      donation_callbacks (emitted (fetchAndCallback_donations env callback w)) <> []
      /\ ((forall data, callback data = Ok tt) ->
          outcome (fetchAndCallback_donations env callback w) = Ok tt
          /\ donation_callbacks (emitted (fetchAndCallback_donations env callback w))
             = [delivered convertSupabaseToFoodDonation
                  (fst (supabase_select_food_items env "available" w))]))
  /\ (forall callback : Callback FoodRequirement,
         requirement_callbacks (emitted (fetchAndCallback_requirements env callback w))
         <> []
         /\ ((forall data, callback data = Ok tt) ->
             outcome (fetchAndCallback_requirements env callback w) = Ok tt
             /\ requirement_callbacks
                  (emitted (fetchAndCallback_requirements env callback w))
                = [delivered (convertSupabaseToRequirement (fun s => s))
                     (fst (supabase_select_requests env "active" w))])).
Proof.
  split.
  - intros callback. split.
    + unfold fetchAndCallback_donations. unfold_monad.
      destruct (supabase_select_food_items env "available" w) as [[q|e] t];
        cbn [fst snd outcome final emitted app];
        [destruct (q_error q); cbn [outcome final emitted app]|];
        repeat (match goal with
                | |- context [match callback ?d with _ => _ end] =>
                    destruct (callback d) as [[]|?]; cbn [outcome final emitted app]
                end);
        discriminate.
    + intros Hcb. unfold fetchAndCallback_donations, delivered. unfold_monad.
      destruct (supabase_select_food_items env "available" w) as [[q|e] t];
        cbn [fst snd outcome final emitted app];
        [destruct (q_error q); cbn [outcome final emitted app]|];
        rewrite !Hcb; split; reflexivity.
  - intros callback. split.
    + unfold fetchAndCallback_requirements. unfold_monad.
      destruct (supabase_select_requests env "active" w) as [[q|e] t];
        cbn [fst snd outcome final emitted app];
        [destruct (q_error q); cbn [outcome final emitted app]|];
        repeat (match goal with
                | |- context [match callback ?d with _ => _ end] =>
                    destruct (callback d) as [[]|?]; cbn [outcome final emitted app]
                end);
        discriminate.
    + intros Hcb. unfold fetchAndCallback_requirements, delivered. unfold_monad.
      destruct (supabase_select_requests env "active" w) as [[q|e] t];
        cbn [fst snd outcome final emitted app];
        [destruct (q_error q); cbn [outcome final emitted app]|];
        rewrite !Hcb; split; reflexivity.
Qed.

(** X14. The subscription entry points and their change handlers read
    from the relational store only: none of them ever calls the client of
    the real-time store. The listeners of the available donations and of
    the active requirements always open their channel first and then send
    their query, filtered on the status available (or active). *)
Theorem subscriptions_never_touch_the_mirror (w : World) :
  (forall donorId callback,
      filter is_mirror_call (emitted (getDonationsByDonor env donorId callback w)) = []
      /\ filter is_mirror_call
           (emitted (getDonationsByDonor_onChange env donorId callback w)) = [])
  /\ (forall receiverId callback,
         filter is_mirror_call
           (emitted (getRequirementsByReceiver env receiverId callback w)) = []
         /\ filter is_mirror_call
              (emitted (getRequirementsByReceiver_onChange env receiverId callback w))
            = [])
  /\ (forall callback,
         filter is_network_call (emitted (listenToAvailableDonations env callback w))
         = [ChannelSubscribe "available-donations" "food_items" "status=eq.available";
            SelectByStatus "food_items" "available"]
         /\ filter is_network_call
              (emitted (listenToAvailableDonations_onChange env callback w))
            = [SelectByStatus "food_items" "available"])
  /\ (forall callback,
         filter is_network_call (emitted (listenToActiveRequirements env callback w))
         = [ChannelSubscribe "active-requirements" "requests" "status=eq.active";
            SelectByStatus "requests" "active"]
         /\ filter is_network_call
              (emitted (listenToActiveRequirements_onChange env callback w))
            = [SelectByStatus "requests" "active"]).
Proof.
  split; [|split; [|split]].
  - intros donorId callback. split.
    + unfold getDonationsByDonor. unfold_monad.
      repeat (split_answer; try reflexivity).
    + unfold getDonationsByDonor_onChange. unfold_monad.
      repeat (split_answer; try reflexivity).
  - intros receiverId callback. split.
    + unfold getRequirementsByReceiver. unfold_monad.
      repeat (split_answer; try reflexivity).
    + unfold getRequirementsByReceiver_onChange. unfold_monad.
      repeat (split_answer; try reflexivity).
  - intros callback. split.
    + unfold listenToAvailableDonations, listenToAvailableDonations_sync,
        fetchAndCallback_donations.
      unfold_monad.
      repeat (split_answer; try reflexivity).
    + unfold listenToAvailableDonations_onChange, fetchAndCallback_donations.
      unfold_monad.
      repeat (split_answer; try reflexivity).
  - intros callback. split.
    + unfold listenToActiveRequirements, listenToActiveRequirements_sync,
        fetchAndCallback_requirements.
      unfold_monad.
      repeat (split_answer; try reflexivity).
    + unfold listenToActiveRequirements_onChange, fetchAndCallback_requirements.
      unfold_monad.
      repeat (split_answer; try reflexivity).
Qed.

End SubscriptionRuns.

(** ** Further properties of the analytics and of the module state *)

Section AnalyticsRuns.

Context {N : NumberOps}.
Variable env : Env.

(** X15. [getAnalyticsData] never rejects, whatever the stores do: it
    resolves with an object, which is the object the cache holds when it
    returns, and the cache is then valid, so that a call at the same
    instant would be served from the cache. It leaves the mock arrays as
    they are. *)
Theorem getAnalyticsData_never_rejects (w : World) :
  exists obj : object AnalyticsData,
    outcome (getAnalyticsData env w) = Ok obj
    /\ analyticsCache (final (getAnalyticsData env w)) = Some obj
    /\ cache_valid (final (getAnalyticsData env w)) = true
    /\ mockDonations (final (getAnalyticsData env w)) = mockDonations w
    /\ mockRequirements (final (getAnalyticsData env w)) = mockRequirements w
    /\ mockMatches (final (getAnalyticsData env w)) = mockMatches w.
Proof.
  unfold getAnalyticsData.
  assert (R : exists obj : object AnalyticsData,
             outcome (getAnalyticsData_refresh env w) = Ok obj
             /\ analyticsCache (final (getAnalyticsData_refresh env w)) = Some obj
             /\ cache_valid (final (getAnalyticsData_refresh env w)) = true
             /\ mockDonations (final (getAnalyticsData_refresh env w)) = mockDonations w
             /\ mockRequirements (final (getAnalyticsData_refresh env w))
                = mockRequirements w
             /\ mockMatches (final (getAnalyticsData_refresh env w)) = mockMatches w).
  { unfold getAnalyticsData_refresh, getDatabaseAvailability, get_all_snapshots,
      cache_and_return.
    unfold_monad.
    repeat (split_answer;
            try (eexists; split; [reflexivity|]; split; [reflexivity|];
                 split; [unfold cache_valid; cbn; rewrite Z.sub_diag; reflexivity|];
                 repeat split; reflexivity)). }
  destruct (analyticsCache w) as [cached|] eqn:Hc; [|exact R].
  destruct (now w - analyticsCacheTime w <? CACHE_DURATION) eqn:Ht; [|exact R].
  exists cached. cbn [outcome final]. unfold cache_valid. rewrite Hc, Ht.
  repeat split; reflexivity.
Qed.

(** X16. With a stale cache and a probe that reports a connection,
    [getAnalyticsData] issues the three reads together. When all three
    answer, the result is a new object whose arrays hold the children of
    the three snapshots, and nothing is logged as an error. When one of
    them throws, one error is logged and the result is the placeholder
    dataset: the mock arrays of the module, by reference. *)
Theorem getAnalyticsData_reads_the_mirror (w : World) :
  cache_valid w = false ->
  fst (firebase_get_connected env w) = Ok true ->
  let w1 := set_now (snd (firebase_get_connected env w)) w in
  let r := getAnalyticsData env w in
  filter is_network_call (emitted r)
  = [FirebaseGet ".info/connected"; FirebaseGet "donations";
     FirebaseGet "requirements"; FirebaseGet "matches"]
  /\ (forall d q m,
         fst (firebase_get_donations env w1) = Ok d ->
         fst (firebase_get_requirements env w1) = Ok q ->
         fst (firebase_get_matches env w1) = Ok m ->
         outcome r = Ok (next_object w,
                         {| donations := FreshArray d;
                            requirements := FreshArray q;
                            matches := FreshArray m |})
         /\ console_errors (emitted r) = [])
  /\ ((exists e, fst (firebase_get_donations env w1) = Throw e)
      \/ (exists e, fst (firebase_get_requirements env w1) = Throw e)
      \/ (exists e, fst (firebase_get_matches env w1) = Throw e) ->
      outcome r = Ok (next_object w, mock_data)
      /\ List.length (console_errors (emitted r)) = 1%nat).
Proof.
  intros Hstale Hprobe w1 r. subst r w1.
  rewrite (getAnalyticsData_miss env w Hstale).
  unfold getAnalyticsData_refresh, getDatabaseAvailability, get_all_snapshots,
    cache_and_return, both.
  unfold_monad. rewrite Hprobe. cbn [outcome final emitted fst snd app negb].
  destruct (firebase_get_donations env _) as [[d|ed] td];
    destruct (firebase_get_requirements env _) as [[q|eq] tq];
    destruct (firebase_get_matches env _) as [[m|em] tm];
    cbn [outcome final emitted fst snd app];
    repeat match goal with
      | |- context [if ?c then _ else _] =>
          destruct c; cbn [outcome final emitted fst snd app]
      end;
    (split; [reflexivity|]); split;
    try (intros d' q' m' Hd Hq Hm; try discriminate;
         injection Hd as <-; injection Hq as <-; injection Hm as <-;
         split; reflexivity);
    try (intros _; split; reflexivity);
    intros [[e H] | [[e H] | [e H]]]; discriminate.
Qed.

End AnalyticsRuns.

Section ModuleState.

Context {N : NumberOps}.
Variable env : Env.

(** Unfold an operation and follow every answer of the collaborators,
    closing each case with [close]. *)
Ltac follow_answers close :=
  unfold_monad; repeat (split_answer; try close).

Ltac same_state := unfold same_module_state; cbn; repeat split; reflexivity.

Lemma createDonation_same_state (donation : DonationInput) (w : World) :
  same_module_state w (final (createDonation env donation w)).
Proof.
  unfold createDonation, createDonation_primary, createDonation_mirror.
  follow_answers same_state.
Qed.

Lemma createRequirement_same_state (requirement : RequirementInput) (w : World) :
  same_module_state w (final (createRequirement env requirement w)).
Proof.
  unfold createRequirement, createRequirement_primary, createRequirement_mirror.
  follow_answers same_state.
Qed.

Lemma createMatch_same_state (match_ : MatchInput) (q : option number) (w : World) :
  same_module_state w (final (createMatch env match_ q w)).
Proof.
  unfold createMatch, createMatch_primary, createMatch_mirror.
  follow_answers same_state.
Qed.

Lemma updateDonationStatus_same_state (id status : string) (mw : option string)
    (w : World) :
  same_module_state w (final (updateDonationStatus env id status mw w)).
Proof.
  unfold updateDonationStatus. destruct (truthy_string mw); follow_answers same_state.
Qed.

Lemma updateRequirementStatus_same_state (id status : string) (mw : option string)
    (w : World) :
  same_module_state w (final (updateRequirementStatus env id status mw w)).
Proof.
  unfold updateRequirementStatus. destruct (truthy_string mw); follow_answers same_state.
Qed.

(** X17. The write operations change nothing in the state of the module:
    after [createDonation], [createRequirement], [createMatch],
    [updateDonationStatus] or [updateRequirementStatus], whatever their
    outcome, the mock arrays and the analytics cache are as before. In
    particular a write does not invalidate the cache: a
    [getAnalyticsData] that follows a [createDonation] less than 30
    seconds after the cache was filled returns the object cached before
    the donation was created, without any request. *)
Theorem writes_keep_the_analytics_cache (w : World) :
  (forall donation, same_module_state w (final (createDonation env donation w)))
  /\ (forall requirement,
         same_module_state w (final (createRequirement env requirement w)))
  /\ (forall match_ q, same_module_state w (final (createMatch env match_ q w)))
  /\ (forall id status matchedWith,
         same_module_state w (final (updateDonationStatus env id status matchedWith w)))
  /\ (forall id status matchedWith,
         same_module_state w
           (final (updateRequirementStatus env id status matchedWith w)))
  /\ (forall (donation : DonationInput) (obj : object AnalyticsData),
         analyticsCache w = Some obj ->
         now (final (createDonation env donation w)) - analyticsCacheTime w < 30000 ->
         getAnalyticsData env (final (createDonation env donation w))
         = MkRun (Ok obj) (final (createDonation env donation w)) []).
Proof.
  split; [|split; [|split; [|split; [|split]]]].
  - intros. apply createDonation_same_state.
  - intros. apply createRequirement_same_state.
  - intros. apply createMatch_same_state.
  - intros. apply updateDonationStatus_same_state.
  - intros. apply updateRequirementStatus_same_state.
  - intros donation obj Hc Ht.
    destruct (createDonation_same_state donation w) as [_ [_ [_ [Hcache [Htime _]]]]].
    apply getAnalyticsData_hit.
    + rewrite Hcache. exact Hc.
    + rewrite Htime. exact Ht.
Qed.

(** The match [m] with the status and the time of update replaced. *)
Definition with_status (m : Match) (status updatedAt : string) : Match :=
  {| m_id := m_id m;
     m_donationId := m_donationId m;
     m_requirementId := m_requirementId m;
     m_donorId := m_donorId m;
     m_receiverId := m_receiverId m;
     m_status := status;
     m_distance := m_distance m;
     m_matchScore := m_matchScore m;
     m_createdAt := m_createdAt m;
     m_updatedAt := updatedAt |}.

Lemma update_mock_match_absent (matchId status t : string) (l : list Match) :
  Forall (fun m => m_id m <> Some matchId) l ->
  update_mock_match matchId status t l = None.
Proof.
  induction 1 as [|m l Hm _ IH]; simpl; [reflexivity|].
  destruct (m_id m) as [i|].
  - destruct (String.eqb_spec i matchId) as [->|_]; [congruence|].
    rewrite IH. reflexivity.
  - rewrite IH. reflexivity.
Qed.

Lemma update_mock_match_first (matchId status t : string)
    (before : list Match) (m : Match) (after : list Match) :
  Forall (fun x => m_id x <> Some matchId) before ->
  m_id m = Some matchId ->
  update_mock_match matchId status t (before ++ m :: after)
  = Some (before ++ with_status m status t :: after).
Proof.
  intros Hb Hm. induction Hb as [|x l Hx _ IH]; simpl.
  - unfold with_status. rewrite Hm, String.eqb_refl. reflexivity.
  - destruct (m_id x) as [i|].
    + destruct (String.eqb_spec i matchId) as [->|_]; [congruence|].
      rewrite IH. reflexivity.
    + rewrite IH. reflexivity.
Qed.

Lemma update_mock_match_ids (matchId status t : string) (l l' : list Match) :
  update_mock_match matchId status t l = Some l' ->
  map m_id l' = map m_id l.
Proof.
  revert l'. induction l as [|m l IH]; simpl; intros l' H; [discriminate|].
  destruct (match m_id m with Some i => (i =? matchId)%string | None => false end).
  - injection H as <-. reflexivity.
  - destruct (update_mock_match matchId status t l) as [l0|]; [|discriminate].
    injection H as <-. simpl. rewrite (IH l0 eq_refl). reflexivity.
Qed.

(** X18. When the real-time database is not initialised,
    [updateMatchStatus] sends nothing to either store and always
    resolves. It changes the first mock match that has the identity, and
    only that one: its status becomes the new status and its time of
    update the time of the call. The identities of the mock matches, and
    so their number and order, stay the same. When no mock match has the
    identity the call is silently without effect. *)
Theorem updateMatchStatus_mock_mode (w : World) (matchId status : string) :
  database_app env = Ok false ->
  let r := updateMatchStatus env matchId status w in
  outcome r = Ok tt
  /\ filter is_network_call (emitted r) = []
  /\ map m_id (mockMatches (final r)) = map m_id (mockMatches w)
  /\ now (final r) = now w
  /\ analyticsCache (final r) = analyticsCache w
  /\ analyticsCacheTime (final r) = analyticsCacheTime w
  /\ (Forall (fun m => m_id m <> Some matchId) (mockMatches w) ->
      r = MkRun (Ok tt) w [])
  /\ (forall (before : list Match) (m : Match) (after : list Match),
         mockMatches w = before ++ m :: after ->
         Forall (fun x => m_id x <> Some matchId) before ->
         m_id m = Some matchId ->
         mockMatches (final r)
         = before ++ with_status m status (Date.toISOString (now w)) :: after).
Proof.
  intros Hdb r. subst r.
  unfold updateMatchStatus, getDatabaseAvailabilitySync. rewrite Hdb.
  unfold_monad.
  destruct (update_mock_match matchId status (Date.toISOString (now w)) (mockMatches w))
    as [l|] eqn:Hu; cbn [outcome final emitted app].
  - repeat split; try reflexivity.
    + cbn. apply (update_mock_match_ids _ _ _ _ _ Hu).
    + intros Habsent. rewrite (update_mock_match_absent _ _ _ _ Habsent) in Hu.
      discriminate.
    + intros before m after Hsplit Hb Hm. cbn.
      rewrite Hsplit, (update_mock_match_first _ _ _ _ _ _ Hb Hm) in Hu.
      injection Hu as <-. reflexivity.
  - repeat split; try reflexivity.
    intros before m after Hsplit Hb Hm.
    rewrite Hsplit, (update_mock_match_first _ _ _ _ _ _ Hb Hm) in Hu.
    discriminate.
Qed.

(** X19. The placeholder object of the analytics holds the mock arrays by
    reference. When it is in the cache and [updateMatchStatus] runs in
    mock mode, the cache keeps the same object and [getAnalyticsData] goes
    on returning it without any request, but the matches it shows are the
    updated ones. A cached object read from the real-time store shows the
    same matches as before. *)
Theorem cached_placeholder_follows_mock_update
    (w : World) (matchId status : string) (obj : object AnalyticsData) :
  database_app env = Ok false ->
  analyticsCache w = Some obj ->
  now w - analyticsCacheTime w < 30000 ->
  let r := updateMatchStatus env matchId status w in
  getAnalyticsData env (final r) = MkRun (Ok obj) (final r) []
  /\ (matches (snd obj) = ModuleArray ->
      forall (before : list Match) (m : Match) (after : list Match),
        mockMatches w = before ++ m :: after ->
        Forall (fun x => m_id x <> Some matchId) before ->
        m_id m = Some matchId ->
        matches_of w (snd obj) = before ++ m :: after
        /\ matches_of (final r) (snd obj)
           = before ++ with_status m status (Date.toISOString (now w)) :: after)
  /\ (forall items : list Match,
         matches (snd obj) = FreshArray items ->
         matches_of (final r) (snd obj) = items
         /\ matches_of w (snd obj) = items).
Proof.
  intros Hdb Hc Ht r. subst r.
  assert (S : forall before m after,
             mockMatches w = before ++ m :: after ->
             Forall (fun x => m_id x <> Some matchId) before ->
             m_id m = Some matchId ->
             mockMatches (final (updateMatchStatus env matchId status w))
             = before ++ with_status m status (Date.toISOString (now w)) :: after).
  { intros before m after Hsplit Hb Hm.
    unfold updateMatchStatus, getDatabaseAvailabilitySync. rewrite Hdb.
    unfold_monad.
    rewrite Hsplit, (update_mock_match_first _ _ _ _ _ _ Hb Hm). reflexivity. }
  assert (K : now (final (updateMatchStatus env matchId status w)) = now w
              /\ analyticsCache (final (updateMatchStatus env matchId status w))
                 = analyticsCache w
              /\ analyticsCacheTime (final (updateMatchStatus env matchId status w))
                 = analyticsCacheTime w).
  { unfold updateMatchStatus, getDatabaseAvailabilitySync. rewrite Hdb.
    unfold_monad.
    destruct (update_mock_match _ _ _ _); repeat split; reflexivity. }
  destruct K as [Kn [Kc Kt]].
  split; [|split].
  - apply getAnalyticsData_hit.
    + rewrite Kc. exact Hc.
    + rewrite Kn, Kt. exact Ht.
  - intros Hm before m after Hsplit Hb Hid. unfold matches_of. rewrite Hm.
    split; [exact Hsplit | apply S; assumption].
  - intros items Hm. unfold matches_of. rewrite Hm. split; reflexivity.
Qed.

(** X20. [isDatabaseAvailable] answers true exactly when both
    configuration values are set to a non-empty string other than their
    placeholder; it never throws, and it only reads the configuration: it
    sends no request and changes nothing. *)
Theorem isDatabaseAvailable_decides_on_both_values (w : World) :
  (hasValidConfig env = true <->
   exists key project : string,
     NEXT_PUBLIC_FIREBASE_API_KEY env = Some key
     /\ NEXT_PUBLIC_FIREBASE_PROJECT_ID env = Some project
     /\ key <> "" /\ key <> "demo-api-key"
     /\ project <> "" /\ project <> "demo-project")
  /\ outcome (isDatabaseAvailable env w) = Ok (hasValidConfig env)
  /\ final (isDatabaseAvailable env w) = w
  /\ filter is_network_call (emitted (isDatabaseAvailable env w)) = [].
Proof.
  assert (V : forall (v : option string) (sentinel : string),
             set_and_not v sentinel = true
             <-> exists s, v = Some s /\ s <> "" /\ s <> sentinel).
  { intros v sentinel. unfold set_and_not. destruct v as [s|].
    - rewrite andb_true_iff, negb_true_iff. split.
      + intros [Ht Hs]. exists s. split; [reflexivity|]. split.
        * intros ->. discriminate.
        * apply String.eqb_neq. exact Hs.
      + intros [s' [Hs' [Hne Hns]]]. injection Hs' as <-. split.
        * destruct s; [congruence | reflexivity].
        * apply String.eqb_neq. exact Hns.
    - split; [discriminate|]. intros [s [Hs _]]. discriminate. }
  split; [|split; [|split]].
  - unfold hasValidConfig. rewrite andb_true_iff, !V. split.
    + intros [[k [Hk [Hk1 Hk2]]] [p [Hp [Hp1 Hp2]]]].
      exists k, p. repeat split; assumption.
    + intros [k [p [Hk [Hp [Hk1 [Hk2 [Hp1 Hp2]]]]]]]. split.
      * exists k. repeat split; assumption.
      * exists p. repeat split; assumption.
  - unfold isDatabaseAvailable. destruct (hasValidConfig env); reflexivity.
  - unfold isDatabaseAvailable. destruct (hasValidConfig env); reflexivity.
  - unfold isDatabaseAvailable. destruct (hasValidConfig env); reflexivity.
Qed.

Lemma food_item_creates_app (l1 l2 : list event) :
  food_item_creates (l1 ++ l2) = food_item_creates l1 ++ food_item_creates l2.
Proof.
  induction l1 as [|ev l1 IH]; simpl; [reflexivity|].
  destruct ev; simpl; rewrite ?IH; reflexivity.
Qed.

(** X21. The creations carry no idempotency key: a second [createDonation]
    with the same input, after a first one that has succeeded, hands a
    second row to the relational store, built from the input at the time
    of the second call. The two rows are equal when the input gives both
    [pickupTime] and [expiryDate]; a time that the input leaves out is
    filled, in the second row, from the clock at the second call. *)
Theorem repeated_create_writes_twice (w : World) (donation : DonationInput) (id : string) :
  outcome (createDonation env donation w) = Ok id ->
  let w1 := final (createDonation env donation w) in
  let twice := bind (createDonation env donation)
                    (fun _ => createDonation env donation) w in
  food_item_creates (emitted twice)
  = [donation_supabaseData donation (now w); donation_supabaseData donation (now w1)]
  /\ (truthy_string (di_pickupTime donation) = true ->
      truthy_string (di_expiryDate donation) = true ->
      donation_supabaseData donation (now w) = donation_supabaseData donation (now w1))
  /\ (truthy_string (di_pickupTime donation) = false ->
      fii_pickup_time (donation_supabaseData donation (now w1))
      = Date.toISOString (now w1))
  /\ (truthy_string (di_expiryDate donation) = false ->
      fii_expiry_date (donation_supabaseData donation (now w1))
      = Date.toISOString (now w1 + 7 * 24 * 60 * 60 * 1000)).
Proof.
  intros Hok w1 twice. subst twice. split; [|split; [|split]].
  - subst w1. unfold bind.
    pose proof (createDonation_food_item_creates env donation w) as H1.
    destruct (createDonation env donation w) as [o w1 evs1].
    cbn [outcome final emitted] in *. subst o.
    pose proof (createDonation_food_item_creates env donation w1) as H2.
    destruct (createDonation env donation w1) as [o2 w2 evs2].
    cbn [emitted] in *. rewrite food_item_creates_app, H1, H2. reflexivity.
  - intros Hp He. unfold donation_supabaseData.
    destruct (di_pickupTime donation) as [[|c s]|]; try discriminate.
    destruct (di_expiryDate donation) as [[|c' s']|]; try discriminate.
    reflexivity.
  - intros Hp. unfold donation_supabaseData. cbn [fii_pickup_time].
    destruct (di_pickupTime donation) as [[|c s]|]; try discriminate; reflexivity.
  - intros He. unfold donation_supabaseData. cbn [fii_expiry_date].
    destruct (di_expiryDate donation) as [[|c s]|]; try discriminate; reflexivity.
Qed.

End ModuleState.

(** ** Properties of the listener arrays *)

Section RegistryProperties.

Variable T : Type.

Local Abbreviation Registered := (Registry.Registered T).

(** The array without the first registration of the callback. *)
Fixpoint remove_first (callback : Registered) (l : list Registered) : list Registered :=
  match l with
  | [] => []
  | x :: rest =>
      if (Registry.ref T x =? Registry.ref T callback)%nat then rest
      else x :: remove_first callback rest
  end.

Lemma indexOf_from_bound (i : Z) (l : list Registered) (callback : Registered) :
  Registry.indexOf_from T i l callback = -1
  \/ i <= Registry.indexOf_from T i l callback.
Proof.
  revert i. induction l as [|x rest IH]; intros i; simpl; [left; reflexivity|].
  destruct (Registry.ref T x =? Registry.ref T callback)%nat; [right; lia|].
  destruct (IH (i + 1)) as [H|H]; [left; exact H | right; lia].
Qed.

Lemma splice_from (i : Z) (l : list Registered) (callback : Registered) :
  0 <= i ->
  (if -1 <? Registry.indexOf_from T i l callback
   then Registry.splice_one T (Registry.indexOf_from T i l callback - i) l
   else l)
  = remove_first callback l.
Proof.
  revert i. induction l as [|x rest IH]; intros i Hi; simpl; [reflexivity|].
  destruct (Registry.ref T x =? Registry.ref T callback)%nat.
  - replace (-1 <? i) with true by (symmetry; apply Z.ltb_lt; lia).
    rewrite Z.sub_diag. reflexivity.
  - specialize (IH (i + 1) ltac:(lia)).
    destruct (indexOf_from_bound (i + 1) rest callback) as [H|H].
    + rewrite H in *. simpl in IH. simpl. rewrite <- IH. reflexivity.
    + set (idx := Registry.indexOf_from T (i + 1) rest callback) in *.
      assert (Hlt : (-1 <? idx) = true) by (apply Z.ltb_lt; lia).
      rewrite Hlt in *. rewrite <- IH. unfold Registry.splice_one.
      replace (Z.to_nat (idx - i)) with (S (Z.to_nat (idx - (i + 1)))) by lia.
      reflexivity.
Qed.

Lemma unsubscribe_remove_first (l : list Registered) (callback : Registered) :
  Registry.unsubscribe T l callback = remove_first callback l.
Proof.
  unfold Registry.unsubscribe, Registry.indexOf.
  rewrite <- (splice_from 0 l callback) by lia.
  rewrite Z.sub_0_r. reflexivity.
Qed.


Lemma remove_first_counts (l : list Registered) (callback : Registered) :
  Registry.registrations T (remove_first callback l) callback
  = pred (Registry.registrations T l callback)
  /\ Registry.others T (remove_first callback l) callback = Registry.others T l callback.
Proof.
  unfold Registry.registrations, Registry.others.
  induction l as [|x rest [IH1 IH2]]; simpl; [split; reflexivity|].
  destruct (Registry.ref T x =? Registry.ref T callback)%nat eqn:E; simpl.
  - split; reflexivity.
  - rewrite E. simpl. rewrite IH1, IH2. split; reflexivity.
Qed.

Lemma remove_first_single (l : list Registered) (callback : Registered) :
  (Registry.registrations T l callback <= 1)%nat ->
  remove_first callback l = Registry.others T l callback.
Proof.
  unfold Registry.registrations, Registry.others.
  induction l as [|x rest IH]; simpl; [reflexivity|].
  destruct (Registry.ref T x =? Registry.ref T callback)%nat eqn:E; simpl; intros H.
  - assert (H0 : Registry.registrations T rest callback = O)
      by (unfold Registry.registrations; lia).
    clear IH. revert H0. unfold Registry.registrations.
    induction rest as [|y rest IH]; simpl; [reflexivity|].
    destruct (Registry.ref T y =? Registry.ref T callback)%nat; simpl; [discriminate|].
    intros H0. rewrite <- (IH ltac:(simpl; lia) H0). reflexivity.
  - rewrite (IH H). reflexivity.
Qed.

Lemma remove_first_app_absent (l : list Registered) (callback : Registered) :
  Registry.registrations T l callback = O ->
  remove_first callback (l ++ [callback]) = l.
Proof.
  unfold Registry.registrations.
  induction l as [|x rest IH]; simpl.
  - rewrite Nat.eqb_refl. reflexivity.
  - destruct (Registry.ref T x =? Registry.ref T callback)%nat; simpl; [discriminate|].
    intros H. rewrite (IH H). reflexivity.
Qed.

Lemma remove_first_app_present (l : list Registered) (callback : Registered) :
  (0 < Registry.registrations T l callback)%nat ->
  remove_first callback (l ++ [callback]) = remove_first callback l ++ [callback].
Proof.
  unfold Registry.registrations.
  induction l as [|x rest IH]; simpl; [lia|].
  destruct (Registry.ref T x =? Registry.ref T callback)%nat; simpl; [reflexivity|].
  intros H. rewrite (IH H). reflexivity.
Qed.

(** X22. Subscribing a callback that was not registered and then calling
    the function [subscribe] has returned gives back the array as it was.
    When the callback was registered already, that function removes its
    earliest registration, not the one just made: the new registration
    stays at the end of the array. *)
Theorem unsubscribe_after_subscribe (l : list Registered) (callback : Registered) :
  (Registry.registrations T l callback = O ->
   Registry.unsubscribe T (Registry.subscribe T l callback) callback = l)
  /\ ((0 < Registry.registrations T l callback)%nat ->
      Registry.unsubscribe T (Registry.subscribe T l callback) callback
      = Registry.unsubscribe T l callback ++ [callback])
  /\ Registry.registrations T
       (Registry.unsubscribe T (Registry.subscribe T l callback) callback) callback
     = Registry.registrations T l callback.
Proof.
  rewrite !unsubscribe_remove_first. unfold Registry.subscribe.
  split; [|split].
  - apply remove_first_app_absent.
  - apply remove_first_app_present.
  - destruct (remove_first_counts (l ++ [callback]) callback) as [H _]. rewrite H.
    unfold Registry.registrations. rewrite filter_app, length_app. simpl.
    rewrite Nat.eqb_refl. simpl. lia.
Qed.


(** X24. After the unsubscribe function of a callback registered once,
    [notify] does not invoke that callback any more and, when none of the
    listeners that are left changes the array while it is called, invokes
    every other registered listener, in the order of registration, with
    the data. *)
Theorem notify_after_unsubscribe
    (during : Registered -> list T -> list (Registry.action T))
    (l : list Registered) (callback : Registered) (data : list T) :
  (Registry.registrations T l callback <= 1)%nat ->
  Registry.undisturbed T during (Registry.others T l callback) data ->
  Registry.calls T
    (fst (Registry.notify T during (Registry.unsubscribe T l callback) data))
  = map (fun x => (x, data)) (Registry.others T l callback)
  /\ Forall (fun x => Registry.ref T x <> Registry.ref T callback)
            (Registry.unsubscribe T l callback).
Proof.
  intros H Hquiet. rewrite unsubscribe_remove_first, (remove_first_single l callback H).
  split.
  - rewrite (notify_undisturbed T during data _ Hquiet).
    cbn [fst Registry.calls]. apply calls_call_effects.
  - unfold Registry.others. apply Forall_forall. intros x Hx.
    apply filter_In in Hx. destruct Hx as [_ Hx].
    apply negb_true_iff, Nat.eqb_neq in Hx. exact Hx.
Qed.

End RegistryProperties.

(** ** Properties of the update of a role *)

Section UserRoleProperties.

Context {N : NumberOps}.
Variable env : Env.
Variable firebase_update_role : string -> string -> World -> reply unit.

(** X25. [updateUserRole] sends its update only when the real-time
    database is initialised: it then sends exactly one, to
    [users/<userId>] with the role, and its outcome is the outcome of that
    update, so that a failure of the real-time store rejects the operation
    (it is not swallowed as in the status updates). When the database is
    not initialised, or the check of it throws, the function resolves
    without sending anything. *)
Theorem updateUserRole_runs (userId role : string) (w : World) :
  let r := updateUserRole env firebase_update_role userId role w in
  (database_app env = Ok true ->
   role_updates (role_emitted r) = [(("users/" ++ userId)%string, role)]
   /\ role_outcome r
      = match fst (firebase_update_role ("users/" ++ userId)%string role w) with
        | Ok _ => Ok tt
        | Throw e => Throw e
        end)
  /\ (database_app env <> Ok true ->
      role_updates (role_emitted r) = [] /\ role_outcome r = Ok tt /\ role_final r = w).
Proof.
  intros r. subst r. unfold updateUserRole, getDatabaseAvailabilitySync. split.
  - intros H. rewrite H. cbn [ret outcome final emitted map app].
    destruct (firebase_update_role _ _ _) as [[[]|e] t]; cbn; split; reflexivity.
  - intros H. destruct (database_app env) as [[|]|e]; [congruence| |];
      cbn; repeat split; reflexivity.
Qed.

End UserRoleProperties.

(** ** Runs of the further scenarios *)

Lemma primary_failure_aborts_witness :
  outcome (createDonation (Faults.make_env Faults.relational_down)
             Scenario.donation Scenario.w0) = Throw "connection refused"
  /\ mirror_writes (emitted (createDonation (Faults.make_env Faults.relational_down)
                               Scenario.donation Scenario.w0)) = []
  /\ outcome (createDonation (Scenario.make_env Scenario.no_row)
                Scenario.donation Scenario.w0)
     = Throw "Failed to save donation to Supabase"
  /\ outcome (createRequirement (Faults.make_env Faults.relational_down)
                Scenario.requirement Scenario.w0) = Throw "connection refused"
  /\ outcome (createRequirement (Scenario.make_env Scenario.no_row)
                Scenario.requirement Scenario.w0)
     = Throw "Failed to save requirement to Supabase"
  /\ pushes (emitted (createMatch (Faults.make_env Faults.relational_down)
                        Scenario.match_ None Scenario.w0)) = [].
Proof.
  destruct (primary_failure_aborts (Faults.make_env Faults.relational_down) Scenario.w0)
    as [HD [_ [HR [_ HM]]]].
  destruct (primary_failure_aborts (Scenario.make_env Scenario.no_row) Scenario.w0)
    as [_ [HDn [_ [HRn _]]]].
  destruct (HD Scenario.donation "connection refused" eq_refl) as [H1 [_ [H2 _]]].
  destruct (HDn Scenario.donation eq_refl) as [H3 _].
  destruct (HR Scenario.requirement "connection refused" eq_refl) as [H4 _].
  destruct (HRn Scenario.requirement eq_refl) as [H5 _].
  destruct (HM Scenario.match_ None "connection refused" eq_refl) as [_ [_ [_ H6]]].
  repeat split; assumption.
Defined.

Lemma mirror_copy_of_created_record_witness :
  (exists (row : @FoodItemRow DecimalNumbers) (copy : FoodDonation)
          (entry : DonationActivity),
      mirror_writes (emitted (createDonation (Scenario.make_env Scenario.healthy)
                                Scenario.donation Scenario.w0))
      = [("donations/food-1", VDonation copy);
         (("activity_feed/" ++ da_id entry)%string, VDonationActivity entry)]
      /\ fd_id copy = Some "food-1"
      /\ fd_pickupTime copy = None
      /\ fii_pickup_time (donation_supabaseData Scenario.donation Scenario.t0)
         = "2023-11-14T22:13:20.000Z"
      /\ fd_createdAt copy = fi_created_at row)
  /\ (exists (copy : @FoodRequirement DecimalNumbers),
         fr_id copy = Some "req-1" /\ fr_neededBy copy = None).
Proof.
  destruct (mirror_copy_of_created_record (Scenario.make_env Scenario.healthy)
              Scenario.w0) as [HD HR].
  split.
  - destruct (HD Scenario.donation "food-1" eq_refl)
      as [row [copy [entry [_ [Hw [Hid [Hc [_ [Hp _]]]]]]]]].
    exists row, copy, entry. repeat split; try assumption; reflexivity.
  - destruct (HR Scenario.requirement "req-1" eq_refl)
      as [row [copy [entry [_ [_ [Hid [_ [_ [Hn _]]]]]]]]].
    exists copy. split; assumption.
Defined.

Lemma no_activity_without_mirror_record_witness :
  activity_entries (emitted (createDonation (Scenario.make_env Scenario.mirror_down)
                               Scenario.donation Scenario.w0)) = []
  /\ pushes (emitted (createRequirement (Scenario.make_env Scenario.mirror_down)
                        Scenario.requirement Scenario.w0)) = []
  /\ pushes (emitted (createMatch (Scenario.make_env Scenario.mirror_down)
                        Scenario.match_ None Scenario.w0)) = ["matches"].
Proof.
  destruct (no_activity_without_mirror_record (Scenario.make_env Scenario.mirror_down)
              Scenario.w0) as [HD [HR HM]].
  split; [|split].
  - exact (proj1 (HD Scenario.donation Scenario.stored_donation "PERMISSION_DENIED"
                     eq_refl eq_refl)).
  - exact (proj2 (HR Scenario.requirement Scenario.stored_requirement
                     "PERMISSION_DENIED" eq_refl eq_refl)).
  - exact (proj2 (HM Scenario.match_ None (Some {| tx_id := "tx-1" |}) "-Nmatch01"
                     "PERMISSION_DENIED" eq_refl eq_refl eq_refl)).
Defined.

Lemma createMatch_record_path_and_identity_witness :
  exists (key : string) (record : @Match DecimalNumbers) (entry : MatchActivity),
    mirror_writes (emitted (createMatch (Scenario.make_env Scenario.healthy)
                              Scenario.match_ None Scenario.w0))
    = [(("matches/" ++ key)%string, VMatch record);
       (("activity_feed/" ++ ma_id entry)%string, VMatchActivity entry)]
    /\ key = "-Nmatch01"
    /\ m_id record = Some "tx-1"
    /\ map fst (mirror_writes
                  (emitted (updateMatchStatus (Scenario.make_env Scenario.healthy)
                              "tx-1" "completed" Scenario.w0)))
       = ["matches/tx-1"].
Proof.
  destruct (createMatch_record_path_and_identity (Scenario.make_env Scenario.healthy)
              Scenario.w0 Scenario.match_ None "tx-1" eq_refl)
    as [key [record [entry [Hk [_ [Hw [Hid [_ [_ Hu]]]]]]]]].
  exists key, record, entry. split; [exact Hw|]. split; [|split].
  - assert (Hk' : @Ok string "-Nmatch01" = Ok key) by exact Hk.
    injection Hk' as <-. reflexivity.
  - exact Hid.
  - exact (Hu "completed" Scenario.w0 eq_refl).
Defined.

Lemma createMatch_transaction_row_witness :
  exists row : TransactionInsert,
    transaction_creates (emitted (createMatch (Scenario.make_env Scenario.healthy)
                                    Scenario.match_ None Scenario.w0)) = [row]
    /\ txi_status row = "completed"
    /\ txi_quantity_transferred row = Decimal.Dec 0 0.
Proof.
  destruct (createMatch_transaction_row (Scenario.make_env Scenario.healthy)
              Scenario.w0 Scenario.match_ None)
    as [row [Hrow [Hiff [Hor [_ [_ [_ [_ Hq]]]]]]]].
  exists row. split; [exact Hrow|]. split; [|exact (Hq eq_refl)].
  destruct Hor as [Hp | Hc]; [|exact Hc].
  apply (proj1 Hiff) in Hp. discriminate Hp.
Defined.

Lemma status_update_primary_failure_witness :
  outcome (updateDonationStatus (Faults.make_env Faults.relational_down)
             "food-1" "matched" (Some "req-1") Scenario.w0) = Throw "connection refused"
  /\ mirror_writes (emitted (updateRequirementStatus
                               (Faults.make_env Faults.relational_down)
                               "req-1" "matched" (Some "food-1") Scenario.w0)) = [].
Proof.
  destruct (status_update_primary_failure (Faults.make_env Faults.relational_down)
              Scenario.w0) as [HD HR].
  split.
  - exact (proj1 (HD "food-1" "matched" (Some "req-1") "connection refused" eq_refl)).
  - exact (proj2 (proj2 (HR "req-1" "matched" (Some "food-1") "connection refused"
                            eq_refl))).
Defined.


(** The updates that the real-time store receives in these runs, and the
    warning that a refused update leaves. *)
Example status_update_runs :
  console_warnings (emitted (updateDonationStatus
                               (Scenario.make_env Scenario.mirror_down)
                               "food-1" "matched" (Some "req-1") Scenario.w0))
  = ["PERMISSION_DENIED"]
  /\ mirror_writes (emitted (updateRequirementStatus
                               (Scenario.make_env Scenario.healthy)
                               "req-1" "fulfilled" (Some "") Scenario.w0))
     = [("requirements/req-1",
         VPatch {| sp_status := "fulfilled";
                   sp_updatedAt := "2023-11-14T22:13:20.020Z";
                   sp_matchedWith := None;
                   sp_matchedAt := None |})].
Proof. repeat split; reflexivity. Qed.

Lemma status_translation_total_witness :
  donation_status_of_supabase "cancelled" = "expired"
  /\ donation_status_to_supabase "confirmed" = "expired"
  /\ requirement_status_of_supabase "cancelled" = "fulfilled".
Proof.
  destruct (status_translation_total "cancelled") as [_ [_ [_ [_ [H1 [_ H3]]]]]].
  destruct (status_translation_total "confirmed") as [_ [_ [_ [_ [_ [H2 _]]]]]].
  split; [|split].
  - apply H1. simpl. intros [H | [H | [H | [H | []]]]]; discriminate H.
  - apply H2. simpl. intros [H | [H | [H | [H | []]]]]; discriminate H.
  - apply H3. simpl. intros [H | [H | [H | []]]]; discriminate H.
Defined.

Lemma requirement_converters_agree_witness :
  convertSupabaseToRequirement requirement_status_of_supabase
    (List.hd Faults.cancelled_request Scenario.stored_request_rows)
  = convertSupabaseToRequirement (fun s => s)
      (List.hd Faults.cancelled_request Scenario.stored_request_rows)
  /\ fr_status (convertSupabaseToRequirement (fun s => s) Faults.cancelled_request)
     = "cancelled"
  /\ fr_status (convertSupabaseToRequirement requirement_status_of_supabase
                  Faults.cancelled_request) = "fulfilled".
Proof.
  split; [|split].
  - apply (proj1 (requirement_converters_agree _)). simpl. auto.
  - exact (proj1 (proj2 (requirement_converters_agree Faults.cancelled_request))).
  - reflexivity.
Defined.

Lemma subscription_by_owner_success_witness :
  outcome (getDonationsByDonor (Scenario.make_env Scenario.healthy)
             "donor-7" Scenario.quiet Scenario.w0)
  = Ok (UnsubscribeChannel "donations-donor-7")
  /\ List.length (donation_callbacks
                    (emitted (getDonationsByDonor (Scenario.make_env Scenario.healthy)
                                "donor-7" Scenario.quiet Scenario.w0))) = 1%nat
  /\ outcome (getRequirementsByReceiver (Scenario.make_env Scenario.healthy)
                "ngo-3" Scenario.quiet Scenario.w0)
     = Ok (UnsubscribeChannel "requirements-ngo-3").
Proof.
  destruct (subscription_by_owner_success (Scenario.make_env Scenario.healthy)
              Scenario.w0) as [HD HR].
  destruct (HD "donor-7" Scenario.quiet Scenario.stored_food_rows
               eq_refl eq_refl eq_refl) as [H1 [H2 _]].
  destruct (HR "ngo-3" Scenario.quiet Scenario.stored_request_rows
               eq_refl eq_refl eq_refl) as [H3 _].
  split; [exact H1|]. split; [rewrite H2; reflexivity | exact H3].
Defined.

Lemma callback_exception_prevents_subscription_witness :
  outcome (getDonationsByDonor (Scenario.make_env Scenario.healthy)
             "donor-7" Faults.failing_callback Scenario.w0) = Ok NoOp
  /\ filter is_network_call
       (emitted (getDonationsByDonor (Scenario.make_env Scenario.healthy)
                   "donor-7" Faults.failing_callback Scenario.w0))
     = [FoodItemGetByDonor "donor-7"]
  /\ console_errors
       (emitted (getRequirementsByReceiver (Scenario.make_env Scenario.healthy)
                   "ngo-3" Faults.failing_callback Scenario.w0))
     = ["render failed"].
Proof.
  destruct (callback_exception_prevents_subscription
              (Scenario.make_env Scenario.healthy) Scenario.w0) as [HD HR].
  destruct (HD "donor-7" Faults.failing_callback Scenario.stored_food_rows
               "render failed" eq_refl eq_refl) as [H1 [_ H2]].
  destruct (HR "ngo-3" Faults.failing_callback Scenario.stored_request_rows
               "render failed" eq_refl eq_refl) as [_ [H3 _]].
  split; [exact H1|]. split; [exact H2 | exact H3].
Defined.

Lemma fetchAndCallback_always_calls_back_witness :
  donation_callbacks
    (emitted (fetchAndCallback_donations (Scenario.make_env Scenario.healthy)
                Scenario.quiet Scenario.w0))
  = [map convertSupabaseToFoodDonation Scenario.stored_food_rows]
  /\ requirement_callbacks
       (emitted (fetchAndCallback_requirements (Scenario.make_env Scenario.queries_fail)
                   Scenario.quiet Scenario.w0))
     = [[]].
Proof.
  destruct (fetchAndCallback_always_calls_back (Scenario.make_env Scenario.healthy)
              Scenario.w0) as [HD _].
  destruct (fetchAndCallback_always_calls_back (Scenario.make_env Scenario.queries_fail)
              Scenario.w0) as [_ HR].
  split.
  - exact (proj2 (proj2 (HD Scenario.quiet) (fun _ => eq_refl))).
  - exact (proj2 (proj2 (HR Scenario.quiet) (fun _ => eq_refl))).
Defined.

Lemma getAnalyticsData_reads_the_mirror_witness :
  outcome (getAnalyticsData (Scenario.make_env Scenario.healthy) Scenario.w0)
  = Ok (O, {| donations := FreshArray [Scenario.mirrored_donation];
              requirements := FreshArray [];
              matches := FreshArray [] |})
  /\ outcome (getAnalyticsData (Faults.make_env Faults.reads_fail) Scenario.w0)
     = Ok (O, mock_data)
  /\ List.length (console_errors
                    (emitted (getAnalyticsData (Faults.make_env Faults.reads_fail)
                                Scenario.w0))) = 1%nat.
Proof.
  destruct (getAnalyticsData_reads_the_mirror (Scenario.make_env Scenario.healthy)
              Scenario.w0 eq_refl eq_refl) as [_ [Hok _]].
  destruct (getAnalyticsData_reads_the_mirror (Faults.make_env Faults.reads_fail)
              Scenario.w0 eq_refl eq_refl) as [_ [_ Hfail]].
  split.
  - exact (proj1 (Hok [Scenario.mirrored_donation] [] [] eq_refl eq_refl eq_refl)).
  - apply Hfail. left. exists "permission denied". reflexivity.
Defined.

Lemma writes_keep_the_analytics_cache_witness :
  getAnalyticsData (Faults.make_env Faults.mock_mode)
    (final (createDonation (Faults.make_env Faults.mock_mode)
              Scenario.donation Faults.cached))
  = MkRun (Ok (O, mock_data))
      (final (createDonation (Faults.make_env Faults.mock_mode)
                Scenario.donation Faults.cached))
      [].
Proof.
  destruct (writes_keep_the_analytics_cache (Faults.make_env Faults.mock_mode)
              Faults.cached) as [_ [_ [_ [_ [_ H]]]]].
  apply (H Scenario.donation (O, mock_data)); reflexivity.
Defined.

Lemma updateMatchStatus_mock_mode_witness :
  outcome (updateMatchStatus (Faults.make_env Faults.mock_mode)
             "1" "completed" Scenario.w0) = Ok tt
  /\ map m_status
       (mockMatches (final (updateMatchStatus (Faults.make_env Faults.mock_mode)
                              "1" "completed" Scenario.w0)))
     = ["completed"; "pending"]
  /\ updateMatchStatus (Faults.make_env Faults.mock_mode) "tx-1" "completed" Scenario.w0
     = MkRun (Ok tt) Scenario.w0 [].
Proof.
  destruct (updateMatchStatus_mock_mode (Faults.make_env Faults.mock_mode)
              Scenario.w0 "1" "completed" eq_refl) as [H1 [_ [_ [_ [_ [_ [_ H2]]]]]]].
  destruct (updateMatchStatus_mock_mode (Faults.make_env Faults.mock_mode)
              Scenario.w0 "tx-1" "completed" eq_refl) as [_ [_ [_ [_ [_ [_ [H3 _]]]]]]].
  split; [exact H1|]. split.
  - rewrite (H2 [] Faults.match_1 (tl (mockMatches Scenario.w0))
               eq_refl (Forall_nil _) eq_refl).
    reflexivity.
  - apply H3. repeat constructor; discriminate.
Defined.

Lemma cached_placeholder_follows_mock_update_witness :
  getAnalyticsData (Faults.make_env Faults.mock_mode)
    (final (updateMatchStatus (Faults.make_env Faults.mock_mode)
              "1" "completed" Faults.cached))
  = MkRun (Ok (O, mock_data))
      (final (updateMatchStatus (Faults.make_env Faults.mock_mode)
                "1" "completed" Faults.cached))
      []
  /\ map m_status (matches_of Faults.cached mock_data) = ["confirmed"; "pending"]
  /\ map m_status
       (matches_of (final (updateMatchStatus (Faults.make_env Faults.mock_mode)
                             "1" "completed" Faults.cached))
          mock_data)
     = ["completed"; "pending"].
Proof.
  destruct (cached_placeholder_follows_mock_update (Faults.make_env Faults.mock_mode)
              Faults.cached "1" "completed" (O, mock_data) eq_refl eq_refl eq_refl)
    as [H1 [H2 _]].
  destruct (H2 eq_refl [] Faults.match_1 (tl (mockMatches Faults.cached))
               eq_refl (Forall_nil _) eq_refl) as [H3 H4].
  split; [exact H1|]. split.
  - change (snd (O, mock_data)) with (mock_data (N := DecimalNumbers)) in H3.
    rewrite H3. reflexivity.
  - change (snd (O, mock_data)) with (mock_data (N := DecimalNumbers)) in H4.
    rewrite H4. reflexivity.
Defined.

Lemma isDatabaseAvailable_decides_on_both_values_witness :
  hasValidConfig (Scenario.make_env Scenario.healthy) = true
  /\ outcome (isDatabaseAvailable (Scenario.make_env Scenario.healthy) Scenario.w0)
     = Ok true.
Proof.
  destruct (isDatabaseAvailable_decides_on_both_values
              (Scenario.make_env Scenario.healthy) Scenario.w0) as [Hiff [Ho _]].
  assert (Hv : hasValidConfig (Scenario.make_env Scenario.healthy) = true).
  { apply (proj2 Hiff). exists "AIzaSyExample", "food-bridge".
    repeat split; try reflexivity; discriminate. }
  split; [exact Hv|]. rewrite Ho, Hv. reflexivity.
Defined.

Lemma repeated_create_writes_twice_witness :
  map fii_pickup_time
    (food_item_creates
       (emitted (bind (createDonation (Scenario.make_env Scenario.healthy)
                         Scenario.donation)
                      (fun _ => createDonation (Scenario.make_env Scenario.healthy)
                                  Scenario.donation)
                      Scenario.w0)))
  = ["2023-11-14T22:13:20.000Z"; "2023-11-14T22:13:20.060Z"].
Proof.
  rewrite (proj1 (repeated_create_writes_twice (Scenario.make_env Scenario.healthy)
                    Scenario.w0 Scenario.donation "food-1" eq_refl)).
  reflexivity.
Defined.

Lemma unsubscribe_after_subscribe_witness :
  Registry.unsubscribe nat
    (Registry.subscribe nat [Faults.first_listener; Faults.second_listener]
       Faults.third_listener)
    Faults.third_listener
  = [Faults.first_listener; Faults.second_listener]
  /\ Registry.unsubscribe nat
       (Registry.subscribe nat [Faults.first_listener; Faults.second_listener]
          Faults.first_listener)
       Faults.first_listener
     = [Faults.second_listener; Faults.first_listener].
Proof.
  split.
  - apply (proj1 (unsubscribe_after_subscribe nat
                    [Faults.first_listener; Faults.second_listener]
                    Faults.third_listener)).
    reflexivity.
  - rewrite (proj1 (proj2 (unsubscribe_after_subscribe nat
                             [Faults.first_listener; Faults.second_listener]
                             Faults.first_listener))).
    + reflexivity.
    + cbv. lia.
Defined.


Lemma notify_after_unsubscribe_witness :
  Registry.calls nat
    (fst (Registry.notify nat Faults.leave_alone
            (Registry.unsubscribe nat
               [Faults.first_listener; Faults.second_listener; Faults.third_listener]
               Faults.second_listener)
            [7%nat]))
  = [(Faults.first_listener, [7%nat]); (Faults.third_listener, [7%nat])].
Proof.
  rewrite (proj1 (notify_after_unsubscribe nat Faults.leave_alone
                    [Faults.first_listener; Faults.second_listener;
                     Faults.third_listener]
                    Faults.second_listener [7%nat] ltac:(cbv; lia)
                    ltac:(repeat constructor))).
  reflexivity.
Defined.

Lemma updateUserRole_runs_witness :
  role_outcome (updateUserRole (Scenario.make_env Scenario.healthy)
                  Faults.refused_role_update "donor-7" "donor" Scenario.w0)
  = Throw "PERMISSION_DENIED"
  /\ role_updates (role_emitted
                     (updateUserRole (Scenario.make_env Scenario.healthy)
                        Faults.refused_role_update "donor-7" "donor" Scenario.w0))
     = [("users/donor-7", "donor")]
  /\ role_updates (role_emitted
                     (updateUserRole (Faults.make_env Faults.mock_mode)
                        Faults.refused_role_update "donor-7" "donor" Scenario.w0))
     = [].
Proof.
  destruct (updateUserRole_runs (Scenario.make_env Scenario.healthy)
              Faults.refused_role_update "donor-7" "donor" Scenario.w0) as [H _].
  destruct (updateUserRole_runs (Faults.make_env Faults.mock_mode)
              Faults.refused_role_update "donor-7" "donor" Scenario.w0) as [_ H'].
  destruct (H eq_refl) as [H1 H2].
  destruct H' as [H3 _]; [discriminate|].
  split; [exact H2|]. split; [exact H1 | exact H3].
Defined.
